(** * DEVONthink MCP server: script generation, record resolution and
      result marshalling.

    The TypeScript tools validate their input, build the source text of a
    JXA (JavaScript for Automation) script by template interpolation, run it
    out of process and parse the JSON document it prints.  The development
    follows that pipeline:

    - [JS]        the part of the JavaScript lexical grammar the templates
                  rely on (double-quoted string literals) and JSON values;
    - [Sanitizer] utils/escapeString;
    - [Formatter] DevonThinkTool.formatValue and its sibling helpers;
    - [App]       the scripting surface of the application, as a state;
    - [Helpers]   utils/jxaHelpers;
    - [Tools]     the tools, one TypeScript function and one script each;
    - [Server]    the CallTool request handler. *)

From Stdlib Require Import String Ascii List ZArith Bool Lia DecimalString.
Import ListNotations.
Set Warnings "-register-all".
Local Open Scope list_scope.
Local Open Scope string_scope.

(** ** Characters and text *)

Module JS.

Definition dquote : ascii := "034"%char.
Definition backslash : ascii := "092"%char.
Definition LF : ascii := "010"%char.
Definition CR : ascii := "013"%char.
Definition TAB : ascii := "009"%char.

(** The one-character text holding a double quote. *)
Definition DQ : string := String dquote EmptyString.
Definition BS : string := String backslash EmptyString.

(** [Array.prototype.join]. *)
Fixpoint join (sep : string) (l : list string) : string :=
  match l with
  | [] => EmptyString
  | [x] => x
  | x :: rest => x ++ sep ++ join sep rest
  end.

(** The text that follows the first line of a joined list. *)
Definition joinTail (sep : string) (l : list string) (t : string) : string :=
  match l with
  | [] => t
  | _ :: _ => sep ++ join sep l ++ t
  end.

Fixpoint isPrefix (p s : string) : bool :=
  match p, s with
  | EmptyString, _ => true
  | String a p', String b s' => Ascii.eqb a b && isPrefix p' s'
  | String _ _, EmptyString => false
  end.

(** [String.prototype.includes]. *)
Fixpoint includes (s sub : string) : bool :=
  isPrefix sub s ||
  match s with
  | EmptyString => false
  | String _ s' => includes s' sub
  end.

(** *** Double-quoted string literals

    The value of the character after a backslash.  The single escape
    characters are mapped to the character they denote; [x], [u], digits and
    line terminators start escapes that are left out of this model; every
    other character stands for itself. *)
Definition unescape (e : ascii) : option ascii :=
  if Ascii.eqb e "n" then Some LF
  else if Ascii.eqb e "r" then Some CR
  else if Ascii.eqb e "t" then Some TAB
  else if Ascii.eqb e "b" then Some "008"%char
  else if Ascii.eqb e "f" then Some "012"%char
  else if Ascii.eqb e "v" then Some "011"%char
  else if Ascii.eqb e "x" || Ascii.eqb e "u" then None
  else if (48 <=? nat_of_ascii e)%nat && (nat_of_ascii e <=? 57)%nat then None
  else if Ascii.eqb e LF || Ascii.eqb e CR then None
  else Some e.

(** Reads the characters of a literal after its opening quote; the closing
    quote has to be the last character of the text.  [None] when the text
    is not one literal of the modelled grammar. *)
Fixpoint decodeBody (s : string) : option string :=
  match s with
  | EmptyString => None
  | String c rest =>
      if Ascii.eqb c dquote then
        match rest with
        | EmptyString => Some EmptyString
        | String _ _ => None
        end
      else if Ascii.eqb c backslash then
        match rest with
        | EmptyString => None
        | String e rest' =>
            match unescape e, decodeBody rest' with
            | Some ch, Some v => Some (String ch v)
            | _, _ => None
            end
        end
      else if Ascii.eqb c LF || Ascii.eqb c CR then None
      else
        match decodeBody rest with
        | Some v => Some (String c v)
        | None => None
        end
  end.

(** The characters that stand for themselves between the quotes of a
    literal: all but the quote, the backslash and the line terminators. *)
Definition plainChar (c : ascii) : bool :=
  negb (Ascii.eqb c dquote || Ascii.eqb c backslash
        || Ascii.eqb c LF || Ascii.eqb c CR).

Fixpoint plainText (s : string) : bool :=
  match s with
  | EmptyString => true
  | String c rest => plainChar c && plainText rest
  end.

Definition stringLiteralValue (src : string) : option string :=
  match src with
  | String c body => if Ascii.eqb c dquote then decodeBody body else None
  | EmptyString => None
  end.

(** The value of a template hole that holds either the token [null] or a
    string literal: [Some None] for [null], [Some (Some v)] for a literal
    of value [v], [None] when the text is neither. *)
Definition evalStringOrNull (src : string) : option (option string) :=
  if String.eqb src "null" then Some None
  else match stringLiteralValue src with
       | Some v => Some (Some v)
       | None => None
       end.

(** JavaScript truthiness of an optional string: [undefined], [null] and
    the empty string are falsy. *)
Definition truthy (o : option string) : bool :=
  match o with
  | Some (String _ _) => true
  | _ => false
  end.

(** What a script sees of an optional field of the caller: an empty text
    is falsy on the TypeScript side and reaches the script as [null]. *)
Definition seen (x : option string) : option string :=
  match x with
  | Some (String c s) => Some (String c s)
  | _ => None
  end.

(** [x || d] on optional strings. *)
Definition orElse (o : option string) (d : string) : string :=
  match o with
  | Some (String c s) => String c s
  | _ => d
  end.

(** *** JSON documents *)
Inductive json : Type :=
| JNull
| JBool (b : bool)
| JNum (z : Z)
| JStr (s : string)
| JArr (l : list json)
| JObj (fields : list (string * json)).

Fixpoint field (k : string) (fields : list (string * json)) : option json :=
  match fields with
  | [] => None
  | (k', v) :: rest => if String.eqb k k' then Some v else field k rest
  end.

Definition get (k : string) (j : json) : option json :=
  match j with
  | JObj fields => field k fields
  | _ => None
  end.

(** [Error.prototype.toString] of [new Error(message)]. *)
Definition errorToString (message : string) : string := "Error: " ++ message.

End JS.

(** ** utils/escapeString *)

Module Sanitizer.
Import JS.

(** Modelled from the spec: [escapeStringForJXA] of utils/escapeString is
    missing.  It turns a text into one that is safe inside a double-quoted
    literal: backslashes and double quotes are escaped, and so are the
    characters with a special meaning in the literal grammar, the line
    terminators. *)
Definition escapeChar (c : ascii) : string :=
  if Ascii.eqb c backslash then String backslash BS
  else if Ascii.eqb c dquote then String backslash DQ
  else if Ascii.eqb c LF then String backslash "n"
  else if Ascii.eqb c CR then String backslash "r"
  else String c EmptyString.

Fixpoint escapeStringForJXA (s : string) : string :=
  match s with
  | EmptyString => EmptyString
  | String c rest => escapeChar c ++ escapeStringForJXA rest
  end.

Definition isControl (c : ascii) : bool :=
  (nat_of_ascii c <? 32)%nat || (nat_of_ascii c =? 127)%nat.

Section Allow.

(** The allow-list of control characters is not enumerated by the spec. *)
Variable allowedControl : ascii -> bool.

Definition disallowedControl (c : ascii) : bool :=
  isControl c && negb (allowedControl c).

Definition unsafeChar (c : ascii) : bool :=
  Ascii.eqb c dquote || Ascii.eqb c backslash || disallowedControl c.

(** Modelled from the spec: [isJXASafeString] of utils/escapeString is
    missing.  It is false on every text that holds a double quote, a
    backslash or a control character outside the allow-list. *)
Fixpoint isJXASafeString (s : string) : bool :=
  match s with
  | EmptyString => true
  | String c rest => negb (unsafeChar c) && isJXASafeString rest
  end.

(** The text holds a double quote, a backslash or a control character that
    is not allowed. *)
Definition ContainsUnsafe (s : string) : Prop :=
  exists c : ascii,
    In c (list_ascii_of_string s)
    /\ (c = dquote \/ c = backslash \/ disallowedControl c = true).

End Allow.

(** The allow-list used in the examples: tab, line feed, carriage return. *)
Definition tabAndNewlines (c : ascii) : bool :=
  Ascii.eqb c TAB || Ascii.eqb c LF || Ascii.eqb c CR.

End Sanitizer.

(** ** tools/base/DevonThinkTool: helpers handed to [buildScript] *)

Module Formatter.
Import JS Sanitizer.

(** The values [formatValue] is applied to: what JSON can carry, and
    [undefined].  Numbers are the integers; [String(value)] prints them in
    decimal. *)
Inductive value : Type :=
| VNull
| VUndefined
| VString (s : string)
| VNumber (z : Z)
| VBoolean (b : bool)
| VArray (items : list value)
| VObject (entries : list (string * value)).

(** An induction principle that reaches the items of arrays and the values
    of objects. *)
Section ValueInduction.

Variable P : value -> Prop.
Hypothesis Hnull : P VNull.
Hypothesis Hundefined : P VUndefined.
Hypothesis Hstring : forall s, P (VString s).
Hypothesis Hnumber : forall z, P (VNumber z).
Hypothesis Hboolean : forall b, P (VBoolean b).
Hypothesis Harray : forall items, Forall P items -> P (VArray items).
Hypothesis Hobject :
  forall entries, Forall (fun kv => P (snd kv)) entries -> P (VObject entries).

Fixpoint value_nested_ind (v : value) : P v :=
  match v with
  | VNull => Hnull
  | VUndefined => Hundefined
  | VString s => Hstring s
  | VNumber z => Hnumber z
  | VBoolean b => Hboolean b
  | VArray items =>
      Harray items
        ((fix all (l : list value) : Forall P l :=
            match l with
            | [] => Forall_nil P
            | x :: rest => Forall_cons x (value_nested_ind x) (all rest)
            end) items)
  | VObject entries =>
      Hobject entries
        ((fix all (l : list (string * value))
            : Forall (fun kv => P (snd kv)) l :=
            match l with
            | [] => Forall_nil _
            | kv :: rest =>
                Forall_cons kv (value_nested_ind (snd kv)) (all rest)
            end) entries)
  end.

End ValueInduction.

(** [String(n)] for a whole number: its decimal digits, with a sign when
    it is negative.  JavaScript writes a number this way when it is whole
    and smaller than 10^21 in size; fractions and larger numbers, which it
    writes otherwise, are outside [Z] as it is used here. *)
Definition numberToString (z : Z) : string :=
  NilZero.string_of_int (Z.to_int z).

Definition booleanToString (b : bool) : string :=
  if b then "true" else "false".

(** The statement pushed for one entry of an object. *)
Definition assignment (key : string) (formatted : string) : string :=
  "obj[" ++ DQ ++ escapeStringForJXA key ++ DQ ++ "] = " ++ formatted ++ ";".

Fixpoint formatValue (v : value) : string :=
  match v with
  | VNull | VUndefined => "null"
  | VString s => DQ ++ escapeStringForJXA s ++ DQ
  | VNumber z => numberToString z
  | VBoolean b => booleanToString b
  | VArray items => "[" ++ join ", " (map formatValue items) ++ "]"
  | VObject entries =>
      let lines :=
        "const obj = {};"
          :: map (fun kv => match kv with
                            | (key, val) => assignment key (formatValue val)
                            end) entries in
      "(function() { " ++ join " " lines ++ " return obj; })()"
  end.

Definition defaultErrorHandler : string :=
"
      const errorResponse = {};
      errorResponse[" ++ DQ ++ "success" ++ DQ ++ "] = false;
      errorResponse[" ++ DQ ++ "error" ++ DQ ++ "] = error.toString();
      return JSON.stringify(errorResponse);
    ".

Definition wrapInTryCatch (code : string) (errorHandler : option string) : string :=
"
      try {
        " ++ code ++ "
      } catch (error) {
        " ++ orElse errorHandler defaultErrorHandler ++ "
      }
    ".

Definition buildDatabaseLookup (databaseName : option string) : string :=
  match databaseName with
  | Some (String c s) =>
"
      const databases = theApp.databases();
      const targetDatabase = databases.find(db => db.name() === " ++ DQ ++ escapeStringForJXA (String c s) ++ DQ ++ ");
      if (!targetDatabase) {
        throw new Error(" ++ DQ ++ "Database not found: " ++ escapeStringForJXA (String c s) ++ DQ ++ ");
      }
    "
  | _ => "const targetDatabase = theApp.currentDatabase();"
  end.

(** Braces in code position.  The text is read left to right, string
    literals are skipped, and every opening brace met outside a literal has
    to open either the empty object [{}] or the body of the function that
    declares [obj]: an object literal with members fails the test. *)
Inductive lexState : Type := Code | InString | InEscape.

Fixpoint bracesDeclareOnly (st : lexState) (s : string) : bool :=
  match s with
  | EmptyString => true
  | String c rest =>
      match st with
      | Code =>
          if Ascii.eqb c dquote then bracesDeclareOnly InString rest
          else if Ascii.eqb c "{" then
            (isPrefix "}" rest || isPrefix " const obj = {};" rest)
            && bracesDeclareOnly Code rest
          else bracesDeclareOnly Code rest
      | InString =>
          if Ascii.eqb c backslash then bracesDeclareOnly InEscape rest
          else if Ascii.eqb c dquote then bracesDeclareOnly Code rest
          else bracesDeclareOnly InString rest
      | InEscape => bracesDeclareOnly InString rest
      end
  end.

Fixpoint isSuffix (p s : string) : bool :=
  String.eqb p s ||
  match s with
  | EmptyString => false
  | String _ s' => isSuffix p s'
  end.

End Formatter.

(** ** The application behind [Application("DEVONthink")] *)

Module App.
Import JS.

Record database : Type := mkDatabase {
  db_id : Z;
  db_name : string
}.

Record record : Type := mkRecord {
  r_id : Z;
  r_uuid : string;
  r_name : string;
  r_path : string;
  r_location : string;
  r_recordType : string;
  r_kind : string;
  r_creationDate : option string;
  r_modificationDate : option string;
  r_tags : list string;
  r_size : Z;
  r_url : option string;
  r_comment : option string;
  r_score : option Z;
  r_database : database
}.

(** What a call into the application does: it returns or it throws; the
    text is what [toString()] gives for the thrown error. *)
Inductive call (A : Type) : Type :=
| Returned (a : A)
| Threw (text : string).
Arguments Returned {A} a.
Arguments Threw {A} text.

Inductive scope : Type :=
| InRecord (r : record)
| InRootOf (d : database)
| InDatabase (d : database).

Record searchOptions : Type := mkSearchOptions {
  so_in : option scope;
  so_comparison : option string;
  so_excludeSubgroups : option bool
}.

(** The commands that change the application's data, as they are sent. *)
Inductive command : Type :=
| CmdSetName (uuid : string) (name : option string)
| CmdSetTags (uuid : string) (tags : list string)
| CmdDelete (uuid : string)
| CmdMove (uuid : string) (toUuid : string).

(** What the application does with [record.name = value], where the value
    is a text or [null]: it takes the value, and the record then bears a
    name, or it raises an error, which reaches the script as an [Error]
    object with a message. *)
Inductive renamed : Type :=
| Named (name : string)
| Refused (message : string).

(** The state of the application.  The last four fields are its own
    decisions, which no script controls: what it makes of a new name,
    whether it deletes a record, where a moved record ends up (if it moves
    it at all), and what a search finds. *)
Record state : Type := mkState {
  databases : list database;
  currentDatabase : option database;
  currentGroup : option record;
  records : list record;
  journal : list command;
  nameVerdict : record -> option string -> renamed;
  deleteVerdict : record -> call bool;
  moveVerdict : record -> record -> call (option string);
  searchVerdict : string -> searchOptions -> call (option (list record))
}.

Definition database_eqb (a b : database) : bool :=
  Z.eqb (db_id a) (db_id b) && String.eqb (db_name a) (db_name b).

Definition getRecordWithUuid (st : state) (uuid : string) : option record :=
  find (fun r => String.eqb (r_uuid r) uuid) (records st).

Definition getRecordWithId (st : state) (db : database) (id : Z) : option record :=
  find (fun r => Z.eqb (r_id r) id && database_eqb (r_database r) db) (records st).

Definition getRecordAt (st : state) (db : database) (path : string) : option record :=
  find (fun r => String.eqb (r_location r) path && database_eqb (r_database r) db)
       (records st).

(** [databases.find(db => db.name() === name)]. *)
Definition findDatabase (st : state) (name : string) : option database :=
  find (fun db => String.eqb (db_name db) name) (databases st).

(** [db] is the first of the open databases that bears the name. *)
Definition FirstNamed (dbs : list database) (name : string) (db : database)
  : Prop :=
  exists before after : list database,
    dbs = (before ++ db :: after)%list
    /\ db_name db = name
    /\ Forall (fun d => db_name d <> name) before.

Definition NoneNamed (dbs : list database) (name : string) : Prop :=
  Forall (fun d => db_name d <> name) dbs.

Definition withRecords (st : state) (rs : list record) (c : command) : state :=
  mkState (databases st) (currentDatabase st) (currentGroup st) rs
          (journal st ++ [c])%list
          (nameVerdict st) (deleteVerdict st) (moveVerdict st)
          (searchVerdict st).

Definition journalled (st : state) (c : command) : state :=
  withRecords st (records st) c.

Definition updateRecord (uuid : string) (f : record -> record) (rs : list record)
  : list record :=
  map (fun r => if String.eqb (r_uuid r) uuid then f r else r) rs.

Definition withName (name : string) (r : record) : record :=
  mkRecord (r_id r) (r_uuid r) name (r_path r) (r_location r) (r_recordType r)
           (r_kind r) (r_creationDate r) (r_modificationDate r) (r_tags r)
           (r_size r) (r_url r) (r_comment r) (r_score r) (r_database r).

Definition withTags (tags : list string) (r : record) : record :=
  mkRecord (r_id r) (r_uuid r) (r_name r) (r_path r) (r_location r)
           (r_recordType r) (r_kind r) (r_creationDate r) (r_modificationDate r)
           tags (r_size r) (r_url r) (r_comment r) (r_score r) (r_database r).

Definition withLocation (location : string) (r : record) : record :=
  mkRecord (r_id r) (r_uuid r) (r_name r) (r_path r) location
           (r_recordType r) (r_kind r) (r_creationDate r) (r_modificationDate r)
           (r_tags r) (r_size r) (r_url r) (r_comment r) (r_score r)
           (r_database r).

(** [record.name = name], where [name] is a text or [null]: the command is
    sent, and the application takes the value or raises an error. *)
Definition setName (st : state) (r : record) (name : option string)
  : renamed * state :=
  match nameVerdict st r name with
  | Named newName =>
      (Named newName,
       withRecords st
         (updateRecord (r_uuid r) (withName newName) (records st))
         (CmdSetName (r_uuid r) name))
  | Refused message =>
      (Refused message, journalled st (CmdSetName (r_uuid r) name))
  end.

(** [record.tags = tags]; the application keeps the list it is given. *)
Definition setTags (st : state) (r : record) (tags : list string) : state :=
  withRecords st (updateRecord (r_uuid r) (withTags tags) (records st))
              (CmdSetTags (r_uuid r) tags).

(** [record.tags()], read from the application. *)
Definition tagsOf (st : state) (uuid : string) : list string :=
  match getRecordWithUuid st uuid with
  | Some r => r_tags r
  | None => []
  end.

(** [theApp.delete({ record })]. *)
Definition delete (st : state) (r : record) : call bool * state :=
  match deleteVerdict st r with
  | Returned true =>
      (Returned true,
       withRecords st
         (filter (fun r' => negb (String.eqb (r_uuid r') (r_uuid r))) (records st))
         (CmdDelete (r_uuid r)))
  | other => (other, journalled st (CmdDelete (r_uuid r)))
  end.

(** [theApp.move({ record, to })]: the moved record, or a missing value. *)
Definition move (st : state) (r dest : record) : call (option record) * state :=
  match moveVerdict st r dest with
  | Returned (Some location) =>
      (Returned (Some (withLocation location r)),
       withRecords st (updateRecord (r_uuid r) (withLocation location) (records st))
                   (CmdMove (r_uuid r) (r_uuid dest)))
  | Returned None => (Returned None, journalled st (CmdMove (r_uuid r) (r_uuid dest)))
  | Threw text => (Threw text, journalled st (CmdMove (r_uuid r) (r_uuid dest)))
  end.

(** [theApp.search(query, options)]. *)
Definition search (st : state) (query : string) (options : searchOptions)
  : call (option (list record)) :=
  searchVerdict st query options.

End App.

(** ** utils/jxaHelpers: the helpers injected into the scripts *)

Module Helpers.
Import JS App.

Record lookupOptions : Type := mkLookupOptions {
  lo_uuid : option string;
  lo_id : option Z;
  lo_path : option string;
  lo_name : option string;
  lo_database : option database
}.

Record lookupResult : Type := mkLookupResult {
  lr_record : option record;
  lr_error : option string
}.

Definition found (r : record) : lookupResult := mkLookupResult (Some r) None.
Definition notFound (reason : string) : lookupResult :=
  mkLookupResult None (Some reason).

(** Modelled from the spec: [getDatabase] of utils/jxaHelpers is missing.
    Without a name it is the currently active database, and it fails if
    none is active; with a name it is the first open database whose name
    matches exactly, and it fails with a named-database-not-found error if
    there is none.  The left summand is the message of the thrown error. *)
Definition getDatabase (st : state) (databaseName : option string)
  : string + database :=
  match databaseName with
  | Some (String c s) =>
      match findDatabase st (String c s) with
      | Some db => inr db
      | None => inl ("Database not found: " ++ String c s)
      end
  | _ =>
      match currentDatabase st with
      | Some db => inr db
      | None => inl "No current database"
      end
  end.

(** Modelled from the spec: the database an ID or path lookup of
    [getRecord] runs in, the explicit one or else the current one. *)
Definition lookupDatabase (st : state) (o : lookupOptions) : option database :=
  match lo_database o with
  | Some db => Some db
  | None => currentDatabase st
  end.

(** Modelled from the spec: [getRecord] of utils/jxaHelpers is missing.
    A UUID, if present, is looked up globally and nothing else is consulted,
    whether the record is found or not; else an ID, if present, is looked up
    in the resolved database; else a path, if present, is looked up from the
    root of the resolved database; else no identifier was provided.  The
    reasons name the identifier and, for ID and path lookups, the
    database. *)
Definition getRecord (st : state) (o : lookupOptions) : lookupResult :=
  match lo_uuid o with
  | Some (String c s) =>
      match getRecordWithUuid st (String c s) with
      | Some r => found r
      | None => notFound ("No record with UUID " ++ String c s)
      end
  | _ =>
      match lo_id o with
      | Some id =>
          match lookupDatabase st o with
          | Some db =>
              match getRecordWithId st db id with
              | Some r => found r
              | None =>
                  notFound ("No record with ID "
                            ++ Formatter.numberToString id
                            ++ " in database " ++ db_name db)
              end
          | None => notFound "No database to look the ID up in"
          end
      | None =>
          match lo_path o with
          | Some (String c s) =>
              match lookupDatabase st o with
              | Some db =>
                  match getRecordAt st db (String c s) with
                  | Some r => found r
                  | None =>
                      notFound ("No record at path " ++ String c s
                                ++ " in database " ++ db_name db)
                  end
              | None => notFound "No database to look the path up in"
              end
          | _ => notFound "No identifier provided"
          end
      end
  end.

Definition byUuid (uuid : option string) : lookupOptions :=
  mkLookupOptions uuid None None None None.

End Helpers.

(** ** The tools *)

Module Tools.
Import JS Sanitizer App Helpers.

Definition success : json := JObj [("success", JBool true)].
Definition failure (error : string) : json :=
  JObj [("success", JBool false); ("error", JStr error)].

(** Whether a result document carries [success: true]. *)
Definition isSuccess (result : json) : bool :=
  match get "success" result with
  | Some (JBool true) => true
  | _ => false
  end.

(** [x ? x.toString() : null] and friends, as JSON. *)
Definition jsonOfOption (o : option string) : json :=
  match o with
  | Some s => JStr s
  | None => JNull
  end.

Definition jsonOfTags (tags : list string) : json := JArr (map JStr tags).

(** JavaScript truthiness of a number or [null]. *)
Definition truthyNumber (o : option Z) : bool :=
  match o with
  | Some z => negb (Z.eqb z 0)
  | None => false
  end.

(** What [toString()] gives for the [TypeError] raised when a method is
    called on [undefined]. *)
Definition typeErrorText (what : string) : string :=
  "TypeError: undefined is not an object (evaluating '" ++ what ++ "')".

(** *** rename_record: the script *)

Definition uuidNotFound (uuid : option string) : string :=
  "Record with UUID " ++ orElse uuid "unknown" ++ " not found".

Definition uuidNotFoundIn (uuid pDatabaseName : option string) : string :=
  "Record with UUID " ++ orElse uuid "unknown" ++ " not found in database "
  ++ orElse pDatabaseName "unknown".

(** The check that follows the lookup in rename_record, get_record_content
    and remove_tags: [pDatabaseName && record.database().name() !==
    pDatabaseName]. *)
Definition inOtherDatabase (pDatabaseName : option string) (r : record) : bool :=
  truthy pDatabaseName
  && negb (String.eqb (db_name (r_database r)) (orElse pDatabaseName EmptyString)).

Definition renameRecordScript (uuid pDatabaseName newName : option string)
  (st : state) : json * state :=
  match lr_record (getRecord st (byUuid uuid)) with
  | None => (failure (uuidNotFound uuid), st)
  | Some record =>
      if inOtherDatabase pDatabaseName record then
        (failure (uuidNotFoundIn uuid pDatabaseName), st)
      else
        (* [record.name = newName], inside [try]; [newName] is [null] when
           the caller gave an empty text *)
        match setName st record newName with
        | (Named _, st') => (success, st')
        | (Refused message, st') => (failure (errorToString message), st')
        end
  end.

(** *** get_record_by_identifier: the script *)

Definition recordProperties (targetRecord : record) (databaseName : string) : json :=
  JObj ([("id", JNum (r_id targetRecord));
         ("uuid", JStr (r_uuid targetRecord));
         ("name", JStr (r_name targetRecord));
         ("path", JStr (r_path targetRecord));
         ("location", JStr (r_location targetRecord));
         ("recordType", JStr (r_recordType targetRecord));
         ("kind", JStr (r_kind targetRecord));
         ("database", JStr databaseName);
         ("creationDate", jsonOfOption (r_creationDate targetRecord));
         ("modificationDate", jsonOfOption (r_modificationDate targetRecord));
         ("tags", jsonOfTags (r_tags targetRecord));
         ("size", JNum (r_size targetRecord))]
        ++ (if truthy (r_url targetRecord)
            then [("url", jsonOfOption (r_url targetRecord))] else [])
        ++ (if truthy (r_comment targetRecord)
            then [("comment", jsonOfOption (r_comment targetRecord))] else []))%list.

Definition foundRecord (targetRecord : record) (targetDatabase : database) : json :=
  JObj [("success", JBool true);
        ("record", recordProperties targetRecord (db_name targetDatabase))].

Definition getRecordByIdentifierScript
  (uuid : option string) (id : option Z) (databaseName : option string)
  (st : state) : json * state :=
  if truthy uuid then
    match lr_record (getRecord st (byUuid uuid)) with
    | None => (failure (uuidNotFound uuid), st)
    | Some targetRecord => (foundRecord targetRecord (r_database targetRecord), st)
    end
  else if truthyNumber id && truthy databaseName then
    match getDatabase st databaseName with
    | inl message => (failure (errorToString message), st)
    | inr targetDatabase =>
        match lr_record (getRecord st (mkLookupOptions None id None None
                                                       (Some targetDatabase))) with
        | None =>
            (failure ("Record with ID " ++ Formatter.numberToString (match id with Some z => z | None => 0%Z end)
                      ++ " not found in database '"
                      ++ orElse databaseName "unknown" ++ "'"), st)
        | Some targetRecord => (foundRecord targetRecord targetDatabase, st)
        end
    end
  else (failure (typeErrorText "targetRecord.id"), st).

(** *** remove_tags: the script *)

(** [existingTags.filter(tag => !tagsToRemove.has(tag))]. *)
Definition has (tagsToRemove : list string) (tag : string) : bool :=
  existsb (String.eqb tag) tagsToRemove.

Definition newTags (existingTags tagsToRemove : list string) : list string :=
  filter (fun tag => negb (has tagsToRemove tag)) existingTags.

Definition removeTagsScript (uuid pDatabaseName : option string)
  (tags : list string) (st : state) : json * state :=
  match lr_record (getRecord st (byUuid uuid)) with
  | None => (failure (uuidNotFound uuid), st)
  | Some record =>
      if inOtherDatabase pDatabaseName record then
        (failure (uuidNotFoundIn uuid pDatabaseName), st)
      else (success, setTags st record (newTags (r_tags record) tags))
  end.

(** *** delete_record: the script *)

Definition idNotFoundIn (recordId : option Z) (databaseName : string) : string :=
  "Record with ID "
  ++ match recordId with
     | Some id => Formatter.numberToString id
     | None => "undefined"
     end
  ++ " not found in database '" ++ databaseName ++ "'".

Definition pathNotFound (recordPath : option string) : string :=
  "Record at DEVONthink location path " ++ orElse recordPath "unknown"
  ++ " not found".

Definition deleteRecordScript (pDatabaseName uuid : option string)
  (recordId : option Z) (recordPath : option string)
  (st : state) : json * state :=
  match getDatabase st pDatabaseName with
  | inl message => (failure (errorToString message), st)
  | inr targetDatabase =>
      let lookupResult :=
        getRecord st (mkLookupOptions uuid recordId recordPath None
                                      (Some targetDatabase)) in
      match lr_record lookupResult with
      | None =>
          let errorDetails :=
            if truthyNumber recordId then
              idNotFoundIn recordId (db_name targetDatabase)
            else if truthy uuid then uuidNotFound uuid
            else if truthy recordPath then pathNotFound recordPath
            else orElse (lr_error lookupResult) "Record not found" in
          (failure errorDetails, st)
      | Some targetRecord =>
          match delete st targetRecord with
          | (Returned deleteResult, st') =>
              (JObj [("success", JBool deleteResult)], st')
          | (Threw text, st') => (failure text, st')
          end
      end
  end.

(** *** move_record: the script *)

Definition destinationNotFound (pDestinationGroupUuid : option string) : string :=
  "Destination group with UUID not found: "
  ++ orElse pDestinationGroupUuid "unknown".

Definition destinationNotGroup (destType : string) : string :=
  "Destination is not a group. Record type: " ++ destType.

Definition moveRecordScript (pDatabaseName uuid : option string)
  (recordId : option Z) (recordPath recordName pDestinationGroupUuid : option string)
  (st : state) : json * state :=
  match getDatabase st pDatabaseName with
  | inl message => (failure (errorToString message), st)
  | inr targetDatabase =>
      let lookupResult :=
        getRecord st (mkLookupOptions uuid recordId recordPath recordName
                                      (Some targetDatabase)) in
      match lr_record lookupResult with
      | None =>
          let errorDetails :=
            if truthyNumber recordId then
              idNotFoundIn recordId (db_name targetDatabase)
            else orElse (lr_error lookupResult) "Record not found" in
          (failure errorDetails, st)
      | Some targetRecord =>
          let destinationGroupRecord :=
            if truthy pDestinationGroupUuid
            then getRecordWithUuid st (orElse pDestinationGroupUuid EmptyString)
            else None in
          match destinationGroupRecord with
          | None =>
              (failure (errorToString (destinationNotFound pDestinationGroupUuid)), st)
          | Some destination =>
              let destType := r_recordType destination in
              if negb (String.eqb destType "group")
                 && negb (String.eqb destType "smart group") then
                (failure (errorToString (destinationNotGroup destType)), st)
              else
                match move st targetRecord destination with
                | (Returned (Some moveResult), st') =>
                    (JObj [("success", JBool true);
                           ("newLocation", JStr (r_location moveResult))], st')
                | (Returned None, st') => (failure "Failed to move record", st')
                | (Threw text, st') => (failure text, st')
                end
          end
      end
  end.

(** The record a destination UUID stands for, and whether move_record
    takes it as a destination. *)
Definition destinationOf (st : state) (destinationGroupUuid : option string)
  : option record :=
  if truthy destinationGroupUuid
  then getRecordWithUuid st (orElse destinationGroupUuid EmptyString)
  else None.

Definition isDestination (st : state) (destinationGroupUuid : option string)
  : bool :=
  match destinationOf st destinationGroupUuid with
  | Some destination =>
      String.eqb (r_recordType destination) "group"
      || String.eqb (r_recordType destination) "smart group"
  | None => false
  end.

(** *** search: the script *)

(** [Array.prototype.slice(0, end)] for an integer [end]. *)
Definition slice0 {A : Type} (l : list A) (end_ : Z) : list A :=
  let len := Z.of_nat (length l) in
  let final := if (end_ <? 0)%Z then Z.max (len + end_) 0 else Z.min end_ len in
  firstn (Z.to_nat final) l.

Definition searchResult (record : record) : json :=
  JObj ([("id", JNum (r_id record));
         ("uuid", JStr (r_uuid record));
         ("name", JStr (r_name record));
         ("path", JStr (r_path record));
         ("location", JStr (r_location record));
         ("recordType", JStr (r_recordType record));
         ("kind", JStr (r_kind record));
         ("creationDate", jsonOfOption (r_creationDate record));
         ("modificationDate", jsonOfOption (r_modificationDate record));
         ("tags", jsonOfTags (r_tags record));
         ("size", JNum (r_size record))]
        ++ match r_score record with
           | Some score => [("score", JNum score)]
           | None => []
           end)%list.

Definition searchPayload (results : list json) (totalCount : Z) : json :=
  JObj [("success", JBool true); ("results", JArr results);
        ("totalCount", JNum totalCount)].

(** [filteredResults]: the hits, narrowed to [pRecordType] when one is given. *)
Definition filterByType (pRecordType : option string) (searchResults : list record)
  : list record :=
  if truthy pRecordType then
    filter (fun record => String.eqb (r_recordType record)
                                     (orElse pRecordType EmptyString))
           searchResults
  else searchResults.

(** What the script returns once [theApp.search] has returned. *)
Definition searchReport (pRecordType : option string) (pLimit : Z)
  (searchResults : option (list record)) : json :=
  match searchResults with
  | None | Some [] => searchPayload [] 0
  | Some hits =>
      let filteredResults := filterByType pRecordType hits in
      let limitedResults := slice0 filteredResults pLimit in
      searchPayload (map searchResult limitedResults)
                    (Z.of_nat (length filteredResults))
  end.

Section Search.

(** [isGroup] and [isVersion41OrLater] of utils/jxaHelpers are missing and
    the spec does not describe them. *)
Variable isGroup : record -> bool.
Variable isVersion41OrLater : state -> bool.

Definition groupNotFound (pGroupUuid : option string) (pGroupId : option Z)
  (pGroupPath : option string) (targetDatabase : database)
  (lookupResult : lookupResult) : string :=
  if truthy pGroupUuid then
    "Group with UUID not found: " ++ orElse pGroupUuid EmptyString
  else if truthyNumber pGroupId then
    "Group with ID "
    ++ match pGroupId with
       | Some id => Formatter.numberToString id
       | None => "null"
       end
    ++ " not found in database '" ++ db_name targetDatabase ++ "'"
  else if truthy pGroupPath then
    "Group at path not found: " ++ orElse pGroupPath EmptyString
  else orElse (lr_error lookupResult) "Group not found".

(** The search scope, or the result the script returns instead. *)
Definition searchScope (pGroupUuid : option string) (pGroupId : option Z)
  (pGroupPath : option string) (pUseCurrentGroup : bool)
  (targetDatabase : database) (st : state) : json + scope :=
  if pUseCurrentGroup then
    match currentGroup st with
    | None => inl (failure "No group is currently selected in DEVONthink")
    | Some group =>
        if isGroup group then inr (InRecord group)
        else inl (failure ("Current selection is not a group. Type: "
                           ++ r_recordType group))
    end
  else if truthy pGroupUuid || truthyNumber pGroupId || truthy pGroupPath then
    let lookupResult :=
      getRecord st (mkLookupOptions pGroupUuid pGroupId pGroupPath None
                                    (Some targetDatabase)) in
    match lr_record lookupResult with
    | None =>
        inl (failure (groupNotFound pGroupUuid pGroupId pGroupPath
                                    targetDatabase lookupResult))
    | Some group =>
        if isGroup group then inr (InRecord group)
        else inl (failure ("Specified record is not a group. Type: "
                           ++ r_recordType group))
    end
  else if isVersion41OrLater st then inr (InRootOf targetDatabase)
  else inr (InDatabase targetDatabase).

Definition searchScript (query : string)
  (pGroupUuid : option string) (pGroupId : option Z)
  (pGroupPath pDatabaseName : option string) (pUseCurrentGroup : bool)
  (pRecordType pComparison : option string) (pExcludeSubgroups : option bool)
  (pLimit : Z) (st : state) : json * state :=
  match getDatabase st pDatabaseName with
  | inl message => (failure (errorToString message), st)
  | inr targetDatabase =>
      match searchScope pGroupUuid pGroupId pGroupPath pUseCurrentGroup
                        targetDatabase st with
      | inl result => (result, st)
      | inr scope =>
          let searchOptions :=
            mkSearchOptions (Some scope)
                            (if truthy pComparison then pComparison else None)
                            pExcludeSubgroups in
          match App.search st query searchOptions with
          | Threw text => (failure ("Error executing search: " ++ text), st)
          | Returned searchResults =>
              (searchReport pRecordType pLimit searchResults, st)
          end
      end
  end.

End Search.

(** *** The TypeScript side *)

(** What a tool does with its input: it returns a result at once, or it
    hands a script to [executeJxa].  A script is given by the text of its
    template holes; it denotes a function of the application's state, and
    [None] when a hole is not of the modelled grammar. *)
Definition script : Type := state -> option (json * state).

Inductive plan : Type :=
| Return (result : json)
| ExecuteJxa (s : script).

Definition run (p : plan) (st : state) : option (json * state) :=
  match p with
  | Return result => Some (result, st)
  | ExecuteJxa s => s st
  end.

(** The hole [x ? `"${escapeStringForJXA(x)}"` : "null"]. *)
Definition quotedOrNull (x : option string) : string :=
  match x with
  | Some (String c s) => DQ ++ escapeStringForJXA (String c s) ++ DQ
  | _ => "null"
  end.

(** Modelled from the spec: [formatValueForJXA] of utils/escapeString is
    missing.  The Value Formatter maps an absent value to the absence token
    and a string to a quoted, escaped literal, as
    [DevonThinkTool.formatValue] does. *)
Definition formatValueForJXA (v : Formatter.value) : string :=
  Formatter.formatValue v.

Definition formatOptionalString (x : option string) : string :=
  formatValueForJXA (match x with
                     | Some s => Formatter.VString s
                     | None => Formatter.VUndefined
                     end).

Section Validation.

Variable allowedControl : ascii -> bool.

(** [x && !isJXASafeString(x)] on an optional field. *)
Definition rejected (x : option string) : bool :=
  truthy x && negb (isJXASafeString allowedControl (orElse x EmptyString)).

(** **** rename_record *)

Record RenameRecordInput : Type := mkRenameRecordInput {
  rename_uuid : string;
  rename_newName : string;
  rename_databaseName : option string
}.

Definition renameRecordSource (uuid databaseName newName : string) : script :=
  fun st =>
    match evalStringOrNull uuid, evalStringOrNull databaseName,
          evalStringOrNull newName with
    | Some u, Some d, Some n => Some (renameRecordScript u d n st)
    | _, _, _ => None
    end.

Definition renameRecord (input : RenameRecordInput) : plan :=
  if negb (isJXASafeString allowedControl (rename_uuid input)) then
    Return (failure "UUID contains invalid characters")
  else if negb (isJXASafeString allowedControl (rename_newName input)) then
    Return (failure "New name contains invalid characters")
  else if rejected (rename_databaseName input) then
    Return (failure "Database name contains invalid characters")
  else
    ExecuteJxa (renameRecordSource
                  (quotedOrNull (Some (rename_uuid input)))
                  (quotedOrNull (rename_databaseName input))
                  (quotedOrNull (Some (rename_newName input)))).

(** **** get_record_by_identifier *)

Record GetRecordByIdentifierInput : Type := mkGetRecordByIdentifierInput {
  byid_uuid : option string;
  byid_id : option Z;
  byid_databaseName : option string
}.

Definition getRecordByIdentifierSource (uuid : string) (id : option Z)
  (databaseName : string) : script :=
  fun st =>
    match evalStringOrNull uuid, evalStringOrNull databaseName with
    | Some u, Some d => Some (getRecordByIdentifierScript u id d st)
    | _, _ => None
    end.

Definition getRecordByIdentifier (input : GetRecordByIdentifierInput) : plan :=
  if rejected (byid_uuid input) then
    Return (failure "UUID contains invalid characters")
  else if rejected (byid_databaseName input) then
    Return (failure "Database name contains invalid characters")
  else
    ExecuteJxa (getRecordByIdentifierSource
                  (quotedOrNull (byid_uuid input))
                  (byid_id input)
                  (quotedOrNull (byid_databaseName input))).

(** **** remove_tags *)

Record RemoveTagsInput : Type := mkRemoveTagsInput {
  untag_uuid : string;
  untag_tags : list string;
  untag_databaseName : option string
}.

(** [for (const tag of tags) if (!isJXASafeString(tag)) return ...]: the
    first tag that fails the test. *)
Definition firstUnsafeTag (tags : list string) : option string :=
  find (fun tag => negb (isJXASafeString allowedControl tag)) tags.

(** [JSON.stringify(tags)] is an array literal whose value is [tags]; the
    hole is kept as that value. *)
Definition removeTagsSource (uuid databaseName : string) (tags : list string)
  : script :=
  fun st =>
    match evalStringOrNull uuid, evalStringOrNull databaseName with
    | Some u, Some d => Some (removeTagsScript u d tags st)
    | _, _ => None
    end.

Definition removeTags (input : RemoveTagsInput) : plan :=
  if negb (isJXASafeString allowedControl (untag_uuid input)) then
    Return (failure "UUID contains invalid characters")
  else
    match firstUnsafeTag (untag_tags input) with
    | Some tag =>
        Return (failure ("Tag " ++ DQ ++ tag ++ DQ ++ " contains invalid characters"))
    | None =>
        if rejected (untag_databaseName input) then
          Return (failure "Database name contains invalid characters")
        else
          ExecuteJxa (removeTagsSource
                        (quotedOrNull (Some (untag_uuid input)))
                        (quotedOrNull (untag_databaseName input))
                        (untag_tags input))
    end.

(** **** delete_record *)

Record DeleteRecordInput : Type := mkDeleteRecordInput {
  delete_uuid : option string;
  delete_recordId : option Z;
  delete_recordPath : option string;
  delete_databaseName : option string
}.

Definition deleteRecordSource (databaseName uuid : string) (recordId : option Z)
  (recordPath : string) : script :=
  fun st =>
    match evalStringOrNull databaseName, evalStringOrNull uuid,
          evalStringOrNull recordPath with
    | Some d, Some u, Some p => Some (deleteRecordScript d u recordId p st)
    | _, _, _ => None
    end.

Definition deleteRecord (input : DeleteRecordInput) : plan :=
  if rejected (delete_uuid input) then
    Return (failure "UUID contains invalid characters")
  else if rejected (delete_recordPath input) then
    Return (failure "Record path contains invalid characters")
  else if rejected (delete_databaseName input) then
    Return (failure "Database name contains invalid characters")
  else
    ExecuteJxa (deleteRecordSource
                  (quotedOrNull (delete_databaseName input))
                  (quotedOrNull (delete_uuid input))
                  (delete_recordId input)
                  (quotedOrNull (delete_recordPath input))).

(** **** move_record *)

Record MoveRecordInput : Type := mkMoveRecordInput {
  move_uuid : option string;
  move_recordId : option Z;
  move_recordName : option string;
  move_recordPath : option string;
  move_destinationGroupUuid : option string;
  move_databaseName : option string
}.

Definition moveRecordSource (databaseName uuid : string) (recordId : option Z)
  (recordPath recordName destinationGroupUuid : string) : script :=
  fun st =>
    match evalStringOrNull databaseName, evalStringOrNull uuid,
          evalStringOrNull recordPath, evalStringOrNull recordName,
          evalStringOrNull destinationGroupUuid with
    | Some d, Some u, Some p, Some n, Some g =>
        Some (moveRecordScript d u recordId p n g st)
    | _, _, _, _, _ => None
    end.

Definition moveRecord (input : MoveRecordInput) : plan :=
  if rejected (move_uuid input) then
    Return (failure "UUID contains invalid characters")
  else if rejected (move_recordName input) then
    Return (failure "Record name contains invalid characters")
  else if rejected (move_recordPath input) then
    Return (failure "Record path contains invalid characters")
  else if rejected (move_destinationGroupUuid input) then
    Return (failure "Destination UUID contains invalid characters")
  else if rejected (move_databaseName input) then
    Return (failure "Database name contains invalid characters")
  else
    ExecuteJxa (moveRecordSource
                  (quotedOrNull (move_databaseName input))
                  (quotedOrNull (move_uuid input))
                  (move_recordId input)
                  (quotedOrNull (move_recordPath input))
                  (quotedOrNull (move_recordName input))
                  (quotedOrNull (move_destinationGroupUuid input))).

(** **** search *)

Record SearchInput : Type := mkSearchInput {
  search_query : string;
  search_groupUuid : option string;
  search_groupId : option Z;
  search_groupPath : option string;
  search_databaseName : option string;
  search_useCurrentGroup : option bool;
  search_recordType : option string;
  search_comparison : option string;
  search_excludeSubgroups : option bool;
  search_limit : option Z
}.

(** [limit = 50] in the destructuring of the input. *)
Definition limitOf (input : SearchInput) : Z :=
  match search_limit input with
  | Some limit => limit
  | None => 50%Z
  end.

Variable isGroup : record -> bool.
Variable isVersion41OrLater : state -> bool.

(** [escapeSearchQuery] of utils/escapeString is missing and the spec does
    not describe it. *)
Variable escapeSearchQuery : string -> string.

Definition searchSource (escapedQuery groupUuid : string) (groupId : option Z)
  (groupPath databaseName : string) (useCurrentGroup : bool)
  (recordType comparison : string) (excludeSubgroups : option bool) (limit : Z)
  : script :=
  fun st =>
    match stringLiteralValue (DQ ++ escapedQuery ++ DQ),
          evalStringOrNull groupUuid, evalStringOrNull groupPath,
          evalStringOrNull databaseName, evalStringOrNull recordType,
          evalStringOrNull comparison with
    | Some q, Some pGroupUuid, Some pGroupPath, Some pDatabaseName,
      Some pRecordType, Some pComparison =>
        Some (searchScript isGroup isVersion41OrLater q pGroupUuid groupId
                           pGroupPath pDatabaseName useCurrentGroup pRecordType
                           pComparison excludeSubgroups limit st)
    | _, _, _, _, _, _ => None
    end.

Definition search (input : SearchInput) : plan :=
  if negb (isJXASafeString allowedControl (search_query input)) then
    Return (failure "Search query contains invalid characters")
  else if rejected (search_groupUuid input) then
    Return (failure "Group UUID contains invalid characters")
  else if rejected (search_groupPath input) then
    Return (failure "Group path contains invalid characters")
  else if rejected (search_databaseName input) then
    Return (failure "Database name contains invalid characters")
  else
    ExecuteJxa (searchSource
                  (escapeSearchQuery (search_query input))
                  (quotedOrNull (search_groupUuid input))
                  (search_groupId input)
                  (quotedOrNull (search_groupPath input))
                  (quotedOrNull (search_databaseName input))
                  (match search_useCurrentGroup input with
                   | Some true => true
                   | _ => false
                   end)
                  (formatOptionalString (search_recordType input))
                  (formatOptionalString (search_comparison input))
                  (search_excludeSubgroups input)
                  (limitOf input)).

End Validation.

(** **** What the tools validate

    The checks of a tool, in the order it runs them: the error it returns
    when the check fails, and the text under test (the empty text for an
    optional field that is left out). *)
Section Checks.

Variable allowedControl : ascii -> bool.

Definition renameRecordChecks (input : RenameRecordInput)
  : list (string * string) :=
  [("UUID contains invalid characters", rename_uuid input);
   ("New name contains invalid characters", rename_newName input);
   ("Database name contains invalid characters",
    orElse (rename_databaseName input) EmptyString)].

Definition getRecordByIdentifierChecks (input : GetRecordByIdentifierInput)
  : list (string * string) :=
  [("UUID contains invalid characters", orElse (byid_uuid input) EmptyString);
   ("Database name contains invalid characters",
    orElse (byid_databaseName input) EmptyString)].

Definition removeTagsChecks (input : RemoveTagsInput) : list (string * string) :=
  ("UUID contains invalid characters", untag_uuid input)
  :: List.app
       (map (fun tag =>
               ("Tag " ++ DQ ++ tag ++ DQ ++ " contains invalid characters", tag))
            (untag_tags input))
       [("Database name contains invalid characters",
         orElse (untag_databaseName input) EmptyString)].

Definition deleteRecordChecks (input : DeleteRecordInput)
  : list (string * string) :=
  [("UUID contains invalid characters", orElse (delete_uuid input) EmptyString);
   ("Record path contains invalid characters",
    orElse (delete_recordPath input) EmptyString);
   ("Database name contains invalid characters",
    orElse (delete_databaseName input) EmptyString)].

Definition moveRecordChecks (input : MoveRecordInput) : list (string * string) :=
  [("UUID contains invalid characters", orElse (move_uuid input) EmptyString);
   ("Record name contains invalid characters",
    orElse (move_recordName input) EmptyString);
   ("Record path contains invalid characters",
    orElse (move_recordPath input) EmptyString);
   ("Destination UUID contains invalid characters",
    orElse (move_destinationGroupUuid input) EmptyString);
   ("Database name contains invalid characters",
    orElse (move_databaseName input) EmptyString)].

Definition searchChecks (input : SearchInput) : list (string * string) :=
  [("Search query contains invalid characters", search_query input);
   ("Group UUID contains invalid characters",
    orElse (search_groupUuid input) EmptyString);
   ("Group path contains invalid characters",
    orElse (search_groupPath input) EmptyString);
   ("Database name contains invalid characters",
    orElse (search_databaseName input) EmptyString)].

(** The first check that fails. *)
Definition firstFailing (checks : list (string * string))
  : option (string * string) :=
  find (fun check => negb (isJXASafeString allowedControl (snd check))) checks.

(** The tool returns at once, and the error it returns is that of a check
    whose text is not safe: no script is built and none is executed. *)
Definition RefusesNaming (p : plan) (checks : list (string * string)) : Prop :=
  exists message value : string,
    p = Return (failure message)
    /\ In (message, value) checks
    /\ isJXASafeString allowedControl value = false.

End Checks.

(** **** Tools that interpolate their input as it is *)

(** [`${x}`] for an optional string. *)
Definition templateText (x : option string) : string :=
  match x with
  | Some s => s
  | None => "undefined"
  end.

(** [x] or else the empty text. *)
Definition orEmpty (x : option string) : string := orElse x EmptyString.

(** lookup_record, "Determine search database".  The three literals of the
    block are the test of the [if], the name compared with [db.name()] and
    the error text; all three hold [databaseName] as the caller gave it.  The
    block yields the database to search, or the result the script returns
    instead. *)
Definition lookupRecordDatabase (test name error : string) (st : state)
  : json + option database :=
  if truthy (Some test) then
    match findDatabase st name with
    | Some searchDatabase => inr (Some searchDatabase)
    | None => inl (failure error)
    end
  else inr (currentDatabase st).

Definition lookupRecordDatabaseSource (databaseName : option string) (st : state)
  : option (json + option database) :=
  match stringLiteralValue (DQ ++ orEmpty databaseName ++ DQ),
        stringLiteralValue (DQ ++ templateText databaseName ++ DQ),
        stringLiteralValue (DQ ++ "Database not found: "
                               ++ templateText databaseName ++ DQ) with
  | Some test, Some name, Some error =>
      Some (lookupRecordDatabase test name error st)
  | _, _, _ => None
  end.

(** create_record and create_from_url, the block that sets
    [targetDatabase].  The error thrown in the block is caught by the
    script's [catch (error)], which returns [error.toString()]. *)
Definition createRecordDatabase (test name message : string) (st : state)
  : json + option database :=
  if truthy (Some test) then
    match findDatabase st name with
    | Some targetDatabase => inr (Some targetDatabase)
    | None => inl (failure (errorToString message))
    end
  else inr (currentDatabase st).

Definition createRecordDatabaseSource (databaseName : option string) (st : state)
  : option (json + option database) :=
  match stringLiteralValue (DQ ++ orEmpty databaseName ++ DQ),
        stringLiteralValue (DQ ++ templateText databaseName ++ DQ),
        stringLiteralValue (DQ ++ "Database not found: "
                               ++ templateText databaseName ++ DQ) with
  | Some test, Some name, Some message =>
      Some (createRecordDatabase test name message st)
  | _, _, _ => None
  end.

Record CreateRecordInput : Type := mkCreateRecordInput {
  create_name : string;
  create_type : string;
  create_content : option string;
  create_url : option string;
  create_parentGroupUuid : option string;
  create_databaseName : option string
}.

(** [content.replace(/`/g, "\\`")]. *)
Fixpoint escapeBackticks (s : string) : string :=
  match s with
  | EmptyString => EmptyString
  | String c rest =>
      if Ascii.eqb c "`" then String backslash (String "`" (escapeBackticks rest))
      else String c (escapeBackticks rest)
  end.

(** The hole that holds the name of the new record. *)
Definition createRecordNameLiteral (input : CreateRecordInput) : string :=
  DQ ++ create_name input ++ DQ.

(** The script of create_record. *)
Definition createRecordScriptText (input : CreateRecordInput) : string :=
"
    (() => {
      const theApp = Application(" ++ DQ ++ "DEVONthink" ++ DQ ++ ");
      theApp.includeStandardAdditions = true;
      
      try {
        let targetDatabase;
        if (" ++ DQ ++ orEmpty (create_databaseName input) ++ DQ ++ ") {
          const databases = theApp.databases();
          targetDatabase = databases.find(db => db.name() === " ++ DQ ++ templateText (create_databaseName input) ++ DQ ++ ");
          if (!targetDatabase) {
            throw new Error(" ++ DQ ++ "Database not found: " ++ templateText (create_databaseName input) ++ DQ ++ ");
          }
        } else {
          targetDatabase = theApp.currentDatabase();
        }

        // Get the parent group
        let destinationGroup;
        if (" ++ DQ ++ orEmpty (create_parentGroupUuid input) ++ DQ ++ ") {
          destinationGroup = theApp.getRecordWithUuid(" ++ DQ ++ templateText (create_parentGroupUuid input) ++ DQ ++ ");
          if (!destinationGroup) {
            throw new Error(" ++ DQ ++ "Parent group with UUID not found: " ++ templateText (create_parentGroupUuid input) ++ DQ ++ ");
          }
        } else {
          destinationGroup = targetDatabase.incomingGroup();
        }
        
        // Create the record properties
        const recordProps = {
          name: " ++ createRecordNameLiteral input ++ ",
          type: " ++ DQ ++ create_type input ++ DQ ++ "
        };
        
        // Add content if provided
        " ++ (if truthy (create_content input)
              then "recordProps.content = `"
                   ++ escapeBackticks (orEmpty (create_content input)) ++ "`;"
              else EmptyString) ++ "
        
        // Add URL if provided
        " ++ (if truthy (create_url input)
              then "recordProps.URL = " ++ DQ ++ orEmpty (create_url input) ++ DQ ++ ";"
              else EmptyString) ++ "
        
        // Create the record
        const newRecord = theApp.createRecordWith(recordProps, { in: destinationGroup });
        
        if (newRecord) {
          return JSON.stringify({
            success: true,
            recordId: newRecord.id(),
            name: newRecord.name(),
            uuid: newRecord.uuid()
          });
        } else {
          return JSON.stringify({
            success: false,
            error: " ++ DQ ++ "Failed to create record" ++ DQ ++ "
          });
        }
      } catch (error) {
        return JSON.stringify({
          success: false,
          error: error.toString()
        });
      }
    })();
  ".

(** The script of is_running. *)
Definition isRunningScriptText : string :=
"
    const app = Application(" ++ DQ ++ "DEVONthink" ++ DQ ++ ");
    const isRunning = app.running();
    JSON.stringify({ isRunning });
  ".

(** A script whose result document is an object literal written inside the
    call of [JSON.stringify]. *)
Definition stringifiesObjectLiteral (source : string) : bool :=
  includes source "JSON.stringify({".

End Tools.

(** ** The request handler of the server *)

Module Server.
Import JS App Tools.

Inductive ErrorCode : Type := MethodNotFound | InternalError.

(** What [tool.run(args)] settles to. *)
Inductive thrown : Type :=
| ThrownMcpError (code : ErrorCode) (message : string)
| ThrownError (message : string)
| ThrownValue (text : string).

Inductive settled : Type :=
| Resolved (result : json)
| Rejected (error : thrown).

(** An entry of the tool table; [tool_run] is [None] when
    [typeof tool.run !== "function"]. *)
Record tool : Type := mkTool {
  tool_name : string;
  tool_run : option (json -> state -> option (settled * state))
}.

Inductive reply : Type :=
| Content (result : json)
| McpError (code : ErrorCode) (message : string).

(** [tools.find((t) => t.name === name)]. *)
Definition findTool (tools : list tool) (name : string) : option tool :=
  find (fun t => String.eqb (tool_name t) name) tools.

Definition rethrown (error : thrown) : reply :=
  match error with
  | ThrownMcpError code message => McpError code message
  | ThrownError message => McpError InternalError message
  | ThrownValue text => McpError InternalError text
  end.

(** The handler of [CallToolRequestSchema]. *)
Definition callTool (tools : list tool) (name : string) (args : json)
  (st : state) : option (reply * state) :=
  match findTool tools name with
  | None => Some (McpError MethodNotFound ("Unknown tool: " ++ name), st)
  | Some tool =>
      match tool_run tool with
      | None =>
          Some (McpError InternalError
                         ("Tool '" ++ name ++ "' has no run function."), st)
      | Some run =>
          match run args st with
          | Some (Resolved result, st') => Some (Content result, st')
          | Some (Rejected error, st') => Some (rethrown error, st')
          | None => None
          end
      end
  end.

(** [tool.run(args)] for a tool given by its plan. *)
Definition settle (p : plan) (st : state) : option (settled * state) :=
  match run p st with
  | Some (result, st') => Some (Resolved result, st')
  | None => None
  end.

(** An optional string and an optional number of the argument bag; [None]
    when the bag holds a value of another type under the key. *)
Definition stringArg (key : string) (args : json) : option (option string) :=
  match get key args with
  | None => Some None
  | Some (JStr s) => Some (Some s)
  | Some _ => None
  end.

Definition numberArg (key : string) (args : json) : option (option Z) :=
  match get key args with
  | None => Some None
  | Some (JNum z) => Some (Some z)
  | Some _ => None
  end.

Section Table.

Variable allowedControl : ascii -> bool.

Definition deleteRecordTool : tool :=
  mkTool "delete_record"
    (Some (fun args st =>
       match stringArg "uuid" args, numberArg "recordId" args,
             stringArg "recordPath" args, stringArg "databaseName" args with
       | Some uuid, Some recordId, Some recordPath, Some databaseName =>
           settle (deleteRecord allowedControl
                     (mkDeleteRecordInput uuid recordId recordPath databaseName))
                  st
       | _, _, _, _ => None
       end)).

Definition moveRecordTool : tool :=
  mkTool "move_record"
    (Some (fun args st =>
       match stringArg "uuid" args, numberArg "recordId" args,
             stringArg "recordName" args, stringArg "recordPath" args,
             stringArg "destinationGroupUuid" args,
             stringArg "databaseName" args with
       | Some uuid, Some recordId, Some recordName, Some recordPath,
         Some destinationGroupUuid, Some databaseName =>
           settle (moveRecord allowedControl
                     (mkMoveRecordInput uuid recordId recordName recordPath
                                        destinationGroupUuid databaseName))
                  st
       | _, _, _, _, _, _ => None
       end)).

Definition getRecordByIdentifierTool : tool :=
  mkTool "get_record_by_identifier"
    (Some (fun args st =>
       match stringArg "uuid" args, numberArg "id" args,
             stringArg "databaseName" args with
       | Some uuid, Some id, Some databaseName =>
           settle (getRecordByIdentifier allowedControl
                     (mkGetRecordByIdentifierInput uuid id databaseName))
                  st
       | _, _, _ => None
       end)).

Definition renameRecordTool : tool :=
  mkTool "rename_record"
    (Some (fun args st =>
       match stringArg "uuid" args, stringArg "newName" args,
             stringArg "databaseName" args with
       | Some (Some uuid), Some (Some newName), Some databaseName =>
           settle (renameRecord allowedControl
                     (mkRenameRecordInput uuid newName databaseName))
                  st
       | _, _, _ => None
       end)).

(** The entries of the tool table whose [run] is modelled here, in the
    order of the table. *)
Definition tools : list tool :=
  [deleteRecordTool; moveRecordTool; getRecordByIdentifierTool;
   renameRecordTool].

End Table.

(** The names in the tool table of [createServer], in its order. *)
Definition toolNames : list string :=
  ["is_running"; "create_record"; "delete_record"; "move_record";
   "get_record_properties"; "get_record_by_identifier"; "search";
   "lookup_record"; "create_from_url"; "get_open_databases";
   "current_database"; "selected_records"; "list_group_content";
   "get_record_content"; "rename_record"; "add_tags"; "remove_tags";
   "classify"; "compare"; "replicate_record"; "duplicate_record";
   "convert_record"; "update_record_content"; "set_record_properties";
   "ask_ai_about_documents"; "check_ai_health"; "create_summary_document";
   "get_ai_tool_documentation"].

End Server.

(** ** A small application state, used in the examples *)

Module Example.
Import JS App.

Definition inbox : database := mkDatabase 1 "Inbox".
Definition archive : database := mkDatabase 2 "Archive".

Definition note : record :=
  mkRecord 10 "AAAA-0001" "Meeting notes" "/files/notes.md" "/" "markdown"
           "Markdown" None None ["work"; "draft"; "work"] 120 None None None
           inbox.

Definition report : record :=
  mkRecord 11 "BBBB-0002" "Report" "/files/report.pdf" "/" "PDF"
           "PDF document" None None ["work"] 4096 None None (Some 7%Z) inbox.

Definition projects : record :=
  mkRecord 12 "CCCC-0003" "Projects" EmptyString "/" "group" "Group" None None [] 0
           None None None inbox.

Definition memo : record :=
  mkRecord 13 "DDDD-0004" "Memo" "/files/memo.md" "/" "markdown" "Markdown"
           None None [] 64 None None None archive.

(** The application gives a record the name it is told and refuses
    [null] for a name, deletes nothing it is asked to, moves records to the
    location of the destination, and finds the three documents. *)
Definition st0 : state :=
  mkState [inbox; archive] (Some inbox) None [note; report; projects; memo] []
          (fun _ name => match name with
                         | Some text => Named text
                         | None => Refused "Can't convert types."
                         end)
          (fun _ => Returned false)
          (fun _ dest => Returned (Some (r_location dest ++ r_name dest ++ "/")))
          (fun _ _ => Returned (Some [note; report; memo])).

(** The same, with an application that moves nothing either. *)
Definition st1 : state :=
  mkState [inbox; archive] (Some inbox) None [note; report; projects; memo] []
          (fun _ name => match name with
                         | Some text => Named text
                         | None => Refused "Can't convert types."
                         end)
          (fun _ => Returned false)
          (fun _ _ => Returned None)
          (fun _ _ => Returned (Some [note; report; memo])).

Definition isGroup (r : record) : bool :=
  String.eqb (r_recordType r) "group" || String.eqb (r_recordType r) "smart group".

Definition isVersion41OrLater (st : state) : bool := true.

(** A record name with double quotes in it, and one with a backslash. *)
Definition quotedName : string := "Q3 " ++ DQ ++ "draft" ++ DQ.
Definition slashedName : string := "notes" ++ BS ++ "today".

Definition createQuoted : Tools.CreateRecordInput :=
  Tools.mkCreateRecordInput quotedName "markdown" None None None None.

Definition createSlashed : Tools.CreateRecordInput :=
  Tools.mkCreateRecordInput slashedName "markdown" None None None None.

Definition createInQuoted : Tools.CreateRecordInput :=
  Tools.mkCreateRecordInput "Note" "markdown" None None None (Some quotedName).

(** Calls that carry [quotedName] in a field the tool validates. *)
Definition renameQuoted : Tools.RenameRecordInput :=
  Tools.mkRenameRecordInput "AAAA-0001" quotedName None.

Definition getQuoted : Tools.GetRecordByIdentifierInput :=
  Tools.mkGetRecordByIdentifierInput (Some "AAAA-0001") None (Some quotedName).

Definition untagQuoted : Tools.RemoveTagsInput :=
  Tools.mkRemoveTagsInput "AAAA-0001" ["work"; quotedName] None.

Definition deleteQuoted : Tools.DeleteRecordInput :=
  Tools.mkDeleteRecordInput None None (Some quotedName) None.

Definition moveQuoted : Tools.MoveRecordInput :=
  Tools.mkMoveRecordInput (Some "AAAA-0001") None None None (Some quotedName)
                          None.

Definition searchQuoted : Tools.SearchInput :=
  Tools.mkSearchInput quotedName None None None None None None None None None.

End Example.

(** ** Further tools and helpers *)

(** *** add_tags *)

Module Tagging.
Import JS Sanitizer App Helpers Tools.

(** [record.tags = existingTags.concat(tags)]. *)
Definition addTagsScript (uuid : option string) (tags : list string)
  (st : state) : json * state :=
  match lr_record (getRecord st (byUuid uuid)) with
  | None => (failure (uuidNotFound uuid), st)
  | Some record =>
      (success, setTags st record (List.app (r_tags record) tags))
  end.

Record AddTagsInput : Type := mkAddTagsInput {
  tag_uuid : string;
  tag_tags : list string
}.

Definition addTagsSource (uuid : string) (tags : list string) : script :=
  fun st =>
    match evalStringOrNull uuid with
    | Some u => Some (addTagsScript u tags st)
    | None => None
    end.

Section Validation.

Variable allowedControl : ascii -> bool.

Definition addTags (input : AddTagsInput) : plan :=
  if negb (isJXASafeString allowedControl (tag_uuid input)) then
    Return (failure "UUID contains invalid characters")
  else
    match firstUnsafeTag allowedControl (tag_tags input) with
    | Some tag =>
        Return (failure ("Tag " ++ DQ ++ tag ++ DQ ++ " contains invalid characters"))
    | None =>
        ExecuteJxa (addTagsSource (quotedOrNull (Some (tag_uuid input)))
                                  (tag_tags input))
    end.

(** The checks of add_tags, in the order it runs them. *)
Definition addTagsChecks (input : AddTagsInput) : list (string * string) :=
  ("UUID contains invalid characters", tag_uuid input)
  :: map (fun tag =>
            ("Tag " ++ DQ ++ tag ++ DQ ++ " contains invalid characters", tag))
         (tag_tags input).

End Validation.

End Tagging.

(** *** What a result document has to look like *)

Module Results.
Import JS Tools.

(** [success: true] without an [error], or [success: false] with an
    [error] that is not empty. *)
Definition WellFormed (result : json) : Prop :=
  (get "success" result = Some (JBool true) /\ get "error" result = None)
  \/ (exists error : string,
         get "success" result = Some (JBool false)
         /\ get "error" result = Some (JStr error)
         /\ error <> EmptyString).

End Results.

(** *** DevonThinkTool: [execute] and [buildRecordLookup] *)

Module Base.
Import JS Sanitizer App Formatter Tools.

(** The white space and line terminators of JavaScript among the code
    units below 256: tab, line feed, vertical tab, form feed, carriage
    return, space and no-break space. *)
Definition isWhiteSpace (c : ascii) : bool :=
  Ascii.eqb c TAB || Ascii.eqb c LF || Ascii.eqb c "011"
  || Ascii.eqb c "012" || Ascii.eqb c CR || Ascii.eqb c " "
  || Ascii.eqb c "160".

Fixpoint trimStart (s : string) : string :=
  match s with
  | EmptyString => EmptyString
  | String c rest => if isWhiteSpace c then trimStart rest else String c rest
  end.

Fixpoint trimEnd (s : string) : string :=
  match s with
  | EmptyString => EmptyString
  | String c rest =>
      match trimEnd rest with
      | EmptyString => if isWhiteSpace c then EmptyString else String c EmptyString
      | String d kept => String c (String d kept)
      end
  end.

(** [String.prototype.trim]. *)
Definition trim (s : string) : string := trimEnd (trimStart s).

(** [execute]: the script handed to [executeJxa].
    [script.trim().startsWith("(") ? script : `(() => { ${script} })();`]. *)
Definition wrappedScript (script : string) : string :=
  if isPrefix "(" (trim script) then script
  else "(() => { " ++ script ++ " })();".

Definition newline : string := String LF EmptyString.

(** [buildRecordLookup]: the statements that bind [record]. *)
Definition buildRecordLookup (uuid : option string) (id : option Z)
  (path databaseName : option string) : string :=
  join newline
    match uuid with
    | Some (String c s) =>
        ["const record = theApp.getRecordWithUuid(" ++ DQ
           ++ escapeStringForJXA (String c s) ++ DQ ++ ");";
         "if (!record) throw new Error(" ++ DQ ++ "Record not found with UUID: "
           ++ escapeStringForJXA (String c s) ++ DQ ++ ");"]
    | _ =>
        match id with
        | Some id =>
            [(if truthy databaseName then buildDatabaseLookup databaseName
              else "const targetDatabase = theApp.currentDatabase();");
             "const record = targetDatabase.getRecordWithId("
               ++ numberToString id ++ ");";
             "if (!record) throw new Error(" ++ DQ ++ "Record not found with ID: "
               ++ numberToString id ++ DQ ++ ");"]
        | None =>
            match path with
            | Some (String c s) =>
                [(if truthy databaseName then buildDatabaseLookup databaseName
                  else "const targetDatabase = theApp.currentDatabase();");
                 "const record = targetDatabase.getRecordAt(" ++ DQ
                   ++ escapeStringForJXA (String c s) ++ DQ ++ ");";
                 "if (!record) throw new Error(" ++ DQ
                   ++ "Record not found at path: "
                   ++ escapeStringForJXA (String c s) ++ DQ ++ ");"]
            | _ =>
                ["throw new Error(" ++ DQ ++ "No record identifier provided"
                   ++ DQ ++ ");"]
            end
        end
    end.

(** The string literals of a script, in the order they are written.  The
    text is read left to right; a double quote in code position opens a
    literal, which runs to the next quote that no backslash precedes, and
    the value of the literal follows the grammar of [decodeBody].  [None]
    when a literal is left open or holds what that grammar leaves out.
    Single-quoted and template literals, comments and regular expressions
    are not told apart from code: the reader is for texts whose code has
    none, as the statements of [buildDatabaseLookup] and [buildRecordLookup]
    are. *)
Inductive reading : Type :=
| Outside
| Inside (value : string)
| Escaped (value : string).

Fixpoint literalsFrom (at_ : reading) (s : string) : option (list string) :=
  match s with
  | EmptyString =>
      match at_ with
      | Outside => Some []
      | _ => None
      end
  | String c rest =>
      match at_ with
      | Outside =>
          if Ascii.eqb c dquote then literalsFrom (Inside EmptyString) rest
          else literalsFrom Outside rest
      | Inside value =>
          if Ascii.eqb c dquote then
            option_map (cons value) (literalsFrom Outside rest)
          else if Ascii.eqb c backslash then literalsFrom (Escaped value) rest
          else if Ascii.eqb c LF || Ascii.eqb c CR then None
          else literalsFrom (Inside (value ++ String c EmptyString)) rest
      | Escaped value =>
          match unescape c with
          | Some ch => literalsFrom (Inside (value ++ String ch EmptyString)) rest
          | None => None
          end
      end
  end.

Definition stringLiterals (script : string) : option (list string) :=
  literalsFrom Outside script.

(** A text without a double quote. *)
Fixpoint quoteFree (s : string) : bool :=
  match s with
  | EmptyString => true
  | String c rest => negb (Ascii.eqb c dquote) && quoteFree rest
  end.

End Base.

(** *** lookup_record: the whole script *)

Module Lookup.
Import JS Sanitizer App Tools.

(** The lookup commands of the application. *)
Inductive lookupQuery : Type :=
| WithFile (value : string)
| WithPath (value : string)
| WithURL (value : string)
| WithComment (value : string)
| WithContentHash (value : string)
| WithTags (tagArray : list string) (any : bool).

Definition lookupResult (record : record) : json :=
  JObj ([("id", JNum (r_id record));
         ("name", JStr (r_name record));
         ("path", JStr (r_path record));
         ("location", JStr (r_location record));
         ("recordType", JStr (r_recordType record));
         ("kind", JStr (r_kind record));
         ("creationDate", jsonOfOption (r_creationDate record));
         ("modificationDate", jsonOfOption (r_modificationDate record));
         ("tags", jsonOfTags (r_tags record));
         ("size", JNum (r_size record))]
        ++ (if truthy (r_url record)
            then [("url", jsonOfOption (r_url record))] else [])
        ++ (if truthy (r_comment record)
            then [("comment", jsonOfOption (r_comment record))] else []))%list.

(** The [switch] on the lookup type: the command to send, if any. *)
Definition lookupQueryOf (lookupType value : string) (tags : list string)
  (matchAnyTag : bool) : option lookupQuery :=
  if String.eqb lookupType "filename" then Some (WithFile value)
  else if String.eqb lookupType "path" then Some (WithPath value)
  else if String.eqb lookupType "url" then Some (WithURL value)
  else if String.eqb lookupType "comment" then Some (WithComment value)
  else if String.eqb lookupType "contentHash" then Some (WithContentHash value)
  else if String.eqb lookupType "tags" then
    Some (WithTags (match tags with
                    | [] => if truthy (Some value) then [value] else []
                    | _ :: _ => tags
                    end) matchAnyTag)
  else None.

Section Application.

(** What the application answers to a lookup command sent with
    [{ in: searchDatabase }]; it is not part of the state above. *)
Variable lookupVerdict :
  state -> lookupQuery -> option database -> call (option (list record)).

(** The script, given the values of its literals: the three of the database
    block, the lookup type, the value, and the text of the error for a
    lookup type that is none of the six. *)
Definition lookupRecordScript (test name error lookupType value : string)
  (tags : list string) (matchAnyTag : bool) (limit : Z) (invalid : string)
  (st : state) : json * state :=
  match lookupRecordDatabase test name error st with
  | inl result => (result, st)
  | inr searchDatabase =>
      match lookupQueryOf lookupType value tags matchAnyTag with
      | None => (failure invalid, st)
      | Some query =>
          match lookupVerdict st query searchDatabase with
          | Threw text => (failure text, st)
          | Returned None | Returned (Some []) => (searchPayload [] 0, st)
          | Returned (Some searchResults) =>
              (searchPayload (map lookupResult (slice0 searchResults limit))
                             (Z.of_nat (length searchResults)), st)
          end
      end
  end.

Record LookupRecordInput : Type := mkLookupRecordInput {
  lookup_lookupType : string;
  lookup_value : string;
  lookup_tags : option (list string);
  lookup_matchAnyTag : option bool;
  lookup_databaseName : option string;
  lookup_limit : option Z
}.

(** The script of lookup_record for an input, through the values of its
    literals; every text of the caller is written between quotes as it is.
    [JSON.stringify(tags)] is an array literal whose value is [tags]. *)
Definition lookupRecord (input : LookupRecordInput) (st : state)
  : option (json * state) :=
  match stringLiteralValue (DQ ++ orEmpty (lookup_databaseName input) ++ DQ),
        stringLiteralValue (DQ ++ templateText (lookup_databaseName input) ++ DQ),
        stringLiteralValue (DQ ++ "Database not found: "
                               ++ templateText (lookup_databaseName input) ++ DQ),
        stringLiteralValue (DQ ++ lookup_lookupType input ++ DQ),
        stringLiteralValue (DQ ++ lookup_value input ++ DQ),
        stringLiteralValue (DQ ++ "Invalid lookup type: "
                               ++ lookup_lookupType input ++ DQ) with
  | Some test, Some name, Some error, Some lookupType, Some value, Some invalid =>
      Some (lookupRecordScript test name error lookupType value
              (match lookup_tags input with
               | Some tags => tags
               | None => []
               end)
              (match lookup_matchAnyTag input with
               | Some true => true
               | _ => false
               end)
              (match lookup_limit input with
               | Some limit => limit
               | None => 50%Z
               end)
              invalid st)
  | _, _, _, _, _, _ => None
  end.

End Application.

End Lookup.

(** *** More of the example state *)

Module MoreExamples.
Import JS App Tools.

(** An application that deletes what it is asked to. *)
Definition st2 : state :=
  mkState [Example.inbox; Example.archive] (Some Example.inbox) None
          [Example.note; Example.report; Example.projects; Example.memo] []
          (fun _ name => match name with
                         | Some text => Named text
                         | None => Refused "Can't convert types."
                         end)
          (fun _ => Returned true)
          (fun _ dest => Returned (Some (r_location dest ++ r_name dest ++ "/")))
          (fun _ _ => Returned (Some [Example.note; Example.report; Example.memo])).

(** An application that finds the note and the memo, whatever the lookup. *)
Definition lookupVerdict (st : state) (query : Lookup.lookupQuery)
  (searchDatabase : option database) : call (option (list record)) :=
  Returned (Some [Example.note; Example.memo]).

(** An application that refuses to move anything. *)
Definition st3 : state :=
  mkState [Example.inbox; Example.archive] (Some Example.inbox) None
          [Example.note; Example.report; Example.projects; Example.memo] []
          (fun _ name => match name with
                         | Some text => Named text
                         | None => Refused "Can't convert types."
                         end)
          (fun _ => Returned true)
          (fun _ _ => Threw "Error: The record is locked.")
          (fun _ _ => Returned None).

(** An application with an open database whose name holds a backslash. *)
Definition slashed : database := mkDatabase 3 ("A" ++ BS ++ "B").

Definition st4 : state :=
  mkState [Example.inbox; slashed] (Some Example.inbox) None
          [Example.note; Example.report; Example.projects; Example.memo] []
          (fun _ name => match name with
                         | Some text => Named text
                         | None => Refused "Can't convert types."
                         end)
          (fun _ => Returned false)
          (fun _ _ => Returned None)
          (fun _ _ => Returned None).

Definition lookupInSlashed : Lookup.LookupRecordInput :=
  Lookup.mkLookupRecordInput "filename" "memo.md" None None
                             (Some ("A" ++ BS ++ "B")) None.

Definition createInSlashed : CreateRecordInput :=
  mkCreateRecordInput "Note" "markdown" None None None
                      (Some ("A" ++ BS ++ "B")).

Definition moveNote : MoveRecordInput :=
  mkMoveRecordInput (Some "AAAA-0001") None None None (Some "CCCC-0003") None.

Definition searchWork : SearchInput :=
  mkSearchInput "tag:work" None None None (Some "Inbox") None (Some "PDF") None
                None (Some 5%Z).

Definition lookupQuoted : Lookup.LookupRecordInput :=
  Lookup.mkLookupRecordInput "filename" Example.quotedName None None None None.

Definition lookupMemo : Lookup.LookupRecordInput :=
  Lookup.mkLookupRecordInput "filename" "memo.md" None None None (Some 1%Z).

Definition lookupByTitle : Lookup.LookupRecordInput :=
  Lookup.mkLookupRecordInput "title" "Memo" None None None None.

Definition echo : Server.tool :=
  Server.mkTool "echo" (Some (fun args st => Some (Server.Resolved args, st))).

Definition shadowed : Server.tool :=
  Server.mkTool "echo"
    (Some (fun args st => Some (Server.Rejected (Server.ThrownError "never"), st))).

End MoreExamples.

(** * Properties *)

(** ** Text and literals *)

Module TextFacts.
Import JS Sanitizer.

Lemma append_assoc (a b c : string) : (a ++ b) ++ c = a ++ (b ++ c).
Proof. induction a as [|x a IH]; simpl; [reflexivity | now rewrite IH]. Qed.

Lemma append_empty_r (a : string) : a ++ EmptyString = a.
Proof. induction a as [|x a IH]; simpl; [reflexivity | now rewrite IH]. Qed.

Lemma decodeBody_escape (s tail v : string) :
  decodeBody tail = Some v ->
  decodeBody (escapeStringForJXA s ++ tail) = Some (s ++ v).
Proof.
  intros Htail. induction s as [|c s IH]; simpl; [exact Htail|].
  unfold escapeChar.
  destruct (Ascii.eqb_spec c backslash) as [->|Hb].
  { simpl. rewrite IH. reflexivity. }
  destruct (Ascii.eqb_spec c dquote) as [->|Hq].
  { simpl. rewrite IH. reflexivity. }
  destruct (Ascii.eqb_spec c LF) as [->|Hl].
  { simpl. rewrite IH. reflexivity. }
  destruct (Ascii.eqb_spec c CR) as [->|Hr].
  { simpl. rewrite IH. reflexivity. }
  simpl.
  destruct (Ascii.eqb_spec c dquote); [contradiction|].
  destruct (Ascii.eqb_spec c backslash); [contradiction|].
  destruct (Ascii.eqb_spec c LF); [contradiction|].
  destruct (Ascii.eqb_spec c CR); [contradiction|].
  simpl. rewrite IH. reflexivity.
Qed.

(** A text placed between quotes after [escapeStringForJXA] is a literal
    whose value is that text. *)
Lemma literal_of_escaped (s : string) :
  stringLiteralValue (DQ ++ escapeStringForJXA s ++ DQ) = Some s.
Proof.
  simpl. rewrite (decodeBody_escape s DQ EmptyString) by reflexivity.
  now rewrite append_empty_r.
Qed.

Lemma eval_quotedOrNull (x : option string) :
  evalStringOrNull (Tools.quotedOrNull x) = Some (seen x).
Proof.
  destruct x as [[|c s]|]; try reflexivity.
  unfold Tools.quotedOrNull, evalStringOrNull.
  rewrite literal_of_escaped. reflexivity.
Qed.

Lemma truthy_seen (x : option string) : truthy (seen x) = truthy x.
Proof. destruct x as [[|c s]|]; reflexivity. Qed.

Lemma orElse_seen (x : option string) (d : string) : orElse (seen x) d = orElse x d.
Proof. destruct x as [[|c s]|]; reflexivity. Qed.

End TextFacts.

(** ** Record resolution *)

Module ResolutionFacts.
Import JS Sanitizer App Helpers Tools TextFacts.

Lemma getRecord_byUuid (st : state) (c : ascii) (u : string) :
  lr_record (getRecord st (byUuid (Some (String c u))))
  = getRecordWithUuid st (String c u).
Proof.
  unfold getRecord, byUuid; simpl.
  destruct (getRecordWithUuid st (String c u)); reflexivity.
Qed.

Lemma rejected_safe (allowedControl : ascii -> bool) (s : string) :
  isJXASafeString allowedControl s = true ->
  rejected allowedControl (Some s) = false.
Proof.
  intros H. unfold rejected. destruct s as [|c s]; [reflexivity|].
  simpl truthy. simpl orElse. rewrite H. reflexivity.
Qed.

Lemma rejected_None (allowedControl : ascii -> bool) :
  rejected allowedControl None = false.
Proof. reflexivity. Qed.

(** C1, as the code has it.  With a non-empty UUID the record is the one the
    application holds under that UUID, whatever else the bundle carries:
    get_record_by_identifier gives the same answer with and without [id] and
    [databaseName] (once [databaseName] has passed the safety check, which
    is applied to it even then), and rename_record finds the same record
    with and without [databaseName].  rename_record however compares the
    name of the record's database with [databaseName] after the lookup and
    fails when they differ. *)
Theorem uuid_decides_the_record
  (allowedControl : ascii -> bool) (st : state)
  (uuid newName databaseName : string) (id : option Z) :
  uuid <> EmptyString ->
  databaseName <> EmptyString ->
  isJXASafeString allowedControl uuid = true ->
  isJXASafeString allowedControl newName = true ->
  isJXASafeString allowedControl databaseName = true ->
  run (getRecordByIdentifier allowedControl
         (mkGetRecordByIdentifierInput (Some uuid) id (Some databaseName))) st
  = run (getRecordByIdentifier allowedControl
           (mkGetRecordByIdentifierInput (Some uuid) None None)) st
  /\ run (getRecordByIdentifier allowedControl
            (mkGetRecordByIdentifierInput (Some uuid) id (Some databaseName))) st
     = Some (match getRecordWithUuid st uuid with
             | Some record => foundRecord record (r_database record)
             | None => failure (uuidNotFound (Some uuid))
             end, st)
  /\ run (renameRecord allowedControl
            (mkRenameRecordInput uuid newName (Some databaseName))) st
     = match getRecordWithUuid st uuid with
       | Some record =>
           if String.eqb (db_name (r_database record)) databaseName
           then run (renameRecord allowedControl
                       (mkRenameRecordInput uuid newName None)) st
           else Some (failure (uuidNotFoundIn (Some uuid) (Some databaseName)), st)
       | None =>
           run (renameRecord allowedControl
                  (mkRenameRecordInput uuid newName None)) st
       end.
Proof.
  intros Hu Hd Su Sn Sd.
  destruct uuid as [|c u]; [congruence|].
  destruct databaseName as [|e d]; [congruence|].
  assert (Hget : forall i dn,
             rejected allowedControl dn = false ->
             run (getRecordByIdentifier allowedControl
                    (mkGetRecordByIdentifierInput (Some (String c u)) i dn)) st
             = Some (match getRecordWithUuid st (String c u) with
                     | Some record => foundRecord record (r_database record)
                     | None => failure (uuidNotFound (Some (String c u)))
                     end, st)).
  { intros i dn Hdn. unfold getRecordByIdentifier.
    cbn [byid_uuid byid_id byid_databaseName].
    rewrite (rejected_safe _ _ Su), Hdn. cbn [run].
    unfold getRecordByIdentifierSource. rewrite !eval_quotedOrNull.
    unfold getRecordByIdentifierScript. cbn [seen truthy].
    rewrite getRecord_byUuid.
    destruct (getRecordWithUuid st (String c u)); reflexivity. }
  split; [|split].
  - rewrite (Hget id (Some (String e d)) (rejected_safe _ _ Sd)).
    rewrite (Hget None None (rejected_None _)). reflexivity.
  - apply Hget, rejected_safe, Sd.
  - unfold renameRecord.
    cbn [rename_uuid rename_newName rename_databaseName].
    rewrite Su, Sn, (rejected_safe _ _ Sd), rejected_None. cbn [negb run].
    unfold renameRecordSource. rewrite !eval_quotedOrNull.
    unfold renameRecordScript. cbn [seen]. rewrite getRecord_byUuid.
    destruct (getRecordWithUuid st (String c u)) as [record|]; [|reflexivity].
    unfold inOtherDatabase. cbn [truthy orElse andb].
    destruct (String.eqb (db_name (r_database record)) (String e d)); reflexivity.
Qed.

(** The theorem at work: the note of the inbox, asked for with the name of
    its own database. *)
Lemma uuid_decides_the_record_witness :
  isJXASafeString tabAndNewlines "AAAA-0001" = true
  /\ run (renameRecord tabAndNewlines
            (mkRenameRecordInput "AAAA-0001" "Minutes" (Some "Inbox")))
         Example.st0
     = run (renameRecord tabAndNewlines
              (mkRenameRecordInput "AAAA-0001" "Minutes" None)) Example.st0.
Proof.
  split; [reflexivity|].
  apply (uuid_decides_the_record tabAndNewlines Example.st0
           "AAAA-0001" "Minutes" "Inbox" (Some 42%Z));
    try discriminate; reflexivity.
Defined.

(** C1 as stated does not hold: the note is renamed when no database is
    named, and the same call fails when the name of another open database
    comes with the UUID. *)
Lemma databaseName_changes_rename_outcome :
  option_map fst
    (run (renameRecord tabAndNewlines
            (mkRenameRecordInput "AAAA-0001" "Minutes" None)) Example.st0)
  = Some success
  /\ option_map fst
       (run (renameRecord tabAndNewlines
               (mkRenameRecordInput "AAAA-0001" "Minutes" (Some "Archive")))
            Example.st0)
     = Some (failure "Record with UUID AAAA-0001 not found in database Archive").
Proof. split; vm_compute; reflexivity. Qed.

End ResolutionFacts.

(** ** Tags *)

Module TagFacts.
Import JS Sanitizer App Helpers Tools TextFacts ResolutionFacts.

Lemma filter_twice {A : Type} (f : A -> bool) (l : list A) :
  filter f (filter f l) = filter f l.
Proof.
  induction l as [|a l IH]; simpl; [reflexivity|].
  destruct (f a) eqn:E; simpl; [rewrite E, IH|]; auto.
Qed.

Lemma newTags_twice (existingTags tagsToRemove : list string) :
  newTags (newTags existingTags tagsToRemove) tagsToRemove
  = newTags existingTags tagsToRemove.
Proof. apply filter_twice. Qed.

Lemma find_uuid (rs : list record) (u : string) (r : record) :
  find (fun r => String.eqb (r_uuid r) u) rs = Some r -> r_uuid r = u.
Proof.
  intros H. apply find_some in H. destruct H as [_ H].
  now apply String.eqb_eq.
Qed.

(** Writing the tags of a record does not change which record a UUID
    names. *)
Lemma find_after_withTags (rs : list record) (u v : string) (tags : list string) :
  find (fun r => String.eqb (r_uuid r) u) (updateRecord v (withTags tags) rs)
  = option_map (fun r => if String.eqb (r_uuid r) v then withTags tags r else r)
               (find (fun r => String.eqb (r_uuid r) u) rs).
Proof.
  induction rs as [|r rs IH]; simpl; [reflexivity|].
  destruct (String.eqb (r_uuid r) v) eqn:Ev; simpl;
    destruct (String.eqb (r_uuid r) u) eqn:Eu; simpl; rewrite ?Ev; auto.
Qed.

Lemma updateRecord_withTags_twice (rs : list record) (u : string)
  (tags : list string) :
  updateRecord u (withTags tags) (updateRecord u (withTags tags) rs)
  = updateRecord u (withTags tags) rs.
Proof.
  induction rs as [|r rs IH]; simpl; [reflexivity|].
  rewrite IH. destruct (String.eqb (r_uuid r) u) eqn:E; simpl; rewrite E;
    reflexivity.
Qed.

Lemma removeTagsScript_found (c : ascii) (u : string) (d : option string)
  (tags : list string) (st : state) (record : record) :
  getRecordWithUuid st (String c u) = Some record ->
  inOtherDatabase d record = false ->
  removeTagsScript (Some (String c u)) d tags st
  = (success, setTags st record (newTags (r_tags record) tags)).
Proof.
  intros E Hd. unfold removeTagsScript. rewrite getRecord_byUuid, E, Hd.
  reflexivity.
Qed.

Lemma removeTagsScript_twice (u d : option string) (tags : list string)
  (st st1 : state) (result : json) :
  removeTagsScript u d tags st = (result, st1) ->
  exists st2 : state,
    removeTagsScript u d tags st1 = (result, st2)
    /\ records st2 = records st1
    /\ (if isSuccess result
        then tagsOf st1 (orElse u EmptyString)
             = newTags (tagsOf st (orElse u EmptyString)) tags
        else st1 = st).
Proof.
  intros H.
  assert (Hfail : forall e, (result, st1) = (failure e, st) ->
            removeTagsScript u d tags st = (failure e, st) ->
            exists st2 : state,
              removeTagsScript u d tags st1 = (result, st2)
              /\ records st2 = records st1
              /\ (if isSuccess result
                  then tagsOf st1 (orElse u EmptyString)
                       = newTags (tagsOf st (orElse u EmptyString)) tags
                  else st1 = st)).
  { intros e Heq Hrun. inversion Heq; subst. exists st.
    split; [exact Hrun|]. split; reflexivity. }
  destruct u as [[|c u]|];
    try (apply (Hfail (uuidNotFound None)); [now rewrite <- H|reflexivity]);
    try (apply (Hfail (uuidNotFound (Some EmptyString)));
         [now rewrite <- H|reflexivity]).
  destruct (getRecordWithUuid st (String c u)) as [record|] eqn:E.
  2:{ apply (Hfail (uuidNotFound (Some (String c u)))).
      - rewrite <- H. unfold removeTagsScript. now rewrite getRecord_byUuid, E.
      - unfold removeTagsScript. now rewrite getRecord_byUuid, E. }
  destruct (inOtherDatabase d record) eqn:Hd.
  { apply (Hfail (uuidNotFoundIn (Some (String c u)) d)).
    - rewrite <- H. unfold removeTagsScript.
      now rewrite getRecord_byUuid, E, Hd.
    - unfold removeTagsScript. now rewrite getRecord_byUuid, E, Hd. }
  rewrite (removeTagsScript_found _ _ _ _ _ _ E Hd) in H.
  inversion H; subst result st1; clear H Hfail.
  pose proof (find_uuid _ _ _ E) as Hu.
  set (T := newTags (r_tags record) tags).
  assert (E1 : getRecordWithUuid (setTags st record T) (String c u)
               = Some (withTags T record)).
  { unfold getRecordWithUuid, setTags, withRecords; cbn [records].
    rewrite find_after_withTags. unfold getRecordWithUuid in E. rewrite E.
    cbn [option_map]. rewrite Hu, String.eqb_refl. reflexivity. }
  assert (Hd1 : inOtherDatabase d (withTags T record) = false)
    by (rewrite <- Hd; reflexivity).
  rewrite (removeTagsScript_found _ _ _ _ _ _ E1 Hd1).
  eexists. split; [reflexivity|]. split.
  - unfold setTags, withRecords; cbn [records r_tags withTags r_uuid].
    unfold T. rewrite newTags_twice. apply updateRecord_withTags_twice.
  - replace (isSuccess success) with true by reflexivity.
    cbn [orElse]. unfold tagsOf. rewrite E1, E. reflexivity.
Qed.

(** C7.  remove_tags always answers, a second call with the same input
    answers the same and leaves every record as the first call left it; a
    successful call leaves the record with its former tags filtered against
    the tags to remove, and a failed one changes nothing. *)
Theorem removeTags_idempotent
  (allowedControl : ascii -> bool) (input : RemoveTagsInput) (st : state) :
  exists (result : json) (st1 st2 : state),
    run (removeTags allowedControl input) st = Some (result, st1)
    /\ run (removeTags allowedControl input) st1 = Some (result, st2)
    /\ records st2 = records st1
    /\ (if isSuccess result
        then tagsOf st1 (untag_uuid input)
             = newTags (tagsOf st (untag_uuid input)) (untag_tags input)
        else st1 = st).
Proof.
  assert (Hreturn : forall e P,
            exists (result : json) (st1 st2 : state),
              run (Return (failure e)) st = Some (result, st1)
              /\ run (Return (failure e)) st1 = Some (result, st2)
              /\ records st2 = records st1
              /\ (if isSuccess result then P st1 else st1 = st)).
  { intros e P. exists (failure e), st, st. repeat split; reflexivity. }
  unfold removeTags.
  destruct (negb (isJXASafeString allowedControl (untag_uuid input)));
    [apply (Hreturn _ (fun st1 => tagsOf st1 _ = _))|].
  destruct (firstUnsafeTag allowedControl (untag_tags input)) as [tag|];
    [apply (Hreturn _ (fun st1 => tagsOf st1 _ = _))|].
  destruct (rejected allowedControl (untag_databaseName input));
    [apply (Hreturn _ (fun st1 => tagsOf st1 _ = _))|].
  clear Hreturn. cbn [run]. unfold removeTagsSource. rewrite !eval_quotedOrNull.
  destruct (removeTagsScript (seen (Some (untag_uuid input)))
              (seen (untag_databaseName input)) (untag_tags input) st)
    as [result st1] eqn:R.
  destruct (removeTagsScript_twice _ _ _ _ _ _ R) as (st2 & H1 & H2 & H3).
  exists result, st1, st2. rewrite H1. repeat split; auto.
  rewrite orElse_seen in H3. cbn [orElse] in H3.
  destruct (untag_uuid input); exact H3.
Qed.

End TagFacts.

(** ** Result documents *)

Module ResultFacts.
Import JS Sanitizer App Helpers Tools.

(** C4 at work on delete_record.  The application declines to delete the
    note; the script answers [{ success: deleteResult }], a failure that
    carries no [error].  move_record, next to it, does name the failure when
    the application returns nothing. *)
Theorem deleteRecord_failure_without_error :
  option_map fst
    (run (deleteRecord tabAndNewlines
            (mkDeleteRecordInput (Some "AAAA-0001") None None None))
         Example.st0)
  = Some (JObj [("success", JBool false)])
  /\ get "error" (JObj [("success", JBool false)]) = None
  /\ option_map fst
       (run (moveRecord tabAndNewlines
               (mkMoveRecordInput (Some "AAAA-0001") None None None
                                  (Some "CCCC-0003") None))
            Example.st1)
     = Some (failure "Failed to move record").
Proof. repeat split; vm_compute; reflexivity. Qed.

End ResultFacts.

(** ** move_record *)

Module MoveFacts.
Import JS Sanitizer App Helpers Tools TextFacts ResolutionFacts.

Lemma isPrefix_refl (s : string) : isPrefix s s = true.
Proof.
  induction s as [|c s IH]; simpl; [reflexivity|].
  now rewrite Ascii.eqb_refl, IH.
Qed.

Lemma includes_refl (s : string) : includes s s = true.
Proof. destruct s; simpl; [reflexivity|]. now rewrite Ascii.eqb_refl, isPrefix_refl. Qed.

Lemma includes_empty (s : string) : includes s EmptyString = true.
Proof. destruct s; reflexivity. Qed.

Lemma includes_app_r (a b : string) : includes (a ++ b) b = true.
Proof.
  induction a as [|c a IH]; simpl; [apply includes_refl|].
  rewrite IH. apply orb_true_r.
Qed.

Lemma getDatabase_seen (st : state) (x : option string) :
  getDatabase st (seen x) = getDatabase st x.
Proof. destruct x as [[|c s]|]; reflexivity. Qed.

Lemma getRecord_uuid (st : state) (c : ascii) (u : string) (id : option Z)
  (path name : option string) (db : option database) (record : record) :
  getRecordWithUuid st (String c u) = Some record ->
  lr_record (getRecord st (mkLookupOptions (Some (String c u)) id path name db))
  = Some record.
Proof. intros E. unfold getRecord; cbn [lo_uuid]. now rewrite E. Qed.

Lemma destinationOf_seen (st : state) (x : option string) :
  (if truthy (seen x) then getRecordWithUuid st (orElse (seen x) EmptyString)
   else None) = destinationOf st x.
Proof. destruct x as [[|c s]|]; reflexivity. Qed.

(** C6, as the code has it.  The record to move is found by its UUID, the
    database resolves, and the destination is missing or is not a group:
    move_record fails, the application's state (and with it the list of the
    commands it received) is as before, and the error says what is wrong
    with the destination.  It names the destination UUID when the UUID
    stands for no record; when the UUID stands for a record that is not a
    group, it names the type of that record instead. *)
Theorem move_to_unusable_destination
  (allowedControl : ascii -> bool) (st : state) (input : MoveRecordInput)
  (uuid : string) (record : record) (targetDatabase : database) :
  move_uuid input = Some uuid ->
  uuid <> EmptyString ->
  rejected allowedControl (move_uuid input) = false ->
  rejected allowedControl (move_recordName input) = false ->
  rejected allowedControl (move_recordPath input) = false ->
  rejected allowedControl (move_destinationGroupUuid input) = false ->
  rejected allowedControl (move_databaseName input) = false ->
  getDatabase st (move_databaseName input) = inr targetDatabase ->
  getRecordWithUuid st uuid = Some record ->
  isDestination st (move_destinationGroupUuid input) = false ->
  run (moveRecord allowedControl input) st
  = Some (failure
            (errorToString
               (match destinationOf st (move_destinationGroupUuid input) with
                | None =>
                    destinationNotFound (move_destinationGroupUuid input)
                | Some destination =>
                    destinationNotGroup (r_recordType destination)
                end)), st)
  /\ includes (destinationNotFound (move_destinationGroupUuid input))
              (orEmpty (move_destinationGroupUuid input)) = true.
Proof.
  intros Hu Hne V1 V2 V3 V4 V5 Hdb Hrec Hdest. split.
  - unfold moveRecord. rewrite V1, V2, V3, V4, V5. cbn [run].
    unfold moveRecordSource. rewrite !eval_quotedOrNull.
    unfold moveRecordScript. rewrite getDatabase_seen, Hdb, Hu.
    destruct uuid as [|c u]; [congruence|]. cbn [seen].
    rewrite (getRecord_uuid _ _ _ _ _ _ _ _ Hrec).
    rewrite destinationOf_seen. unfold isDestination in Hdest.
    destruct (destinationOf st (move_destinationGroupUuid input))
      as [destination|].
    + apply orb_false_elim in Hdest. destruct Hdest as [H1 H2].
      rewrite H1, H2. reflexivity.
    + unfold destinationNotFound. now rewrite orElse_seen.
  - unfold destinationNotFound, orEmpty.
    destruct (move_destinationGroupUuid input) as [[|c s]|]; cbn [orElse];
      try apply includes_empty.
    apply includes_app_r.
Qed.

(** The theorem at work: the note is to go to a UUID that stands for no
    record. *)
Lemma move_to_unusable_destination_witness :
  getRecordWithUuid Example.st0 "AAAA-0001" = Some Example.note
  /\ isDestination Example.st0 (Some "FFFF-0009") = false
  /\ run (moveRecord tabAndNewlines
            (mkMoveRecordInput (Some "AAAA-0001") None None None
                               (Some "FFFF-0009") None)) Example.st0
     = Some (failure
               "Error: Destination group with UUID not found: FFFF-0009",
             Example.st0).
Proof.
  split; [reflexivity|]. split; [reflexivity|].
  apply (move_to_unusable_destination tabAndNewlines Example.st0
           (mkMoveRecordInput (Some "AAAA-0001") None None None
                              (Some "FFFF-0009") None)
           "AAAA-0001" Example.note Example.inbox);
    try reflexivity; discriminate.
Defined.

(** C6 as stated does not hold: the destination UUID stands for the
    report, which is no group; nothing is moved, and the error does not
    mention the UUID. *)
Lemma non_group_error_omits_destination_uuid :
  run (moveRecord tabAndNewlines
         (mkMoveRecordInput (Some "AAAA-0001") None None None
                            (Some "BBBB-0002") None)) Example.st0
  = Some (failure "Error: Destination is not a group. Record type: PDF",
          Example.st0)
  /\ includes "Error: Destination is not a group. Record type: PDF"
              "BBBB-0002" = false.
Proof.
  split; vm_compute; reflexivity.
Qed.

End MoveFacts.

(** ** The request handler *)

Module ServerFacts.
Import JS Sanitizer App Tools Server.

Lemma findTool_unknown (tools : list tool) (name : string) :
  ~ In name (map tool_name tools) -> findTool tools name = None.
Proof.
  induction tools as [|t tools IH]; intros H; [reflexivity|].
  unfold findTool in *. cbn [find].
  destruct (String.eqb_spec (tool_name t) name) as [E|_].
  - exfalso. apply H. left. exact E.
  - apply IH. intros Hin. apply H. right. exact Hin.
Qed.

(** C9.  A call whose tool name is not in the table selects no tool, so no
    [run] is invoked; the handler throws the method-not-found error and the
    application's state is as before. *)
Theorem unknown_tool_is_method_not_found
  (tools : list tool) (name : string) (args : json) (st : state) :
  ~ In name (map tool_name tools) ->
  findTool tools name = None
  /\ callTool tools name args st
     = Some (McpError MethodNotFound ("Unknown tool: " ++ name), st).
Proof.
  intros H. pose proof (findTool_unknown tools name H) as E.
  split; [exact E|]. unfold callTool. now rewrite E.
Qed.

Lemma unknown_tool_is_method_not_found_witness :
  ~ In "empty_trash" (map tool_name (Server.tools tabAndNewlines))
  /\ callTool (Server.tools tabAndNewlines) "empty_trash" (JObj [])
              Example.st0
     = Some (McpError MethodNotFound "Unknown tool: empty_trash",
             Example.st0).
Proof.
  assert (H : ~ In "empty_trash"
                (map tool_name (Server.tools tabAndNewlines))).
  { cbn. intros [E|[E|[E|[E|[]]]]]; discriminate E. }
  split; [exact H|].
  apply (unknown_tool_is_method_not_found
           (Server.tools tabAndNewlines) "empty_trash" (JObj [])
           Example.st0 H).
Defined.

End ServerFacts.

(** ** search *)

Module SearchFacts.
Import JS Sanitizer App Helpers Tools.






End SearchFacts.

(** ** Database resolution by name *)

Module DatabaseFacts.
Import JS Sanitizer App Helpers Tools TextFacts.

Lemma decodeBody_plain (s tail v : string) :
  plainText s = true ->
  decodeBody tail = Some v ->
  decodeBody (s ++ tail) = Some (s ++ v).
Proof.
  intros Hs Htail. induction s as [|c s IH]; simpl; [exact Htail|].
  simpl in Hs. apply andb_true_iff in Hs. destruct Hs as [Hc Hs].
  unfold plainChar in Hc. apply negb_true_iff in Hc.
  apply orb_false_elim in Hc. destruct Hc as [Hc Hcr].
  apply orb_false_elim in Hc. destruct Hc as [Hc Hlf].
  apply orb_false_elim in Hc. destruct Hc as [Hq Hb].
  rewrite Hq, Hb, Hlf, Hcr. simpl. now rewrite (IH Hs).
Qed.

Lemma literal_of_plain (s : string) :
  plainText s = true -> stringLiteralValue (DQ ++ s ++ DQ) = Some s.
Proof.
  intros H. simpl. rewrite (decodeBody_plain s DQ EmptyString H eq_refl).
  now rewrite append_empty_r.
Qed.

Lemma plainText_app (a b : string) :
  plainText (a ++ b) = plainText a && plainText b.
Proof.
  induction a as [|c a IH]; simpl; [reflexivity|].
  now rewrite IH, andb_assoc.
Qed.

Lemma find_first {A : Type} (f : A -> bool) (l : list A) :
  match find f l with
  | Some x =>
      exists before after : list A,
        l = (before ++ x :: after)%list /\ f x = true
        /\ Forall (fun a => f a = false) before
  | None => Forall (fun a => f a = false) l
  end.
Proof.
  induction l as [|a l IH]; simpl; [constructor|].
  destruct (f a) eqn:E.
  - exists [], l. repeat split; auto.
  - destruct (find f l) as [x|].
    + destruct IH as (before & after & -> & Hx & Hb).
      exists (a :: before), after. repeat split; auto.
    + constructor; assumption.
Qed.

Lemma findDatabase_first (st : state) (name : string) :
  match findDatabase st name with
  | Some db => FirstNamed (databases st) name db
  | None => NoneNamed (databases st) name
  end.
Proof.
  unfold findDatabase, FirstNamed, NoneNamed.
  pose proof (find_first (fun db => String.eqb (db_name db) name)
                         (databases st)) as H.
  destruct (find _ (databases st)) as [db|].
  - destruct H as (before & after & Hl & Hx & Hb).
    exists before, after. repeat split; auto.
    + now apply String.eqb_eq.
    + eapply Forall_impl; [|exact Hb]. intros d Hd. now apply String.eqb_neq.
  - eapply Forall_impl; [|exact H]. intros d Hd. now apply String.eqb_neq.
Qed.

(** X21.  A database name is given, and it reads between quotes as it is
    written (it holds no quote, backslash or line terminator).  The scripts
    of lookup_record and of create_record then take the first open database
    that bears exactly this name; when no open database bears it,
    lookup_record returns the error [Database not found: <name>], and
    create_record throws an error with that message, which its result
    carries as [Error: Database not found: <name>]. *)
Theorem database_resolution_by_name (st : state) (name : string) :
  name <> EmptyString ->
  plainText name = true ->
  (exists db : database,
      FirstNamed (databases st) name db
      /\ lookupRecordDatabaseSource (Some name) st = Some (inr (Some db))
      /\ createRecordDatabaseSource (Some name) st = Some (inr (Some db)))
  \/ (NoneNamed (databases st) name
      /\ lookupRecordDatabaseSource (Some name) st
         = Some (inl (failure ("Database not found: " ++ name)))
      /\ createRecordDatabaseSource (Some name) st
         = Some (inl (failure
                        (errorToString ("Database not found: " ++ name))))).
Proof.
  intros Hne Hplain.
  assert (Hmsg : stringLiteralValue
                   (DQ ++ "Database not found: " ++ templateText (Some name) ++ DQ)
                 = Some ("Database not found: " ++ name)).
  { change (DQ ++ "Database not found: " ++ templateText (Some name) ++ DQ)
      with (DQ ++ ("Database not found: " ++ name) ++ DQ).
    apply literal_of_plain. rewrite plainText_app, Hplain. reflexivity. }
  unfold lookupRecordDatabaseSource, createRecordDatabaseSource.
  rewrite Hmsg. cbn [templateText].
  replace (orEmpty (Some name)) with name
    by (destruct name; [congruence|reflexivity]).
  rewrite (literal_of_plain name Hplain).
  unfold lookupRecordDatabase, createRecordDatabase.
  replace (truthy (Some name)) with true
    by (destruct name; [congruence|reflexivity]).
  pose proof (findDatabase_first st name) as H.
  destruct (findDatabase st name) as [db|].
  - left. exists db. auto.
  - right. auto.
Qed.

(** The theorem at work: no open database is called NoSuchDB. *)
Lemma database_resolution_by_name_witness :
  plainText "NoSuchDB" = true
  /\ lookupRecordDatabaseSource (Some "NoSuchDB") Example.st0
     = Some (inl (failure "Database not found: NoSuchDB")).
Proof.
  split; [reflexivity|].
  assert (Hne : "NoSuchDB" <> EmptyString) by discriminate.
  destruct (database_resolution_by_name Example.st0 "NoSuchDB" Hne eq_refl)
    as [(db & _ & H & _)|(_ & H & _)].
  - exfalso. revert H. vm_compute. discriminate.
  - exact H.
Defined.

(** C5 at work on lookup_record and create_record.  The database [A\B] is
    open, and it is asked for by its name.  Both tools write the name
    between quotes as it is, so that the script compares the names of the
    open databases with [AB]: lookup_record answers
    [Database not found: AB], and create_record the same after [Error: ].
    The same name written through [escapeStringForJXA], as
    [DevonThinkTool.buildDatabaseLookup] writes it, is a literal whose value
    is the name. *)
Theorem database_name_with_backslash_is_not_found :
  findDatabase MoreExamples.st4 ("A" ++ BS ++ "B") = Some MoreExamples.slashed
  /\ lookupRecordDatabaseSource (Some ("A" ++ BS ++ "B")) MoreExamples.st4
     = Some (inl (failure "Database not found: AB"))
  /\ Lookup.lookupRecord MoreExamples.lookupVerdict
                         MoreExamples.lookupInSlashed MoreExamples.st4
     = Some (failure "Database not found: AB", MoreExamples.st4)
  /\ createRecordDatabaseSource (create_databaseName MoreExamples.createInSlashed)
                                MoreExamples.st4
     = Some (inl (failure "Error: Database not found: AB"))
  /\ stringLiteralValue (DQ ++ "A" ++ BS ++ "B" ++ DQ) = Some "AB"
  /\ stringLiteralValue (quotedOrNull (Some ("A" ++ BS ++ "B")))
     = Some ("A" ++ BS ++ "B")
  /\ includes (Formatter.buildDatabaseLookup (Some ("A" ++ BS ++ "B")))
              ("db.name() === " ++ DQ ++ "A" ++ BS ++ BS ++ "B" ++ DQ) = true.
Proof. repeat split; vm_compute; reflexivity. Qed.

End DatabaseFacts.

(** ** Interpolation *)

Module InterpolationFacts.
Import JS Sanitizer App Tools.

(** C2 at work on create_record.  The name [Q3 "draft"] is written into the
    script as it is: the text between the quotes of the [name:] property is
    no string literal any more, where the text that [escapeStringForJXA]
    gives is a literal of the value the caller meant.  A backslash is taken
    as the start of an escape: [notes\today] names the record
    [notes<TAB>oday].  The database name is written as it is too, where the
    same lookup in [DevonThinkTool.buildDatabaseLookup] escapes it. *)
Theorem createRecord_interpolates_untreated :
  createRecordNameLiteral Example.createQuoted
  = DQ ++ "Q3 " ++ DQ ++ "draft" ++ DQ ++ DQ
  /\ includes (createRecordScriptText Example.createQuoted)
              ("name: " ++ DQ ++ "Q3 " ++ DQ ++ "draft" ++ DQ ++ DQ ++ ",")
     = true
  /\ stringLiteralValue (createRecordNameLiteral Example.createQuoted) = None
  /\ stringLiteralValue (quotedOrNull (Some Example.quotedName))
     = Some Example.quotedName
  /\ stringLiteralValue (createRecordNameLiteral Example.createSlashed)
     = Some ("notes" ++ String TAB "oday")
  /\ stringLiteralValue (quotedOrNull (Some Example.slashedName))
     = Some Example.slashedName
  /\ includes (createRecordScriptText Example.createInQuoted)
              ("db.name() === " ++ DQ ++ Example.quotedName ++ DQ) = true
  /\ includes (Formatter.buildDatabaseLookup (Some Example.quotedName))
              ("db.name() === " ++ DQ
                 ++ escapeStringForJXA Example.quotedName ++ DQ) = true.
Proof. repeat split; vm_compute; reflexivity. Qed.

End InterpolationFacts.

(** ** The value formatter and the result documents of the scripts *)

Module FormatterFacts.
Import JS Sanitizer Formatter Tools TextFacts.

Lemma scan_escaped (s t : string) :
  bracesDeclareOnly InString (escapeStringForJXA s ++ t)
  = bracesDeclareOnly InString t.
Proof.
  induction s as [|c s IH]; [reflexivity|].
  cbn [escapeStringForJXA]. rewrite append_assoc. unfold escapeChar.
  destruct (Ascii.eqb_spec c backslash) as [->|Hb]; [exact IH|].
  destruct (Ascii.eqb_spec c dquote) as [->|Hq]; [exact IH|].
  destruct (Ascii.eqb_spec c LF) as [->|Hl]; [exact IH|].
  destruct (Ascii.eqb_spec c CR) as [->|Hr]; [exact IH|].
  cbn [append bracesDeclareOnly].
  destruct (Ascii.eqb_spec c backslash); [contradiction|].
  destruct (Ascii.eqb_spec c dquote); [contradiction|].
  exact IH.
Qed.

Lemma scan_literal (s t : string) :
  bracesDeclareOnly Code (DQ ++ escapeStringForJXA s ++ DQ ++ t)
  = bracesDeclareOnly Code t.
Proof.
  change (bracesDeclareOnly Code (DQ ++ escapeStringForJXA s ++ DQ ++ t))
    with (bracesDeclareOnly InString (escapeStringForJXA s ++ DQ ++ t)).
  rewrite scan_escaped. reflexivity.
Qed.

Lemma scan_digits (d : Decimal.uint) (t : string) :
  bracesDeclareOnly Code (NilEmpty.string_of_uint d ++ t)
  = bracesDeclareOnly Code t.
Proof. induction d; simpl; auto. Qed.

Lemma scan_number (z : Z) (t : string) :
  bracesDeclareOnly Code (numberToString z ++ t) = bracesDeclareOnly Code t.
Proof.
  unfold numberToString, NilZero.string_of_int, NilZero.string_of_uint.
  destruct (Z.to_int z) as [d|d]; destruct d;
    try reflexivity;
    try (cbn [NilEmpty.string_of_uint append bracesDeclareOnly];
         cbn -[bracesDeclareOnly append NilEmpty.string_of_uint];
         apply scan_digits).
Qed.

Lemma join_cons_app (sep x : string) (l : list string) (t : string) :
  join sep (x :: l) ++ t = x ++ joinTail sep l t.
Proof.
  destruct l as [|y l]; [reflexivity|].
  cbn [join joinTail]. now rewrite !append_assoc.
Qed.

Lemma scan_array_items (items : list value) (t : string) :
  Forall (fun v => forall t,
            bracesDeclareOnly Code (formatValue v ++ t)
            = bracesDeclareOnly Code t) items ->
  bracesDeclareOnly Code (join ", " (map formatValue items) ++ t)
  = bracesDeclareOnly Code t.
Proof.
  induction 1 as [|v items Hv _ IH]; [reflexivity|].
  cbn [map]. rewrite join_cons_app, Hv.
  destruct items as [|w items]; [reflexivity|].
  cbn [joinTail]. exact IH.
Qed.

Lemma scan_assignment (key formatted t : string) :
  (forall t, bracesDeclareOnly Code (formatted ++ t) = bracesDeclareOnly Code t) ->
  bracesDeclareOnly Code (" " ++ assignment key formatted ++ t)
  = bracesDeclareOnly Code t.
Proof.
  intros H. unfold assignment. rewrite !append_assoc.
  change (bracesDeclareOnly Code
            (" " ++ "obj[" ++ DQ ++ escapeStringForJXA key ++ DQ ++ "] = "
                 ++ formatted ++ ";" ++ t))
    with (bracesDeclareOnly Code
            (DQ ++ escapeStringForJXA key ++ DQ ++ "] = "
                ++ formatted ++ ";" ++ t)).
  rewrite scan_literal.
  change (bracesDeclareOnly Code ("] = " ++ formatted ++ ";" ++ t))
    with (bracesDeclareOnly Code (formatted ++ ";" ++ t)).
  rewrite H. reflexivity.
Qed.

Lemma scan_assignments (entries : list (string * value)) (t : string) :
  Forall (fun kv => forall t,
            bracesDeclareOnly Code (formatValue (snd kv) ++ t)
            = bracesDeclareOnly Code t) entries ->
  bracesDeclareOnly Code
    (joinTail " "
       (map (fun kv => match kv with
                       | (key, val) => assignment key (formatValue val)
                       end) entries) t)
  = bracesDeclareOnly Code t.
Proof.
  induction 1 as [|[key val] entries Hv _ IH]; [reflexivity|].
  cbn [map joinTail]. rewrite join_cons_app.
  rewrite (scan_assignment key (formatValue val) _ Hv). exact IH.
Qed.

Lemma scan_formatted (v : value) :
  forall t, bracesDeclareOnly Code (formatValue v ++ t) = bracesDeclareOnly Code t.
Proof.
  induction v as [| |s|z|b|items IH|entries IH] using value_nested_ind; intros t.
  - reflexivity.
  - reflexivity.
  - cbn [formatValue]. rewrite !append_assoc. apply scan_literal.
  - apply scan_number.
  - destruct b; reflexivity.
  - cbn [formatValue]. rewrite !append_assoc.
    change (bracesDeclareOnly Code
              ("[" ++ join ", " (map formatValue items) ++ "]" ++ t))
      with (bracesDeclareOnly Code
              (join ", " (map formatValue items) ++ "]" ++ t)).
    rewrite (scan_array_items items _ IH). reflexivity.
  - cbn [formatValue]. rewrite !append_assoc, join_cons_app.
    set (tail := joinTail " " _ _).
    assert (Hhead : bracesDeclareOnly Code
                      ("(function() { " ++ "const obj = {};" ++ tail)
                    = bracesDeclareOnly Code tail) by reflexivity.
    rewrite Hhead. unfold tail. rewrite (scan_assignments entries _ IH).
    reflexivity.
Qed.

Lemma isSuffix_app (a b : string) : isSuffix b (a ++ b) = true.
Proof.
  induction a as [|c a IH]; cbn [append isSuffix].
  - destruct b; cbn [isSuffix]; rewrite String.eqb_refl; reflexivity.
  - rewrite IH. apply orb_true_r.
Qed.

Lemma isPrefix_app (a b : string) : isPrefix a (a ++ b) = true.
Proof.
  induction a as [|c a IH]; [reflexivity|].
  cbn [append isPrefix]. now rewrite Ascii.eqb_refl, IH.
Qed.

Lemma includes_prefix (a b : string) : includes (a ++ b) a = true.
Proof.
  pose proof (isPrefix_app a b) as H.
  destruct (a ++ b) as [|x s]; cbn [includes]; rewrite H; reflexivity.
Qed.

Lemma includes_app_after (a b sub : string) :
  includes b sub = true -> includes (a ++ b) sub = true.
Proof.
  intros H. induction a as [|c a IH]; [exact H|].
  cbn [append includes]. rewrite IH. apply orb_true_r.
Qed.

Lemma includes_joinTail (sep : string) (l : list string) (t x : string) :
  In x l -> includes (joinTail sep l t) x = true.
Proof.
  induction l as [|y l IH]; intros Hin; [destruct Hin|].
  cbn [joinTail]. apply includes_app_after. rewrite join_cons_app.
  destruct Hin as [->|Hin].
  - apply includes_prefix.
  - apply includes_app_after, IH, Hin.
Qed.

(** C3, as the code has it.  Whatever the value, the expression that
    [formatValue] writes has no object literal with members in it: outside
    the string literals every opening brace is the empty object or opens the
    function that declares [obj].  For an object the expression is that
    function, called on the spot: it starts by declaring [obj] empty, ends by
    returning [obj], and holds in between one bracket assignment for each
    entry.  The error handler that [wrapInTryCatch] supplies builds its
    result the same way and returns the bound [errorResponse].  The result
    documents that the scripts of the tools write themselves are not
    covered. *)
Theorem formatValue_declares_assigns_returns
  (v : value) (entries : list (string * value)) :
  bracesDeclareOnly Code (formatValue v) = true
  /\ stringifiesObjectLiteral defaultErrorHandler = false
  /\ includes defaultErrorHandler "return JSON.stringify(errorResponse);" = true
  /\ isPrefix "(function() { const obj = {};" (formatValue (VObject entries))
     = true
  /\ isSuffix " return obj; })()" (formatValue (VObject entries)) = true
  /\ Forall (fun kv =>
               includes (formatValue (VObject entries))
                        (assignment (fst kv) (formatValue (snd kv))) = true)
            entries.
Proof.
  split; [|split; [vm_compute; reflexivity|]];
    [|split; [vm_compute; reflexivity|]]; [|split; [|split]].
  - rewrite <- (append_empty_r (formatValue v)). now rewrite scan_formatted.
  - cbn [formatValue].
    rewrite <- (append_empty_r (_ ++ _ ++ " return obj; })()")).
    rewrite !append_assoc, join_cons_app. reflexivity.
  - cbn [formatValue]. rewrite <- append_assoc. apply isSuffix_app.
  - apply Forall_forall. intros [key val] Hin. cbn [fst snd formatValue].
    apply includes_app_after.
    rewrite join_cons_app. apply includes_app_after.
    apply includes_joinTail.
    apply (in_map (fun kv => match kv with
                             | (key, val) => assignment key (formatValue val)
                             end) entries (key, val) Hin).
Qed.

(** The test tells an object literal with members from the declaration of
    an empty object. *)
Lemma bracesDeclareOnly_examples :
  bracesDeclareOnly Code "JSON.stringify({ isRunning })" = false
  /\ bracesDeclareOnly Code "const result = {};" = true.
Proof. split; reflexivity. Qed.

(** C3 as stated does not hold for the scripts: is_running ends in
    [JSON.stringify({ isRunning })], and create_record returns
    [JSON.stringify({ success: true, ... })]. *)
Lemma scripts_stringify_object_literals :
  stringifiesObjectLiteral isRunningScriptText = true
  /\ includes isRunningScriptText "JSON.stringify({ isRunning });" = true
  /\ stringifiesObjectLiteral (createRecordScriptText Example.createQuoted)
     = true.
Proof. repeat split; vm_compute; reflexivity. Qed.

End FormatterFacts.

(** ** Validation *)

Module ValidationFacts.
Import JS Sanitizer App Helpers Tools.

Lemma unsafe_char_unsafe (allowedControl : ascii -> bool) (c : ascii) :
  c = dquote \/ c = backslash \/ disallowedControl allowedControl c = true ->
  unsafeChar allowedControl c = true.
Proof.
  unfold unsafeChar. intros [->|[->|H]].
  - reflexivity.
  - reflexivity.
  - rewrite H. now rewrite !orb_true_r.
Qed.

Lemma containsUnsafe_not_safe (allowedControl : ascii -> bool) (s : string) :
  ContainsUnsafe allowedControl s -> isJXASafeString allowedControl s = false.
Proof.
  intros (c & Hin & Hc). induction s as [|x s IH]; [destruct Hin|].
  cbn [isJXASafeString]. cbn [list_ascii_of_string] in Hin.
  destruct Hin as [->|Hin].
  - now rewrite (unsafe_char_unsafe _ _ Hc).
  - rewrite (IH Hin). apply andb_false_r.
Qed.

Lemma rejected_orElse (allowedControl : ascii -> bool) (x : option string) :
  rejected allowedControl x
  = negb (isJXASafeString allowedControl (orElse x EmptyString)).
Proof. destruct x as [[|c s]|]; reflexivity. Qed.

Section Refusal.

Variable allowedControl : ascii -> bool.

Lemma firstFailing_exists (checks : list (string * string)) (s : string) :
  In s (map snd checks) ->
  isJXASafeString allowedControl s = false ->
  exists message value,
    firstFailing allowedControl checks = Some (message, value)
    /\ In (message, value) checks
    /\ isJXASafeString allowedControl value = false.
Proof.
  intros Hin Hs. unfold firstFailing.
  destruct (find _ checks) as [[message value]|] eqn:E.
  - exists message, value. apply find_some in E. destruct E as [E1 E2].
    cbn in E2. apply negb_true_iff in E2. auto.
  - apply in_map_iff in Hin. destruct Hin as ([m v] & Hv & Hin).
    cbn in Hv. subst v.
    pose proof (find_none _ _ E _ Hin) as H. cbn in H. now rewrite Hs in H.
Qed.

(** A tool that returns the error of its first failing check refuses every
    input with an unsafe text under test. *)
Lemma refuses (p : plan) (checks : list (string * string)) (s : string) :
  (forall message value,
      firstFailing allowedControl checks = Some (message, value) ->
      p = Return (failure message)) ->
  In s (map snd checks) ->
  isJXASafeString allowedControl s = false ->
  RefusesNaming allowedControl p checks.
Proof.
  intros Hp Hin Hs.
  destruct (firstFailing_exists checks s Hin Hs) as (m & v & E & H1 & H2).
  exists m, v. split; [apply (Hp m v E)|]. split; assumption.
Qed.

Ltac first_check :=
  unfold firstFailing; cbn [find snd];
  rewrite <- ?rejected_orElse;
  repeat match goal with
         | |- context [negb (isJXASafeString allowedControl ?x)] =>
             destruct (negb (isJXASafeString allowedControl x))
         | |- context [rejected allowedControl ?x] =>
             destruct (rejected allowedControl x)
         end;
  intros message value E; inversion E; reflexivity.

Lemma renameRecord_first (input : RenameRecordInput) :
  forall message value,
    firstFailing allowedControl (renameRecordChecks input) = Some (message, value) ->
    renameRecord allowedControl input = Return (failure message).
Proof. unfold renameRecord, renameRecordChecks. first_check. Qed.

Lemma getRecordByIdentifier_first (input : GetRecordByIdentifierInput) :
  forall message value,
    firstFailing allowedControl (getRecordByIdentifierChecks input) = Some (message, value) ->
    getRecordByIdentifier allowedControl input = Return (failure message).
Proof. unfold getRecordByIdentifier, getRecordByIdentifierChecks. first_check. Qed.

Lemma deleteRecord_first (input : DeleteRecordInput) :
  forall message value,
    firstFailing allowedControl (deleteRecordChecks input) = Some (message, value) ->
    deleteRecord allowedControl input = Return (failure message).
Proof. unfold deleteRecord, deleteRecordChecks. first_check. Qed.

Lemma moveRecord_first (input : MoveRecordInput) :
  forall message value,
    firstFailing allowedControl (moveRecordChecks input) = Some (message, value) ->
    moveRecord allowedControl input = Return (failure message).
Proof. unfold moveRecord, moveRecordChecks. first_check. Qed.

Lemma search_first (isGroup : record -> bool)
  (isVersion41OrLater : state -> bool) (escapeSearchQuery : string -> string)
  (input : SearchInput) :
  forall message value,
    firstFailing allowedControl (searchChecks input) = Some (message, value) ->
    search allowedControl isGroup isVersion41OrLater escapeSearchQuery input
    = Return (failure message).
Proof. unfold search, searchChecks. first_check. Qed.

Lemma tags_first (tags : list string) (rest : list (string * string)) :
  firstFailing allowedControl
    (List.app
       (map (fun tag =>
               ("Tag " ++ DQ ++ tag ++ DQ ++ " contains invalid characters", tag))
            tags) rest)
  = match firstUnsafeTag allowedControl tags with
    | Some tag =>
        Some ("Tag " ++ DQ ++ tag ++ DQ ++ " contains invalid characters", tag)
    | None => firstFailing allowedControl rest
    end.
Proof.
  unfold firstFailing, firstUnsafeTag.
  induction tags as [|tag tags IH]; [reflexivity|].
  cbn [map app find snd].
  destruct (negb (isJXASafeString allowedControl tag)); [reflexivity|exact IH].
Qed.

Lemma removeTags_first (input : RemoveTagsInput) :
  forall message value,
    firstFailing allowedControl (removeTagsChecks input) = Some (message, value) ->
    removeTags allowedControl input = Return (failure message).
Proof.
  unfold removeTags, removeTagsChecks. intros message value.
  assert (Hcons : forall c l,
            firstFailing allowedControl (c :: l)
            = if negb (isJXASafeString allowedControl (snd c))
              then Some c else firstFailing allowedControl l) by reflexivity.
  rewrite Hcons. cbn [snd].
  destruct (negb (isJXASafeString allowedControl (untag_uuid input)));
    [intros E; inversion E; reflexivity|].
  rewrite tags_first.
  destruct (firstUnsafeTag allowedControl (untag_tags input)) as [tag|];
    [intros E; inversion E; reflexivity|].
  unfold firstFailing; cbn [find snd]. rewrite <- rejected_orElse.
  destruct (rejected allowedControl (untag_databaseName input));
    intros E; inversion E; reflexivity.
Qed.

End Refusal.

(** C8.  A text that holds a double quote, a backslash or a disallowed
    control character is not safe for [isJXASafeString]; and rename_record,
    search, move_record, delete_record, remove_tags and
    get_record_by_identifier, given such a text in a field they validate,
    return at once, without a script, the error of a validated field whose
    text is not safe. *)
Theorem unsafe_text_is_refused
  (allowedControl : ascii -> bool)
  (isGroup : record -> bool) (isVersion41OrLater : state -> bool)
  (escapeSearchQuery : string -> string)
  (s : string)
  (renameInput : RenameRecordInput) (searchInput : SearchInput)
  (moveInput : MoveRecordInput) (deleteInput : DeleteRecordInput)
  (removeTagsInput : RemoveTagsInput)
  (getInput : GetRecordByIdentifierInput) :
  ContainsUnsafe allowedControl s ->
  In s (map snd (renameRecordChecks renameInput)) ->
  In s (map snd (searchChecks searchInput)) ->
  In s (map snd (moveRecordChecks moveInput)) ->
  In s (map snd (deleteRecordChecks deleteInput)) ->
  In s (map snd (removeTagsChecks removeTagsInput)) ->
  In s (map snd (getRecordByIdentifierChecks getInput)) ->
  isJXASafeString allowedControl s = false
  /\ RefusesNaming allowedControl (renameRecord allowedControl renameInput)
                   (renameRecordChecks renameInput)
  /\ RefusesNaming allowedControl
                   (search allowedControl isGroup isVersion41OrLater
                           escapeSearchQuery searchInput)
                   (searchChecks searchInput)
  /\ RefusesNaming allowedControl (moveRecord allowedControl moveInput)
                   (moveRecordChecks moveInput)
  /\ RefusesNaming allowedControl (deleteRecord allowedControl deleteInput)
                   (deleteRecordChecks deleteInput)
  /\ RefusesNaming allowedControl (removeTags allowedControl removeTagsInput)
                   (removeTagsChecks removeTagsInput)
  /\ RefusesNaming allowedControl
                   (getRecordByIdentifier allowedControl getInput)
                   (getRecordByIdentifierChecks getInput).
Proof.
  intros Hs H1 H2 H3 H4 H5 H6.
  pose proof (containsUnsafe_not_safe _ _ Hs) as Hunsafe.
  split; [exact Hunsafe|].
  repeat split.
  - exact (refuses _ _ _ _ (renameRecord_first _ _) H1 Hunsafe).
  - exact (refuses _ _ _ _ (search_first _ _ _ _ _) H2 Hunsafe).
  - exact (refuses _ _ _ _ (moveRecord_first _ _) H3 Hunsafe).
  - exact (refuses _ _ _ _ (deleteRecord_first _ _) H4 Hunsafe).
  - exact (refuses _ _ _ _ (removeTags_first _ _) H5 Hunsafe).
  - exact (refuses _ _ _ _ (getRecordByIdentifier_first _ _) H6 Hunsafe).
Qed.

Lemma unsafe_text_is_refused_witness :
  ContainsUnsafe tabAndNewlines Example.quotedName
  /\ RefusesNaming tabAndNewlines
                   (renameRecord tabAndNewlines Example.renameQuoted)
                   (renameRecordChecks Example.renameQuoted)
  /\ RefusesNaming tabAndNewlines
                   (search tabAndNewlines Example.isGroup
                           Example.isVersion41OrLater escapeStringForJXA
                           Example.searchQuoted)
                   (searchChecks Example.searchQuoted).
Proof.
  assert (Hs : ContainsUnsafe tabAndNewlines Example.quotedName).
  { exists dquote. split; [cbn; auto|left; reflexivity]. }
  split; [exact Hs|].
  destruct (unsafe_text_is_refused tabAndNewlines Example.isGroup
              Example.isVersion41OrLater escapeStringForJXA
              Example.quotedName Example.renameQuoted Example.searchQuoted
              Example.moveQuoted Example.deleteQuoted Example.untagQuoted
              Example.getQuoted Hs)
    as (_ & Hrename & Hsearch & _); cbn; auto 8.
Defined.

End ValidationFacts.

(** ** What the validated tools hand to their scripts *)

Module DeliveryFacts.
Import JS Sanitizer App Helpers Tools Tagging TextFacts ValidationFacts.

Section Delivery.

Variable allowedControl : ascii -> bool.

Lemma firstFailing_cons (c : string * string) (l : list (string * string)) :
  firstFailing allowedControl (c :: l)
  = if negb (isJXASafeString allowedControl (snd c))
    then Some c else firstFailing allowedControl l.
Proof. reflexivity. Qed.

Ltac checks_then_script :=
  rewrite ?firstFailing_cons; cbn [snd]; rewrite <- ?rejected_orElse;
  repeat match goal with
         | |- context [negb (isJXASafeString allowedControl ?x)] =>
             destruct (negb (isJXASafeString allowedControl x));
             [reflexivity|]
         | |- context [rejected allowedControl ?x] =>
             destruct (rejected allowedControl x); [reflexivity|]
         end;
  cbn [run firstFailing find].

Lemma renameRecord_runs (input : RenameRecordInput) (st : state) :
  run (renameRecord allowedControl input) st
  = match firstFailing allowedControl (renameRecordChecks input) with
    | Some (message, _) => Some (failure message, st)
    | None =>
        Some (renameRecordScript (seen (Some (rename_uuid input)))
                                 (seen (rename_databaseName input))
                                 (seen (Some (rename_newName input))) st)
    end.
Proof.
  unfold renameRecord, renameRecordChecks. checks_then_script.
  unfold renameRecordSource. now rewrite !eval_quotedOrNull.
Qed.

Lemma getRecordByIdentifier_runs (input : GetRecordByIdentifierInput)
  (st : state) :
  run (getRecordByIdentifier allowedControl input) st
  = match firstFailing allowedControl (getRecordByIdentifierChecks input) with
    | Some (message, _) => Some (failure message, st)
    | None =>
        Some (getRecordByIdentifierScript (seen (byid_uuid input))
                                          (byid_id input)
                                          (seen (byid_databaseName input)) st)
    end.
Proof.
  unfold getRecordByIdentifier, getRecordByIdentifierChecks.
  checks_then_script.
  unfold getRecordByIdentifierSource. now rewrite !eval_quotedOrNull.
Qed.

Lemma deleteRecord_runs (input : DeleteRecordInput) (st : state) :
  run (deleteRecord allowedControl input) st
  = match firstFailing allowedControl (deleteRecordChecks input) with
    | Some (message, _) => Some (failure message, st)
    | None =>
        Some (deleteRecordScript (seen (delete_databaseName input))
                                 (seen (delete_uuid input))
                                 (delete_recordId input)
                                 (seen (delete_recordPath input)) st)
    end.
Proof.
  unfold deleteRecord, deleteRecordChecks. checks_then_script.
  unfold deleteRecordSource. now rewrite !eval_quotedOrNull.
Qed.

Lemma moveRecord_runs (input : MoveRecordInput) (st : state) :
  run (moveRecord allowedControl input) st
  = match firstFailing allowedControl (moveRecordChecks input) with
    | Some (message, _) => Some (failure message, st)
    | None =>
        Some (moveRecordScript (seen (move_databaseName input))
                               (seen (move_uuid input))
                               (move_recordId input)
                               (seen (move_recordPath input))
                               (seen (move_recordName input))
                               (seen (move_destinationGroupUuid input)) st)
    end.
Proof.
  unfold moveRecord, moveRecordChecks. checks_then_script.
  unfold moveRecordSource. now rewrite !eval_quotedOrNull.
Qed.

Lemma removeTags_runs (input : RemoveTagsInput) (st : state) :
  run (removeTags allowedControl input) st
  = match firstFailing allowedControl (removeTagsChecks input) with
    | Some (message, _) => Some (failure message, st)
    | None =>
        Some (removeTagsScript (seen (Some (untag_uuid input)))
                               (seen (untag_databaseName input))
                               (untag_tags input) st)
    end.
Proof.
  unfold removeTags, removeTagsChecks. rewrite firstFailing_cons. cbn [snd].
  destruct (negb (isJXASafeString allowedControl (untag_uuid input)));
    [reflexivity|].
  rewrite tags_first.
  destruct (firstUnsafeTag allowedControl (untag_tags input)) as [tag|];
    [reflexivity|].
  checks_then_script.
  unfold removeTagsSource. now rewrite !eval_quotedOrNull.
Qed.

Lemma addTags_runs (input : AddTagsInput) (st : state) :
  run (addTags allowedControl input) st
  = match firstFailing allowedControl (addTagsChecks input) with
    | Some (message, _) => Some (failure message, st)
    | None =>
        Some (addTagsScript (seen (Some (tag_uuid input))) (tag_tags input) st)
    end.
Proof.
  unfold addTags, addTagsChecks. rewrite firstFailing_cons. cbn [snd].
  destruct (negb (isJXASafeString allowedControl (tag_uuid input)));
    [reflexivity|].
  pose proof (tags_first allowedControl (tag_tags input) []) as H.
  rewrite app_nil_r in H. rewrite H.
  destruct (firstUnsafeTag allowedControl (tag_tags input)) as [tag|];
    [reflexivity|].
  cbn [run firstFailing find].
  unfold addTagsSource. now rewrite !eval_quotedOrNull.
Qed.

End Delivery.

(** X1.  rename_record, get_record_by_identifier, remove_tags, add_tags,
    delete_record and move_record always answer.  When one of the checks of
    the tool fails, the answer is the error of the first check that fails
    and the application is not touched; when all pass, the answer is that of
    the script, and every text the script works with is the text the caller
    gave, character for character (an empty text reaches it as [null]):
    what [escapeStringForJXA] writes between the quotes is read back by the
    script as the original text. *)
Theorem validated_tools_refuse_or_run_on_the_callers_text
  (allowedControl : ascii -> bool) (st : state) :
  (forall input : RenameRecordInput,
      run (renameRecord allowedControl input) st
      = match firstFailing allowedControl (renameRecordChecks input) with
        | Some (message, _) => Some (failure message, st)
        | None =>
            Some (renameRecordScript (seen (Some (rename_uuid input)))
                                     (seen (rename_databaseName input))
                                     (seen (Some (rename_newName input))) st)
        end)
  /\ (forall input : GetRecordByIdentifierInput,
         run (getRecordByIdentifier allowedControl input) st
         = match firstFailing allowedControl
                              (getRecordByIdentifierChecks input) with
           | Some (message, _) => Some (failure message, st)
           | None =>
               Some (getRecordByIdentifierScript
                       (seen (byid_uuid input)) (byid_id input)
                       (seen (byid_databaseName input)) st)
           end)
  /\ (forall input : RemoveTagsInput,
         run (removeTags allowedControl input) st
         = match firstFailing allowedControl (removeTagsChecks input) with
           | Some (message, _) => Some (failure message, st)
           | None =>
               Some (removeTagsScript (seen (Some (untag_uuid input)))
                                      (seen (untag_databaseName input))
                                      (untag_tags input) st)
           end)
  /\ (forall input : AddTagsInput,
         run (addTags allowedControl input) st
         = match firstFailing allowedControl (addTagsChecks input) with
           | Some (message, _) => Some (failure message, st)
           | None =>
               Some (addTagsScript (seen (Some (tag_uuid input)))
                                   (tag_tags input) st)
           end)
  /\ (forall input : DeleteRecordInput,
         run (deleteRecord allowedControl input) st
         = match firstFailing allowedControl (deleteRecordChecks input) with
           | Some (message, _) => Some (failure message, st)
           | None =>
               Some (deleteRecordScript (seen (delete_databaseName input))
                                        (seen (delete_uuid input))
                                        (delete_recordId input)
                                        (seen (delete_recordPath input)) st)
           end)
  /\ (forall input : MoveRecordInput,
         run (moveRecord allowedControl input) st
         = match firstFailing allowedControl (moveRecordChecks input) with
           | Some (message, _) => Some (failure message, st)
           | None =>
               Some (moveRecordScript (seen (move_databaseName input))
                                      (seen (move_uuid input))
                                      (move_recordId input)
                                      (seen (move_recordPath input))
                                      (seen (move_recordName input))
                                      (seen (move_destinationGroupUuid input))
                                      st)
           end).
Proof.
  repeat split; intros input.
  - apply renameRecord_runs.
  - apply getRecordByIdentifier_runs.
  - apply removeTags_runs.
  - apply addTags_runs.
  - apply deleteRecord_runs.
  - apply moveRecord_runs.
Qed.

End DeliveryFacts.

(** ** The shape of the results *)

Module ShapeFacts.
Import JS Sanitizer App Helpers Tools Tagging Results TextFacts DeliveryFacts.

Lemma wellFormed_success : WellFormed success.
Proof. left. split; reflexivity. Qed.

Lemma wellFormed_failure (error : string) :
  error <> EmptyString -> WellFormed (failure error).
Proof. intros H. right. exists error. repeat split; auto. Qed.

Lemma wellFormed_foundRecord (r : record) (d : database) :
  WellFormed (foundRecord r d).
Proof. left. split; reflexivity. Qed.

Lemma wellFormed_searchPayload (results : list json) (totalCount : Z) :
  WellFormed (searchPayload results totalCount).
Proof. left. split; reflexivity. Qed.

Lemma orElse_nonempty (x : option string) (d : string) :
  d <> EmptyString -> orElse x d <> EmptyString.
Proof. intros H. destruct x as [[|c s]|]; cbn; [exact H|discriminate|exact H]. Qed.

Lemma firstFailing_In (allowedControl : ascii -> bool)
  (checks : list (string * string)) (message value : string) :
  firstFailing allowedControl checks = Some (message, value) ->
  In (message, value) checks.
Proof. intros H. apply find_some in H. tauto. Qed.

Ltac nonempty :=
  unfold uuidNotFound, uuidNotFoundIn, errorToString, typeErrorText,
    idNotFoundIn, pathNotFound, destinationNotFound, destinationNotGroup;
  cbn [append]; discriminate.

Ltac fixed_checks H :=
  cbn [In] in H;
  repeat match type of H with
         | _ \/ _ => destruct H as [H|H]
         end;
  try contradiction; inversion H; discriminate.

Lemma tagChecks_nonempty (tags : list string) (message value : string) :
  In (message, value)
     (map (fun tag =>
             ("Tag " ++ DQ ++ tag ++ DQ ++ " contains invalid characters", tag))
          tags) ->
  message <> EmptyString.
Proof.
  intros H. apply in_map_iff in H. destruct H as (tag & E & _).
  inversion E. discriminate.
Qed.

Lemma renameRecordScript_wellFormed (u d n : option string) (st : state) :
  WellFormed (fst (renameRecordScript u d n st)).
Proof.
  unfold renameRecordScript.
  destruct (lr_record (getRecord st (byUuid u))) as [record|].
  - destruct (inOtherDatabase d record);
      [apply wellFormed_failure; nonempty|].
    unfold setName. destruct (nameVerdict st record n) as [name|message];
      [apply wellFormed_success|apply wellFormed_failure; nonempty].
  - apply wellFormed_failure. nonempty.
Qed.

Lemma getRecordByIdentifierScript_wellFormed (u : option string)
  (id : option Z) (d : option string) (st : state) :
  WellFormed (fst (getRecordByIdentifierScript u id d st)).
Proof.
  unfold getRecordByIdentifierScript.
  destruct (truthy u).
  - destruct (lr_record _);
      [apply wellFormed_foundRecord|apply wellFormed_failure; nonempty].
  - destruct (truthyNumber id && truthy d).
    + destruct (getDatabase st d) as [message|targetDatabase];
        [apply wellFormed_failure; nonempty|].
      destruct (lr_record _);
        [apply wellFormed_foundRecord|apply wellFormed_failure; nonempty].
    + apply wellFormed_failure. nonempty.
Qed.

Lemma removeTagsScript_wellFormed (u d : option string) (tags : list string)
  (st : state) :
  WellFormed (fst (removeTagsScript u d tags st)).
Proof.
  unfold removeTagsScript.
  destruct (lr_record _) as [record|];
    [|apply wellFormed_failure; nonempty].
  destruct (inOtherDatabase d record);
    [apply wellFormed_failure; nonempty|apply wellFormed_success].
Qed.

Lemma addTagsScript_wellFormed (u : option string) (tags : list string)
  (st : state) :
  WellFormed (fst (addTagsScript u tags st)).
Proof.
  unfold addTagsScript.
  destruct (lr_record _) as [record|];
    [apply wellFormed_success|apply wellFormed_failure; nonempty].
Qed.

Lemma searchScript_wellFormed (isGroup : record -> bool)
  (isVersion41OrLater : state -> bool) (query : string)
  (pGroupUuid : option string) (pGroupId : option Z)
  (pGroupPath pDatabaseName : option string) (pUseCurrentGroup : bool)
  (pRecordType pComparison : option string) (pExcludeSubgroups : option bool)
  (pLimit : Z) (st : state) :
  WellFormed (fst (searchScript isGroup isVersion41OrLater query pGroupUuid
                                pGroupId pGroupPath pDatabaseName
                                pUseCurrentGroup pRecordType pComparison
                                pExcludeSubgroups pLimit st)).
Proof.
  unfold searchScript.
  destruct (getDatabase st pDatabaseName) as [message|targetDatabase];
    [apply wellFormed_failure; nonempty|].
  assert (Hscope : forall result : json,
            searchScope isGroup isVersion41OrLater pGroupUuid pGroupId
                        pGroupPath pUseCurrentGroup targetDatabase st
            = inl result -> WellFormed result).
  { intros result. unfold searchScope.
    destruct pUseCurrentGroup.
    - destruct (currentGroup st) as [group|];
        [destruct (isGroup group)|]; intros E; inversion E;
        apply wellFormed_failure; discriminate.
    - destruct (truthy pGroupUuid || truthyNumber pGroupId || truthy pGroupPath).
      + destruct (lr_record _) as [group|].
        * destruct (isGroup group); intros E; inversion E.
          apply wellFormed_failure; discriminate.
        * intros E; inversion E. apply wellFormed_failure.
          unfold groupNotFound.
          destruct (truthy pGroupUuid); [discriminate|].
          destruct (truthyNumber pGroupId); [discriminate|].
          destruct (truthy pGroupPath); [discriminate|].
          apply orElse_nonempty. discriminate.
      + destruct (isVersion41OrLater st); intros E; inversion E. }
  destruct (searchScope _ _ _ _ _ _ _ _) as [result|scope] eqn:E.
  - apply (Hscope result eq_refl).
  - destruct (App.search st query _) as [searchResults|text].
    + unfold searchReport.
      destruct searchResults as [[|r hits]|]; apply wellFormed_searchPayload.
    + apply wellFormed_failure. discriminate.
Qed.

(** X2.  rename_record, get_record_by_identifier, remove_tags and add_tags
    always answer, and the script of search always returns, a result of the
    documented shape: [success: true] and no [error], or [success: false]
    and a text under [error] that is not empty. *)
Theorem results_have_the_documented_shape
  (allowedControl : ascii -> bool) (st : state) :
  (forall input : RenameRecordInput,
      exists (result : json) (st' : state),
        run (renameRecord allowedControl input) st = Some (result, st')
        /\ WellFormed result)
  /\ (forall input : GetRecordByIdentifierInput,
         exists (result : json) (st' : state),
           run (getRecordByIdentifier allowedControl input) st
           = Some (result, st')
           /\ WellFormed result)
  /\ (forall input : RemoveTagsInput,
         exists (result : json) (st' : state),
           run (removeTags allowedControl input) st = Some (result, st')
           /\ WellFormed result)
  /\ (forall input : AddTagsInput,
         exists (result : json) (st' : state),
           run (addTags allowedControl input) st = Some (result, st')
           /\ WellFormed result)
  /\ (forall (isGroup : record -> bool) (isVersion41OrLater : state -> bool)
             (query : string) (pGroupUuid : option string)
             (pGroupId : option Z) (pGroupPath pDatabaseName : option string)
             (pUseCurrentGroup : bool) (pRecordType pComparison : option string)
             (pExcludeSubgroups : option bool) (pLimit : Z),
         WellFormed
           (fst (searchScript isGroup isVersion41OrLater query pGroupUuid
                              pGroupId pGroupPath pDatabaseName
                              pUseCurrentGroup pRecordType pComparison
                              pExcludeSubgroups pLimit st))).
Proof.
  assert (Hscript : forall p : json * state,
            WellFormed (fst p) ->
            exists (result : json) (st' : state),
              Some p = Some (result, st') /\ WellFormed result).
  { intros [result st'] H. exists result, st'. split; [reflexivity|exact H]. }
  assert (Hrefused : forall message : string,
            message <> EmptyString ->
            exists (result : json) (st' : state),
              Some (failure message, st) = Some (result, st')
              /\ WellFormed result).
  { intros message H. exists (failure message), st.
    split; [reflexivity|now apply wellFormed_failure]. }
  repeat split; intros input.
  - rewrite renameRecord_runs.
    destruct (firstFailing _ _) as [[message value]|] eqn:E.
    + apply Hrefused. apply firstFailing_In in E.
      unfold renameRecordChecks in E. fixed_checks E.
    + apply Hscript, renameRecordScript_wellFormed.
  - rewrite getRecordByIdentifier_runs.
    destruct (firstFailing _ _) as [[message value]|] eqn:E.
    + apply Hrefused. apply firstFailing_In in E.
      unfold getRecordByIdentifierChecks in E. fixed_checks E.
    + apply Hscript, getRecordByIdentifierScript_wellFormed.
  - rewrite removeTags_runs.
    destruct (firstFailing _ _) as [[message value]|] eqn:E.
    + apply Hrefused. apply firstFailing_In in E.
      unfold removeTagsChecks in E. destruct E as [E|E];
        [inversion E; discriminate|].
      apply in_app_or in E. destruct E as [E|E];
        [exact (tagChecks_nonempty _ _ _ E)|fixed_checks E].
    + apply Hscript, removeTagsScript_wellFormed.
  - rewrite addTags_runs.
    destruct (firstFailing _ _) as [[message value]|] eqn:E.
    + apply Hrefused. apply firstFailing_In in E.
      unfold addTagsChecks in E. destruct E as [E|E];
        [inversion E; discriminate|exact (tagChecks_nonempty _ _ _ E)].
    + apply Hscript, addTagsScript_wellFormed.
  - intros. apply searchScript_wellFormed.
Qed.

Lemma moveRecordScript_wellFormed (d u : option string) (id : option Z)
  (p n g : option string) (st : state) :
  (forall (r dest : record) (text : string),
      moveVerdict st r dest = Threw text -> text <> EmptyString) ->
  WellFormed (fst (moveRecordScript d u id p n g st)).
Proof.
  intros Happ. unfold moveRecordScript.
  destruct (getDatabase st d) as [message|targetDatabase];
    [apply wellFormed_failure; nonempty|].
  cbv zeta.
  destruct (lr_record _) as [targetRecord|].
  2:{ apply wellFormed_failure.
      destruct (truthyNumber id); [nonempty|].
      apply orElse_nonempty. discriminate. }
  destruct (if truthy g then getRecordWithUuid st (orElse g EmptyString)
            else None) as [destination|];
    [|apply wellFormed_failure; nonempty].
  destruct (negb (String.eqb (r_recordType destination) "group")
            && negb (String.eqb (r_recordType destination) "smart group"));
    [apply wellFormed_failure; nonempty|].
  unfold move.
  destruct (moveVerdict st targetRecord destination)
    as [[location|]|text] eqn:E; cbn [fst].
  - left. split; reflexivity.
  - apply wellFormed_failure. discriminate.
  - apply wellFormed_failure. exact (Happ _ _ _ E).
Qed.

(** X3.  When the errors the application raises on a move have a text that
    is not empty, move_record always answers a result of the documented
    shape: [success: true] and no [error], or [success: false] and a text
    under [error] that is not empty. *)
Theorem moveRecord_result_has_the_documented_shape
  (allowedControl : ascii -> bool) (input : MoveRecordInput) (st : state) :
  (forall (r dest : record) (text : string),
      moveVerdict st r dest = Threw text -> text <> EmptyString) ->
  exists (result : json) (st' : state),
    run (moveRecord allowedControl input) st = Some (result, st')
    /\ WellFormed result.
Proof.
  intros Happ. rewrite moveRecord_runs.
  destruct (firstFailing _ _) as [[message value]|] eqn:E.
  - exists (failure message), st. split; [reflexivity|].
    apply wellFormed_failure. apply firstFailing_In in E.
    unfold moveRecordChecks in E. fixed_checks E.
  - destruct (moveRecordScript _ _ _ _ _ _ st) as [result st'] eqn:R.
    exists result, st'. split; [reflexivity|].
    change result with (fst (result, st')). rewrite <- R.
    now apply moveRecordScript_wellFormed.
Qed.

(** The theorem at work: the application refuses to move the note, and the
    result carries what it said. *)
Lemma moveRecord_result_has_the_documented_shape_witness :
  exists (result : json) (st' : state),
    run (moveRecord tabAndNewlines MoreExamples.moveNote) MoreExamples.st3
    = Some (result, st')
    /\ WellFormed result.
Proof.
  apply (moveRecord_result_has_the_documented_shape
           tabAndNewlines MoreExamples.moveNote MoreExamples.st3).
  intros r dest text H. inversion H. discriminate.
Defined.

End ShapeFacts.

(** ** What the tools change, and what they leave alone *)

Module ChangeFacts.
Import JS Sanitizer App Helpers Tools Tagging TextFacts ResolutionFacts
  TagFacts MoveFacts DeliveryFacts.

Lemma find_update_same (f : record -> record) (rs : list record) (u : string) :
  (forall r, r_uuid (f r) = r_uuid r) ->
  find (fun r => String.eqb (r_uuid r) u) (updateRecord u f rs)
  = option_map f (find (fun r => String.eqb (r_uuid r) u) rs).
Proof.
  intros Hf. induction rs as [|r rs IH]; simpl; [reflexivity|].
  destruct (String.eqb (r_uuid r) u) eqn:E; simpl.
  - now rewrite Hf, E.
  - now rewrite E.
Qed.

Lemma find_update_other (f : record -> record) (rs : list record)
  (u v : string) :
  (forall r, r_uuid (f r) = r_uuid r) ->
  u <> v ->
  find (fun r => String.eqb (r_uuid r) v) (updateRecord u f rs)
  = find (fun r => String.eqb (r_uuid r) v) rs.
Proof.
  intros Hf Hne. induction rs as [|r rs IH]; simpl; [reflexivity|].
  destruct (String.eqb (r_uuid r) u) eqn:E; simpl.
  - rewrite Hf. apply String.eqb_eq in E. rewrite E.
    apply String.eqb_neq in Hne. now rewrite Hne.
  - now rewrite IH.
Qed.

Lemma find_filter_out (rs : list record) (u : string) :
  find (fun r => String.eqb (r_uuid r) u)
       (filter (fun r => negb (String.eqb (r_uuid r) u)) rs) = None.
Proof.
  induction rs as [|r rs IH]; simpl; [reflexivity|].
  destruct (String.eqb (r_uuid r) u) eqn:E; simpl; [exact IH|].
  now rewrite E.
Qed.

Lemma find_filter_other (rs : list record) (u v : string) :
  u <> v ->
  find (fun r => String.eqb (r_uuid r) v)
       (filter (fun r => negb (String.eqb (r_uuid r) u)) rs)
  = find (fun r => String.eqb (r_uuid r) v) rs.
Proof.
  intros Hne. induction rs as [|r rs IH]; simpl; [reflexivity|].
  destruct (String.eqb (r_uuid r) u) eqn:E; simpl.
  - apply String.eqb_eq in E. rewrite E.
    apply String.eqb_neq in Hne. now rewrite Hne.
  - now rewrite IH.
Qed.

Lemma getRecord_missing (st : state) (c : ascii) (u : string) (id : option Z)
  (path name : option string) (db : option database) :
  getRecordWithUuid st (String c u) = None ->
  lr_record (getRecord st (mkLookupOptions (Some (String c u)) id path name db))
  = None.
Proof. intros E. unfold getRecord; cbn [lo_uuid]. now rewrite E. Qed.

Lemma getRecord_held (st : state) (o : lookupOptions) (r : record) :
  lr_record (getRecord st o) = Some r -> In r (records st).
Proof.
  unfold getRecord, getRecordWithUuid, getRecordWithId, getRecordAt.
  destruct (lo_uuid o) as [[|c s]|];
    repeat match goal with
           | |- context [match ?x with _ => _ end] =>
               let E := fresh "E" in destruct x eqn:E
           end;
    cbn; intros H; inversion H; subst;
    match goal with
    | E : find _ _ = Some _ |- _ => apply find_some in E; tauto
    end.
Qed.

Lemma getDatabase_withRecords (st : state) (rs : list record) (c : command)
  (d : option string) :
  getDatabase (withRecords st rs c) d = getDatabase st d.
Proof. reflexivity. Qed.

(** X4.  After rename_record has reported success, the application has
    taken the assignment, and the record is found under the same UUID with
    the name the application then gave it, which is the new name for an
    application that gives a record the name it is told, and with
    everything else as before: get_record_by_identifier reports it so,
    whatever ID it is given besides.  When the new name is empty, what the
    script assigns is [null], and the name is the one the application made
    of that.  The records under other UUIDs are as before.  (Records are
    found through [getRecord], which is modelled from the spec.) *)
Theorem rename_then_get
  (allowedControl : ascii -> bool) (uuid newName : string)
  (databaseName : option string) (id : option Z)
  (st st1 : state) (result : json) :
  run (renameRecord allowedControl
         (mkRenameRecordInput uuid newName databaseName)) st
  = Some (result, st1) ->
  isSuccess result = true ->
  exists (record : record) (name : string),
    getRecordWithUuid st uuid = Some record
    /\ nameVerdict st record (seen (Some newName)) = Named name
    /\ run (getRecordByIdentifier allowedControl
              (mkGetRecordByIdentifierInput (Some uuid) id None)) st1
       = Some (foundRecord (withName name record) (r_database record), st1)
    /\ (forall v : string,
           v <> uuid -> getRecordWithUuid st1 v = getRecordWithUuid st v).
Proof.
  intros Hrun Hok.
  assert (Hfail : forall e s, Some (failure e, s) = Some (result, st1) -> False).
  { intros e s H. inversion H; subst. discriminate Hok. }
  unfold renameRecord in Hrun.
  cbn [rename_uuid rename_newName rename_databaseName] in Hrun.
  destruct (negb (isJXASafeString allowedControl uuid)) eqn:V1;
    [destruct (Hfail _ _ Hrun)|].
  destruct (negb (isJXASafeString allowedControl newName)) eqn:V2;
    [destruct (Hfail _ _ Hrun)|].
  destruct (rejected allowedControl databaseName) eqn:V3;
    [destruct (Hfail _ _ Hrun)|].
  cbn [run] in Hrun. unfold renameRecordSource in Hrun.
  rewrite !eval_quotedOrNull in Hrun.
  destruct uuid as [|c u]; [destruct (Hfail _ _ Hrun)|].
  cbn [seen] in Hrun. unfold renameRecordScript in Hrun.
  rewrite getRecord_byUuid in Hrun.
  destruct (getRecordWithUuid st (String c u)) as [record|] eqn:E;
    [|destruct (Hfail _ _ Hrun)].
  destruct (inOtherDatabase (seen databaseName) record) eqn:Hd;
    [destruct (Hfail _ _ Hrun)|].
  unfold setName in Hrun.
  destruct (nameVerdict st record
              match newName with
              | EmptyString => None
              | String c' n => Some (String c' n)
              end) as [name|message] eqn:Hname;
    [|destruct (Hfail _ _ Hrun)].
  inversion Hrun; subst result st1; clear Hrun Hfail Hok.
  pose proof (find_uuid _ _ _ E) as Hu.
  exists record, name. split; [reflexivity|]. split; [exact Hname|].
  split.
  - unfold getRecordByIdentifier.
    cbn [byid_uuid byid_id byid_databaseName].
    rewrite rejected_safe, rejected_None
      by (now apply negb_false_iff in V1).
    cbn [run]. unfold getRecordByIdentifierSource.
    rewrite !eval_quotedOrNull. cbn [seen].
    unfold getRecordByIdentifierScript. cbn [truthy].
    rewrite getRecord_byUuid.
    unfold getRecordWithUuid, withRecords; cbn [records].
    rewrite Hu, find_update_same by reflexivity.
    unfold getRecordWithUuid in E. now rewrite E.
  - intros v Hv.
    unfold getRecordWithUuid, withRecords; cbn [records].
    rewrite Hu. apply find_update_other; [reflexivity|congruence].
Qed.

(** The theorem at work: the note is renamed. *)
Lemma rename_then_get_witness :
  exists (record : record) (name : string),
    getRecordWithUuid Example.st0 "AAAA-0001" = Some record
    /\ name = "Minutes"
    /\ run (getRecordByIdentifier tabAndNewlines
              (mkGetRecordByIdentifierInput (Some "AAAA-0001") None None))
           (snd (setName Example.st0 Example.note (Some "Minutes")))
       = Some (foundRecord (withName name record) (r_database record),
               snd (setName Example.st0 Example.note (Some "Minutes"))).
Proof.
  destruct (rename_then_get tabAndNewlines "AAAA-0001" "Minutes" None None
              Example.st0
              (snd (setName Example.st0 Example.note (Some "Minutes")))
              success eq_refl eq_refl)
    as (record & name & H1 & H2 & H3 & _).
  exists record, name. split; [exact H1|]. split; [|exact H3].
  assert (Hnote : Some Example.note = Some record) by exact H1.
  inversion Hnote; subst record. inversion H2. reflexivity.
Defined.

(** X5.  After delete_record, called with a UUID, has reported success, no
    record is left under that UUID: get_record_by_identifier reports the
    record as not found, and a second delete_record with the same input
    fails and changes nothing.  The records under other UUIDs are as
    before.  (Records are found through [getRecord], which is modelled from
    the spec.) *)
Theorem delete_then_get
  (allowedControl : ascii -> bool) (uuid : string) (recordId : option Z)
  (recordPath databaseName : option string)
  (st st1 : state) (result : json) :
  uuid <> EmptyString ->
  run (deleteRecord allowedControl
         (mkDeleteRecordInput (Some uuid) recordId recordPath databaseName)) st
  = Some (result, st1) ->
  isSuccess result = true ->
  getRecordWithUuid st1 uuid = None
  /\ run (getRecordByIdentifier allowedControl
            (mkGetRecordByIdentifierInput (Some uuid) None None)) st1
     = Some (failure (uuidNotFound (Some uuid)), st1)
  /\ (exists error : string,
         run (deleteRecord allowedControl
                (mkDeleteRecordInput (Some uuid) recordId recordPath
                                     databaseName)) st1
         = Some (failure error, st1))
  /\ (forall v : string,
         v <> uuid -> getRecordWithUuid st1 v = getRecordWithUuid st v).
Proof.
  intros Hne Hrun Hok.
  assert (Hfail : forall e, Some (failure e, st) = Some (result, st1) -> False).
  { intros e H. inversion H; subst. discriminate Hok. }
  destruct uuid as [|c u]; [congruence|]. clear Hne.
  unfold deleteRecord in *.
  cbn [delete_uuid delete_recordId delete_recordPath delete_databaseName] in *.
  destruct (rejected allowedControl (Some (String c u))) eqn:V1;
    [destruct (Hfail _ Hrun)|].
  destruct (rejected allowedControl recordPath) eqn:V2;
    [destruct (Hfail _ Hrun)|].
  destruct (rejected allowedControl databaseName) eqn:V3;
    [destruct (Hfail _ Hrun)|].
  cbn [run] in *. unfold deleteRecordSource in *.
  rewrite !eval_quotedOrNull in *. cbn [seen] in *.
  unfold deleteRecordScript in *.
  destruct (getDatabase st (seen databaseName)) as [message|targetDatabase]
    eqn:Hdb; [destruct (Hfail _ Hrun)|].
  cbv zeta in Hrun.
  destruct (getRecordWithUuid st (String c u)) as [record|] eqn:E.
  2:{ rewrite (getRecord_missing _ _ _ _ _ _ _ E) in Hrun.
      destruct (Hfail _ Hrun). }
  rewrite (getRecord_uuid _ _ _ _ _ _ _ _ E) in Hrun.
  pose proof (find_uuid _ _ _ E) as Hu.
  unfold delete in Hrun.
  destruct (deleteVerdict st record) as [[|]|text];
    inversion Hrun; subst result st1; try discriminate Hok.
  clear Hrun Hfail Hok.
  assert (E1 : getRecordWithUuid
                 (withRecords st
                    (filter (fun r' => negb (String.eqb (r_uuid r') (r_uuid record)))
                            (records st))
                    (CmdDelete (r_uuid record))) (String c u) = None).
  { unfold getRecordWithUuid, withRecords; cbn [records].
    rewrite Hu. apply find_filter_out. }
  split; [exact E1|]. split; [|split].
  - unfold getRecordByIdentifier.
    cbn [byid_uuid byid_id byid_databaseName].
    rewrite V1, rejected_None.
    cbn [run]. unfold getRecordByIdentifierSource.
    rewrite !eval_quotedOrNull. cbn [seen].
    unfold getRecordByIdentifierScript. cbn [truthy].
    rewrite getRecord_byUuid, E1. reflexivity.
  - rewrite getDatabase_withRecords, Hdb. cbv zeta.
    rewrite (getRecord_missing _ _ _ _ _ _ _ E1).
    eexists. reflexivity.
  - intros v Hv.
    unfold getRecordWithUuid, withRecords; cbn [records].
    rewrite Hu. apply find_filter_other. congruence.
Qed.

(** The theorem at work: the application deletes the note. *)
Lemma delete_then_get_witness :
  getRecordWithUuid
    (snd (deleteRecordScript None (Some "AAAA-0001") None None
                             MoreExamples.st2)) "AAAA-0001" = None
  /\ getRecordWithUuid
       (snd (deleteRecordScript None (Some "AAAA-0001") None None
                                MoreExamples.st2)) "BBBB-0002"
     = Some Example.report.
Proof.
  assert (Hne : "AAAA-0001" <> EmptyString) by discriminate.
  destruct (delete_then_get tabAndNewlines "AAAA-0001" None None None
              MoreExamples.st2
              (snd (deleteRecordScript None (Some "AAAA-0001") None None
                                       MoreExamples.st2))
              (JObj [("success", JBool true)]) Hne eq_refl eq_refl)
    as (H1 & _ & _ & H4).
  split; [exact H1|].
  rewrite H4 by discriminate. reflexivity.
Defined.

Lemma has_In (tags : list string) (tag : string) :
  In tag tags -> has tags tag = true.
Proof.
  intros H. unfold has. apply existsb_exists. exists tag.
  split; [exact H|apply String.eqb_refl].
Qed.

Lemma newTags_within (l tags : list string) :
  (forall tag, In tag l -> In tag tags) -> newTags l tags = [].
Proof.
  unfold newTags. induction l as [|t l IH]; intros H; simpl; [reflexivity|].
  rewrite (has_In tags t) by (apply H; now left). simpl.
  apply IH. intros tag Htag. apply H. now right.
Qed.

Lemma newTags_app (a b tags : list string) :
  newTags (a ++ b) tags = (newTags a tags ++ newTags b tags)%list.
Proof. apply filter_app. Qed.

Lemma newTags_disjoint (l tags : list string) :
  Forall (fun tag => ~ In tag (newTags l tags)) tags.
Proof.
  apply Forall_forall. intros tag Htag Hin.
  unfold newTags in Hin. apply filter_In in Hin. destruct Hin as [_ H].
  now rewrite (has_In tags tag Htag) in H.
Qed.

Lemma tagsOf_setTags (st : state) (record : record) (tags : list string)
  (u : string) :
  getRecordWithUuid st u = Some record ->
  getRecordWithUuid (setTags st record tags) u = Some (withTags tags record).
Proof.
  intros E. pose proof (find_uuid _ _ _ E) as Hu.
  unfold getRecordWithUuid, setTags, withRecords; cbn [records].
  rewrite Hu, find_update_same by reflexivity.
  unfold getRecordWithUuid in E. now rewrite E.
Qed.

Lemma others_after_setTags (st : state) (record : record)
  (tags : list string) (u v : string) :
  getRecordWithUuid st u = Some record ->
  v <> u ->
  getRecordWithUuid (setTags st record tags) v = getRecordWithUuid st v.
Proof.
  intros E Hv. pose proof (find_uuid _ _ _ E) as Hu.
  unfold getRecordWithUuid, setTags, withRecords; cbn [records].
  rewrite Hu. apply find_update_other; [reflexivity|congruence].
Qed.

(** X6.  add_tags always answers.  When it reports success, the record has
    its former tags followed by the tags given, in the order given and with
    every repetition kept, and the records under other UUIDs are as before;
    when it reports failure, nothing has changed.  (Records are found
    through [getRecord], which is modelled from the spec.) *)
Theorem addTags_appends
  (allowedControl : ascii -> bool) (input : AddTagsInput) (st : state) :
  exists (result : json) (st1 : state),
    run (addTags allowedControl input) st = Some (result, st1)
    /\ (if isSuccess result
        then tagsOf st1 (tag_uuid input)
             = (tagsOf st (tag_uuid input) ++ tag_tags input)%list
             /\ (forall v : string,
                    v <> tag_uuid input ->
                    getRecordWithUuid st1 v = getRecordWithUuid st v)
        else st1 = st).
Proof.
  rewrite addTags_runs.
  destruct (firstFailing _ _) as [[message value]|].
  { exists (failure message), st. split; reflexivity. }
  destruct (tag_uuid input) as [|c u].
  { eexists _, st. split; reflexivity. }
  cbn [seen]. unfold addTagsScript. rewrite getRecord_byUuid.
  destruct (getRecordWithUuid st (String c u)) as [record|] eqn:E.
  - eexists _, _. split; [reflexivity|].
    replace (isSuccess success) with true by reflexivity. split.
    + unfold tagsOf. rewrite (tagsOf_setTags _ _ _ _ E), E. reflexivity.
    + intros v Hv. now apply (others_after_setTags _ _ _ _ _ E).
  - eexists _, st. split; reflexivity.
Qed.

(** X7.  After add_tags has reported success, remove_tags with the same
    UUID and the same tags succeeds, and it leaves the record with the tags
    it had before add_tags, less those of the list: none of the tags of the
    list is left.  (Records are found through [getRecord], which is modelled
    from the spec.) *)
Theorem addTags_then_removeTags
  (allowedControl : ascii -> bool) (uuid : string) (tags : list string)
  (st st1 : state) (result : json) :
  run (addTags allowedControl (mkAddTagsInput uuid tags)) st
  = Some (result, st1) ->
  isSuccess result = true ->
  exists st2 : state,
    run (removeTags allowedControl (mkRemoveTagsInput uuid tags None)) st1
    = Some (success, st2)
    /\ tagsOf st2 uuid = newTags (tagsOf st uuid) tags
    /\ Forall (fun tag => ~ In tag (tagsOf st2 uuid)) tags.
Proof.
  intros Hrun Hok.
  assert (Hfail : forall e, Some (failure e, st) = Some (result, st1) -> False).
  { intros e H. inversion H; subst. discriminate Hok. }
  unfold addTags in Hrun. cbn [tag_uuid tag_tags] in Hrun.
  destruct (negb (isJXASafeString allowedControl uuid)) eqn:V1;
    [destruct (Hfail _ Hrun)|].
  destruct (firstUnsafeTag allowedControl tags) as [tag|] eqn:V2;
    [destruct (Hfail _ Hrun)|].
  cbn [run] in Hrun. unfold addTagsSource in Hrun.
  rewrite eval_quotedOrNull in Hrun.
  destruct uuid as [|c u]; [destruct (Hfail _ Hrun)|].
  cbn [seen] in Hrun. unfold addTagsScript in Hrun.
  rewrite getRecord_byUuid in Hrun.
  destruct (getRecordWithUuid st (String c u)) as [record|] eqn:E;
    [|destruct (Hfail _ Hrun)].
  inversion Hrun; subst result st1; clear Hrun Hfail Hok.
  set (added := (r_tags record ++ tags)%list).
  pose proof (tagsOf_setTags _ _ added _ E) as E1.
  assert (Hleft : newTags added tags = newTags (r_tags record) tags).
  { unfold added. rewrite newTags_app, (newTags_within tags tags) by auto.
    apply app_nil_r. }
  assert (Htags : tagsOf (setTags (setTags st record added)
                                  (withTags added record)
                                  (newTags added tags)) (String c u)
                  = newTags (tagsOf st (String c u)) tags).
  { unfold tagsOf. rewrite (tagsOf_setTags _ _ _ _ E1), E.
    cbn [r_tags withTags]. exact Hleft. }
  unfold removeTags. cbn [untag_uuid untag_tags untag_databaseName].
  rewrite V1, V2, rejected_None. cbn [run]. unfold removeTagsSource.
  rewrite !eval_quotedOrNull. cbn [seen].
  rewrite (removeTagsScript_found _ _ _ _ _ _ E1) by reflexivity.
  eexists. split; [reflexivity|]. cbn [r_tags withTags].
  split; [exact Htags|].
  rewrite Htags. apply newTags_disjoint.
Qed.

(** The theorem at work: two tags are added to the note and removed
    again. *)
Lemma addTags_then_removeTags_witness :
  exists st2 : state,
    run (removeTags tabAndNewlines
           (mkRemoveTagsInput "AAAA-0001" ["urgent"; "work"] None))
        (setTags Example.st0 Example.note
                 ["work"; "draft"; "work"; "urgent"; "work"])
    = Some (success, st2)
    /\ tagsOf st2 "AAAA-0001" = ["draft"].
Proof.
  destruct (addTags_then_removeTags tabAndNewlines "AAAA-0001"
              ["urgent"; "work"] Example.st0
              (setTags Example.st0 Example.note
                       ["work"; "draft"; "work"; "urgent"; "work"])
              success eq_refl eq_refl)
    as (st2 & H1 & H2 & _).
  exists st2. split; [exact H1|]. rewrite H2. reflexivity.
Defined.

Lemma getRecordWithUuid_held (st : state) (u : string) (r : record) :
  getRecordWithUuid st u = Some r -> In r (records st).
Proof. intros H. apply find_some in H. tauto. Qed.

Lemma renameRecordScript_command (u d n : option string) (st : state) :
  (snd (renameRecordScript u d n st) = st
   /\ isSuccess (fst (renameRecordScript u d n st)) = false)
  \/ exists r : record,
       In r (records st) /\ u = Some (r_uuid r)
       /\ journal (snd (renameRecordScript u d n st))
          = (journal st ++ [CmdSetName (r_uuid r) n])%list.
Proof.
  unfold renameRecordScript.
  destruct u as [[|c u]|]; try (left; split; reflexivity).
  rewrite getRecord_byUuid.
  destruct (getRecordWithUuid st (String c u)) as [record|] eqn:E;
    [|left; split; reflexivity].
  destruct (inOtherDatabase d record); [left; split; reflexivity|].
  right. exists record. split; [exact (getRecordWithUuid_held _ _ _ E)|].
  split; [now rewrite (find_uuid _ _ _ E)|].
  unfold setName. destruct (nameVerdict st record n); reflexivity.
Qed.

Lemma deleteRecordScript_command (d u : option string) (id : option Z)
  (p : option string) (st : state) :
  snd (deleteRecordScript d u id p st) = st
  \/ exists r : record,
       In r (records st)
       /\ journal (snd (deleteRecordScript d u id p st))
          = (journal st ++ [CmdDelete (r_uuid r)])%list.
Proof.
  unfold deleteRecordScript.
  destruct (getDatabase st d) as [message|targetDatabase]; [now left|].
  cbv zeta.
  destruct (lr_record _) as [targetRecord|] eqn:E; [|now left].
  right. exists targetRecord. split; [exact (getRecord_held _ _ _ E)|].
  unfold delete. destruct (deleteVerdict st targetRecord) as [[|]|text];
    reflexivity.
Qed.

Lemma moveRecordScript_command (d u : option string) (id : option Z)
  (p n g : option string) (st : state) :
  snd (moveRecordScript d u id p n g st) = st
  \/ exists r dest : record,
       In r (records st) /\ In dest (records st)
       /\ g = Some (r_uuid dest)
       /\ (r_recordType dest = "group" \/ r_recordType dest = "smart group")
       /\ journal (snd (moveRecordScript d u id p n g st))
          = (journal st ++ [CmdMove (r_uuid r) (r_uuid dest)])%list.
Proof.
  unfold moveRecordScript.
  destruct (getDatabase st d) as [message|targetDatabase]; [now left|].
  cbv zeta.
  destruct (lr_record _) as [targetRecord|] eqn:E; [|now left].
  destruct g as [[|c g]|]; try (now left). cbn [truthy orElse].
  destruct (getRecordWithUuid st (String c g)) as [destination|] eqn:Eg;
    [|now left].
  destruct (String.eqb (r_recordType destination) "group") eqn:T1;
    [|destruct (String.eqb (r_recordType destination) "smart group") eqn:T2;
      [|now left]].
  all: right; exists targetRecord, destination.
  all: split; [exact (getRecord_held _ _ _ E)|].
  all: split; [exact (getRecordWithUuid_held _ _ _ Eg)|].
  all: split; [now rewrite (find_uuid _ _ _ Eg)|].
  all: split; [(left; now apply String.eqb_eq)
               || (right; now apply String.eqb_eq)|].
  all: cbn [negb andb]; unfold move;
    destruct (moveVerdict st targetRecord destination) as [[location|]|text];
    reflexivity.
Qed.

(** X8.  What the tools that change records send to the application.
    rename_record, delete_record and move_record send nothing, and leave
    the application as it was, or they send one command and no more, for a
    record the application held.  rename_record reports success only when
    it has sent its command: the assignment of the new name, or of [null]
    when the new name is empty, to a record held under the UUID given; a
    failure comes with nothing sent, or with the command sent and refused.
    move_record sends its command only with a destination the application
    held under the UUID given and whose type is [group] or [smart group].
    (Records are found through [getRecord], which is modelled from the
    spec.) *)
Theorem changing_tools_send_one_command_or_none
  (allowedControl : ascii -> bool) (st : state) :
  (forall input : RenameRecordInput,
      exists (result : json) (st' : state),
        run (renameRecord allowedControl input) st = Some (result, st')
        /\ ((st' = st /\ isSuccess result = false)
            \/ exists r : record,
                 In r (records st) /\ r_uuid r = rename_uuid input
                 /\ journal st'
                    = (journal st
                       ++ [CmdSetName (r_uuid r)
                             (seen (Some (rename_newName input)))])%list))
  /\ (forall input : DeleteRecordInput,
         exists (result : json) (st' : state),
           run (deleteRecord allowedControl input) st = Some (result, st')
           /\ (st' = st
               \/ exists r : record,
                    In r (records st)
                    /\ journal st'
                       = (journal st ++ [CmdDelete (r_uuid r)])%list))
  /\ (forall input : MoveRecordInput,
         exists (result : json) (st' : state),
           run (moveRecord allowedControl input) st = Some (result, st')
           /\ (st' = st
               \/ exists r dest : record,
                    In r (records st) /\ In dest (records st)
                    /\ move_destinationGroupUuid input = Some (r_uuid dest)
                    /\ (r_recordType dest = "group"
                        \/ r_recordType dest = "smart group")
                    /\ journal st'
                       = (journal st
                          ++ [CmdMove (r_uuid r) (r_uuid dest)])%list)).
Proof.
  repeat split; intros input.
  - rewrite renameRecord_runs.
    destruct (firstFailing _ _) as [[message value]|].
    { exists (failure message), st. split; [reflexivity|].
      left. split; reflexivity. }
    pose proof (renameRecordScript_command
                  (seen (Some (rename_uuid input)))
                  (seen (rename_databaseName input))
                  (seen (Some (rename_newName input))) st) as H.
    destruct (renameRecordScript _ _ _ st) as [result st'].
    exists result, st'. split; [reflexivity|]. cbn [fst snd] in H.
    destruct H as [H|(r & Hin & Hu & Hj)]; [left; exact H|].
    right. exists r. split; [exact Hin|]. split; [|exact Hj].
    destruct (rename_uuid input) as [|c u]; [discriminate Hu|].
    cbn [seen] in Hu. congruence.
  - rewrite deleteRecord_runs.
    destruct (firstFailing _ _) as [[message value]|].
    { exists (failure message), st. split; [reflexivity|now left]. }
    pose proof (deleteRecordScript_command
                  (seen (delete_databaseName input)) (seen (delete_uuid input))
                  (delete_recordId input) (seen (delete_recordPath input)) st)
      as H.
    destruct (deleteRecordScript _ _ _ _ st) as [result st'].
    exists result, st'. split; [reflexivity|exact H].
  - rewrite moveRecord_runs.
    destruct (firstFailing _ _) as [[message value]|].
    { exists (failure message), st. split; [reflexivity|now left]. }
    pose proof (moveRecordScript_command
                  (seen (move_databaseName input)) (seen (move_uuid input))
                  (move_recordId input) (seen (move_recordPath input))
                  (seen (move_recordName input))
                  (seen (move_destinationGroupUuid input)) st) as H.
    destruct (moveRecordScript _ _ _ _ _ _ st) as [result st'].
    exists result, st'. split; [reflexivity|].
    destruct H as [H|(r & dest & H1 & H2 & H3 & H4 & H5)]; [now left|].
    right. exists r, dest. repeat split; auto.
    destruct (move_destinationGroupUuid input) as [[|c g]|];
      [discriminate H3|exact H3|discriminate H3].
Qed.

(** X9.  When move_record, called with a UUID, reports success, the
    location it reports is the location the record has afterwards; the
    record is otherwise as it was, and the records under other UUIDs are as
    before.  (Records are found through [getRecord], which is modelled from
    the spec.) *)
Theorem moveRecord_reports_where_the_record_is
  (allowedControl : ascii -> bool) (input : MoveRecordInput) (uuid : string)
  (st st1 : state) (result : json) :
  move_uuid input = Some uuid ->
  uuid <> EmptyString ->
  run (moveRecord allowedControl input) st = Some (result, st1) ->
  isSuccess result = true ->
  exists (record : record) (location : string),
    getRecordWithUuid st uuid = Some record
    /\ result = JObj [("success", JBool true); ("newLocation", JStr location)]
    /\ getRecordWithUuid st1 uuid = Some (withLocation location record)
    /\ (forall v : string,
           v <> uuid -> getRecordWithUuid st1 v = getRecordWithUuid st v).
Proof.
  intros Hu Hne Hrun Hok.
  assert (Hfail : forall e s, (failure e, s) = (result, st1) -> False).
  { intros e s H. inversion H; subst. discriminate Hok. }
  rewrite moveRecord_runs in Hrun.
  destruct (firstFailing _ _) as [[message value]|];
    [inversion Hrun; subst; discriminate Hok|].
  injection Hrun as Hrun. rewrite Hu in Hrun.
  destruct uuid as [|c u]; [congruence|]. cbn [seen] in Hrun.
  unfold moveRecordScript in Hrun.
  destruct (getDatabase st _) as [message|targetDatabase];
    [destruct (Hfail _ _ Hrun)|].
  cbv zeta in Hrun.
  destruct (getRecordWithUuid st (String c u)) as [record|] eqn:E.
  2:{ rewrite (getRecord_missing _ _ _ _ _ _ _ E) in Hrun.
      destruct (Hfail _ _ Hrun). }
  rewrite (getRecord_uuid _ _ _ _ _ _ _ _ E) in Hrun.
  pose proof (find_uuid _ _ _ E) as Hr.
  destruct (if truthy (seen (move_destinationGroupUuid input))
            then getRecordWithUuid st
                   (orElse (seen (move_destinationGroupUuid input)) EmptyString)
            else None) as [destination|];
    [|destruct (Hfail _ _ Hrun)].
  destruct (negb (String.eqb (r_recordType destination) "group")
            && negb (String.eqb (r_recordType destination) "smart group"));
    [destruct (Hfail _ _ Hrun)|].
  unfold move in Hrun.
  destruct (moveVerdict st record destination) as [[location|]|text];
    try destruct (Hfail _ _ Hrun).
  inversion Hrun; subst result st1; clear Hrun Hfail Hok.
  exists record, location. split; [reflexivity|]. split; [reflexivity|].
  split.
  - unfold getRecordWithUuid, withRecords; cbn [records].
    rewrite Hr, find_update_same by reflexivity.
    unfold getRecordWithUuid in E. now rewrite E.
  - intros v Hv. unfold getRecordWithUuid, withRecords; cbn [records].
    rewrite Hr. apply find_update_other; [reflexivity|congruence].
Qed.

(** The theorem at work: the note goes to the group Projects. *)
Lemma moveRecord_reports_where_the_record_is_witness :
  exists (record : record) (location : string),
    getRecordWithUuid Example.st0 "AAAA-0001" = Some record
    /\ getRecordWithUuid
         (snd (moveRecordScript None (Some "AAAA-0001") None None None
                                (Some "CCCC-0003") Example.st0)) "AAAA-0001"
       = Some (withLocation location record)
    /\ location = "/Projects/".
Proof.
  assert (Hne : "AAAA-0001" <> EmptyString) by discriminate.
  destruct (moveRecord_reports_where_the_record_is tabAndNewlines
              MoreExamples.moveNote "AAAA-0001" Example.st0
              (snd (moveRecordScript None (Some "AAAA-0001") None None None
                                     (Some "CCCC-0003") Example.st0))
              (JObj [("success", JBool true);
                     ("newLocation", JStr "/Projects/")])
              eq_refl Hne eq_refl eq_refl)
    as (record & location & H1 & H2 & H3 & _).
  exists record, location. split; [exact H1|]. split; [exact H3|].
  inversion H2. reflexivity.
Defined.

End ChangeFacts.

(** ** What search and lookup_record report of what the application found *)

Module LimitFacts.
Import JS Sanitizer App Helpers Tools Lookup.

Lemma filterByType_sound (pRecordType : option string) (hits : list record)
  (record : record) :
  In record (filterByType pRecordType hits) ->
  In record hits
  /\ (truthy pRecordType = true ->
      r_recordType record = orElse pRecordType EmptyString).
Proof.
  unfold filterByType. destruct (truthy pRecordType).
  - intros H. apply filter_In in H. destruct H as [H1 H2].
    split; [exact H1|]. intros _. now apply String.eqb_eq.
  - intros H. split; [exact H|discriminate].
Qed.

Lemma filterByType_nil (pRecordType : option string) :
  filterByType pRecordType [] = [].
Proof. unfold filterByType. now destruct (truthy pRecordType). Qed.

(** What [slice(0, end)] keeps is a leading part of the list. *)
Lemma slice0_leading {A : Type} (l : list A) (end_ : Z) :
  exists rest : list A, l = (slice0 l end_ ++ rest)%list.
Proof.
  unfold slice0. eexists. symmetry. apply firstn_skipn.
Qed.

Lemma searchScope_fails (isGroup : record -> bool)
  (isVersion41OrLater : state -> bool) (pGroupUuid : option string)
  (pGroupId : option Z) (pGroupPath : option string) (pUseCurrentGroup : bool)
  (targetDatabase : database) (st : state) (result : json) :
  searchScope isGroup isVersion41OrLater pGroupUuid pGroupId pGroupPath
              pUseCurrentGroup targetDatabase st = inl result ->
  exists error : string, result = failure error.
Proof.
  unfold searchScope. destruct pUseCurrentGroup.
  - destruct (currentGroup st) as [group|]; [destruct (isGroup group)|];
      intros E; inversion E; eexists; reflexivity.
  - destruct (truthy pGroupUuid || truthyNumber pGroupId || truthy pGroupPath).
    + destruct (lr_record _) as [group|]; [destruct (isGroup group)|];
        intros E; inversion E; eexists; reflexivity.
    + destruct (isVersion41OrLater st); intros E; inversion E.
Qed.

(** X11.  Whenever the script of search reports results, for every limit
    that is a whole number, negative ones included: the application was
    asked once, and the records reported are a leading part, in their
    order, of the hits that pass the record-type filter; [totalCount] is
    the number of all the hits that pass the filter, so that no more
    records are reported than [totalCount] says; and every record reported
    is one of the hits the application returned, of the record type asked
    for when one is asked for. *)
Theorem search_reports_hits_of_the_type_asked_for
  (isGroup : record -> bool) (isVersion41OrLater : state -> bool)
  (query : string) (pGroupUuid : option string) (pGroupId : option Z)
  (pGroupPath pDatabaseName : option string) (pUseCurrentGroup : bool)
  (pRecordType pComparison : option string) (pExcludeSubgroups : option bool)
  (pLimit : Z) (st : state) (results : list json) (totalCount : Z) :
  fst (searchScript isGroup isVersion41OrLater query pGroupUuid pGroupId
                    pGroupPath pDatabaseName pUseCurrentGroup pRecordType
                    pComparison pExcludeSubgroups pLimit st)
  = searchPayload results totalCount ->
  exists (options : searchOptions) (searchResults : option (list record))
         (reported rest : list record),
    App.search st query options = Returned searchResults
    /\ filterByType pRecordType
         (match searchResults with Some hits => hits | None => [] end)
       = (reported ++ rest)%list
    /\ results = map searchResult reported
    /\ totalCount = Z.of_nat (length reported + length rest)
    /\ Forall (fun record =>
                 In record
                    (match searchResults with Some hits => hits | None => [] end)
                 /\ (truthy pRecordType = true ->
                     r_recordType record = orElse pRecordType EmptyString))
              reported.
Proof.
  unfold searchScript.
  destruct (getDatabase st pDatabaseName) as [message|targetDatabase];
    [discriminate|].
  destruct (searchScope _ _ _ _ _ _ _ _) as [result|scope] eqn:E.
  { destruct (searchScope_fails _ _ _ _ _ _ _ _ _ E) as (error & ->).
    discriminate. }
  destruct (App.search st query _) as [searchResults|text] eqn:S;
    [|discriminate].
  cbn [fst]. intros H.
  exists (mkSearchOptions (Some scope)
            (if truthy pComparison then pComparison else None)
            pExcludeSubgroups), searchResults.
  assert (Hnone : searchPayload [] 0 = searchPayload results totalCount ->
            exists reported rest : list record,
              filterByType pRecordType [] = (reported ++ rest)%list
              /\ results = map searchResult reported
              /\ totalCount = Z.of_nat (length reported + length rest)
              /\ Forall (fun record =>
                           In record []
                           /\ (truthy pRecordType = true ->
                               r_recordType record
                               = orElse pRecordType EmptyString))
                        reported).
  { intros H0. inversion H0. exists [], []. rewrite filterByType_nil.
    repeat split. constructor. }
  unfold searchReport in H. destruct searchResults as [[|r hits]|].
  - destruct (Hnone H) as (reported & rest & H1).
    exists reported, rest. split; [exact S|exact H1].
  - cbv zeta in H. inversion H; subst results totalCount.
    destruct (slice0_leading (filterByType pRecordType (r :: hits)) pLimit)
      as (rest & Hrest).
    exists (slice0 (filterByType pRecordType (r :: hits)) pLimit), rest.
    split; [exact S|]. split; [exact Hrest|]. split; [reflexivity|].
    split; [now rewrite <- length_app, <- Hrest|].
    apply Forall_forall. intros record Hin.
    apply filterByType_sound. rewrite Hrest. apply in_or_app. now left.
  - destruct (Hnone H) as (reported & rest & H1).
    exists reported, rest. split; [exact S|exact H1].
Qed.

(** The theorem at work: the PDF documents tagged [work] of the Inbox. *)
Lemma search_reports_hits_of_the_type_asked_for_witness :
  exists reported rest : list record,
    filterByType (Some "PDF") [Example.note; Example.report; Example.memo]
    = (reported ++ rest)%list
    /\ [searchResult Example.report] = map searchResult reported
    /\ Forall (fun record => r_recordType record = "PDF") reported.
Proof.
  destruct (search_reports_hits_of_the_type_asked_for
              Example.isGroup Example.isVersion41OrLater "tag:work"
              None None None (Some "Inbox") false (Some "PDF") None None 5
              Example.st0 [searchResult Example.report] 1 eq_refl)
    as (options & searchResults & reported & rest & H1 & H2 & H3 & _ & H5).
  inversion H1; subst searchResults.
  exists reported, rest. split; [exact H2|]. split; [exact H3|].
  eapply Forall_impl; [|exact H5]. intros record (_ & H). now apply H.
Defined.

(** X12.  Whenever lookup_record reports results, for every limit that is
    a whole number, negative ones included: the application was asked once,
    the records reported are a leading part, in their order, of the records
    it returned, and [totalCount] is the number of all the records it
    returned, reported or not. *)
Theorem lookupRecord_reports_what_the_application_returned
  (lookupVerdict :
     state -> lookupQuery -> option database -> call (option (list record)))
  (input : LookupRecordInput) (st st' : state) (results : list json)
  (totalCount : Z) :
  lookupRecord lookupVerdict input st
  = Some (searchPayload results totalCount, st') ->
  exists (query : lookupQuery) (searchDatabase : option database)
         (searchResults : option (list record)) (reported rest : list record),
    lookupVerdict st query searchDatabase = Returned searchResults
    /\ match searchResults with Some hits => hits | None => [] end
       = (reported ++ rest)%list
    /\ results = map lookupResult reported
    /\ totalCount = Z.of_nat (length reported + length rest).
Proof.
  unfold lookupRecord.
  repeat match goal with
         | |- context [match stringLiteralValue ?x with _ => _ end] =>
             destruct (stringLiteralValue x); [|discriminate]
         end.
  intros H. injection H as H.
  unfold lookupRecordScript in H.
  destruct (lookupRecordDatabase _ _ _ st) as [result|searchDatabase] eqn:D.
  { unfold lookupRecordDatabase in D.
    destruct (truthy _); [|discriminate D].
    destruct (findDatabase _ _); inversion D; subst result. discriminate H. }
  destruct (lookupQueryOf _ _ _ _) as [query|]; [|discriminate H].
  destruct (lookupVerdict st query searchDatabase)
    as [searchResults|text] eqn:V; [|discriminate H].
  exists query, searchDatabase, searchResults.
  destruct searchResults as [[|r hits]|]; inversion H; subst.
  - exists [], []. split; [exact V|]. repeat split.
  - destruct (slice0_leading (r :: hits)
                match lookup_limit input with
                | Some limit => limit
                | None => 50%Z
                end) as (rest & Hrest).
    eexists _, rest. split; [exact V|]. split; [exact Hrest|].
    split; [reflexivity|]. now rewrite <- length_app, <- Hrest.
  - exists [], []. split; [exact V|]. repeat split.
Qed.

(** The theorem at work: the application finds two records, and the caller
    asks for one. *)
Lemma lookupRecord_reports_what_the_application_returned_witness :
  exists reported rest : list record,
    [Example.note; Example.memo] = (reported ++ rest)%list
    /\ [lookupResult Example.note] = map lookupResult reported.
Proof.
  destruct (lookupRecord_reports_what_the_application_returned
              MoreExamples.lookupVerdict MoreExamples.lookupMemo
              Example.st0 Example.st0 [lookupResult Example.note] 2 eq_refl)
    as (query & searchDatabase & searchResults & reported & rest
        & H1 & H2 & H3 & _).
  inversion H1; subst searchResults.
  exists reported, rest. split; [exact H2|exact H3].
Defined.

End LimitFacts.

(** ** Texts written into a script as they are *)

Module RawFacts.
Import JS Sanitizer App Helpers Tools Lookup TextFacts DatabaseFacts.

(** A quote that follows plain text and is not the last character ends the
    literal before its end. *)
Lemma decodeBody_cut (a : string) (c : ascii) (rest : string) :
  plainText a = true ->
  decodeBody (a ++ DQ ++ String c rest) = None.
Proof.
  intros Ha. induction a as [|x a IH]; [reflexivity|].
  simpl in Ha. apply andb_true_iff in Ha. destruct Ha as [Hx Ha].
  unfold plainChar in Hx. apply negb_true_iff in Hx.
  apply orb_false_elim in Hx. destruct Hx as [Hx Hcr].
  apply orb_false_elim in Hx. destruct Hx as [Hx Hlf].
  apply orb_false_elim in Hx. destruct Hx as [Hq Hb].
  cbn [append decodeBody]. rewrite Hq, Hb, Hlf, Hcr. cbn [orb].
  now rewrite (IH Ha).
Qed.

Lemma literal_cut (a b : string) :
  plainText a = true ->
  stringLiteralValue (DQ ++ (a ++ DQ ++ b) ++ DQ) = None.
Proof.
  intros Ha.
  replace (DQ ++ (a ++ DQ ++ b) ++ DQ)
    with (String dquote (a ++ DQ ++ (b ++ DQ)))
    by (cbn [DQ append]; now rewrite !append_assoc).
  cbn [stringLiteralValue]. rewrite Ascii.eqb_refl.
  destruct b as [|c b]; now apply decodeBody_cut.
Qed.

Section Raw.

Variable lookupVerdict :
  state -> lookupQuery -> option database -> call (option (list record)).

Lemma lookupRecord_cut (input : LookupRecordInput) (st : state) (a b : string) :
  plainText a = true ->
  lookup_value input = a ++ DQ ++ b ->
  lookupRecord lookupVerdict input st = None.
Proof.
  intros Ha Hv. unfold lookupRecord. rewrite Hv, (literal_cut a b Ha).
  repeat match goal with
         | |- context [match stringLiteralValue ?x with _ => _ end] =>
             destruct (stringLiteralValue x)
         end; reflexivity.
Qed.

End Raw.

(** X15.  lookup_record with a lookup type, a value and a database name
    that hold no quote, backslash or line terminator: the script has the
    shape it was written to have, and it works with the texts as the caller
    gave them; the limit is 50 when none is given, and the tags are matched
    in any combination only when [matchAnyTag] is [true]. *)
Theorem lookupRecord_runs_on_plain_texts
  (lookupVerdict :
     state -> lookupQuery -> option database -> call (option (list record)))
  (input : LookupRecordInput) (st : state) :
  plainText (lookup_lookupType input) = true ->
  plainText (lookup_value input) = true ->
  plainText (orEmpty (lookup_databaseName input)) = true ->
  lookupRecord lookupVerdict input st
  = Some (lookupRecordScript lookupVerdict
            (orEmpty (lookup_databaseName input))
            (templateText (lookup_databaseName input))
            ("Database not found: " ++ templateText (lookup_databaseName input))
            (lookup_lookupType input) (lookup_value input)
            (match lookup_tags input with Some tags => tags | None => [] end)
            (match lookup_matchAnyTag input with Some true => true | _ => false end)
            (match lookup_limit input with Some limit => limit | None => 50%Z end)
            ("Invalid lookup type: " ++ lookup_lookupType input) st).
Proof.
  intros Ht Hv Hd.
  assert (Hn : plainText (templateText (lookup_databaseName input)) = true).
  { destruct (lookup_databaseName input) as [[|c s]|];
      [reflexivity|exact Hd|reflexivity]. }
  unfold lookupRecord.
  rewrite (literal_of_plain _ Hd), (literal_of_plain _ Hn),
    (literal_of_plain _ Ht), (literal_of_plain _ Hv).
  change (DQ ++ "Database not found: "
             ++ templateText (lookup_databaseName input) ++ DQ)
    with (DQ ++ ("Database not found: "
                   ++ templateText (lookup_databaseName input)) ++ DQ).
  change (DQ ++ "Invalid lookup type: " ++ lookup_lookupType input ++ DQ)
    with (DQ ++ ("Invalid lookup type: " ++ lookup_lookupType input) ++ DQ).
  rewrite !literal_of_plain by (rewrite plainText_app; cbn [andb];
                                first [rewrite Hn | rewrite Ht]; reflexivity).
  reflexivity.
Qed.

(** The theorem at work: a lookup by file name, limited to one record. *)
Lemma lookupRecord_runs_on_plain_texts_witness :
  lookupRecord MoreExamples.lookupVerdict MoreExamples.lookupMemo Example.st0
  = Some (searchPayload [lookupResult Example.note] 2, Example.st0).
Proof.
  exact (lookupRecord_runs_on_plain_texts MoreExamples.lookupVerdict
           MoreExamples.lookupMemo Example.st0 eq_refl eq_refl eq_refl).
Defined.

(** X13.  create_record and lookup_record write the name, and the value,
    between quotes as the caller gave it.  Whenever the text holds a double
    quote after a stretch without quote, backslash or line terminator, what
    stands between the quotes is no string literal any more: the text of
    the caller has left its literal, and lookup_record has no script of the
    shape it was written to have.  The same text, written through
    [escapeStringForJXA] (modelled from the spec) as the validated tools
    write theirs, is a literal, and its value is the text. *)
Theorem a_quote_in_raw_text_ends_its_literal (a b : string) :
  plainText a = true ->
  (forall input : CreateRecordInput,
      create_name input = a ++ DQ ++ b ->
      stringLiteralValue (createRecordNameLiteral input) = None)
  /\ (forall (lookupVerdict :
                state -> lookupQuery -> option database
                -> call (option (list record)))
             (input : LookupRecordInput) (st : state),
         lookup_value input = a ++ DQ ++ b ->
         lookupRecord lookupVerdict input st = None)
  /\ stringLiteralValue (quotedOrNull (Some (a ++ DQ ++ b)))
     = Some (a ++ DQ ++ b).
Proof.
  intros Ha. split; [|split].
  - intros input Hname. unfold createRecordNameLiteral. rewrite Hname.
    now apply literal_cut.
  - intros lookupVerdict input st Hv.
    now apply (lookupRecord_cut lookupVerdict input st a b).
  - pose proof (eval_quotedOrNull (Some (a ++ DQ ++ b))) as H.
    unfold evalStringOrNull in H.
    destruct (a ++ DQ ++ b) as [|c s] eqn:E.
    + destruct a; discriminate E.
    + unfold quotedOrNull. apply literal_of_escaped.
Qed.

(** The theorem at work: the name [Q3 "draft"]. *)
Lemma a_quote_in_raw_text_ends_its_literal_witness :
  plainText "Q3 " = true
  /\ stringLiteralValue (createRecordNameLiteral Example.createQuoted) = None
  /\ lookupRecord MoreExamples.lookupVerdict MoreExamples.lookupQuoted
                  Example.st0 = None.
Proof.
  split; [reflexivity|].
  destruct (a_quote_in_raw_text_ends_its_literal
              "Q3 " ("draft" ++ DQ) eq_refl) as (H1 & H2 & _).
  split.
  - apply (H1 Example.createQuoted). reflexivity.
  - apply (H2 MoreExamples.lookupVerdict MoreExamples.lookupQuoted
              Example.st0). reflexivity.
Defined.

Lemma lookupQueryOf_unknown (lookupType value : string) (tags : list string)
  (matchAnyTag : bool) :
  ~ In lookupType
       ["filename"; "path"; "url"; "comment"; "contentHash"; "tags"] ->
  lookupQueryOf lookupType value tags matchAnyTag = None.
Proof.
  intros H. unfold lookupQueryOf.
  repeat match goal with
         | |- context [String.eqb lookupType ?k] =>
             destruct (String.eqb_spec lookupType k) as [E|_];
             [exfalso; apply H; rewrite E; cbn; tauto|]
         end.
  reflexivity.
Qed.

(** X14.  lookup_record with a lookup type that is none of [filename],
    [path], [url], [comment], [contentHash] and [tags]: when the texts read
    between quotes as they are written and the database resolves, the
    answer is the error [Invalid lookup type: <type>], whatever the
    application would have found, and the application is left as it was. *)
Theorem lookupRecord_refuses_unknown_types
  (lookupVerdict :
     state -> lookupQuery -> option database -> call (option (list record)))
  (input : LookupRecordInput) (st : state) (searchDatabase : option database) :
  plainText (lookup_lookupType input) = true ->
  plainText (lookup_value input) = true ->
  lookupRecordDatabaseSource (lookup_databaseName input) st
  = Some (inr searchDatabase) ->
  ~ In (lookup_lookupType input)
       ["filename"; "path"; "url"; "comment"; "contentHash"; "tags"] ->
  lookupRecord lookupVerdict input st
  = Some (failure ("Invalid lookup type: " ++ lookup_lookupType input), st).
Proof.
  intros Ht Hv Hdb Hunknown.
  unfold lookupRecordDatabaseSource in Hdb. unfold lookupRecord.
  destruct (stringLiteralValue (DQ ++ orEmpty (lookup_databaseName input) ++ DQ))
    as [test|]; [|discriminate Hdb].
  destruct (stringLiteralValue
              (DQ ++ templateText (lookup_databaseName input) ++ DQ))
    as [name|]; [|discriminate Hdb].
  destruct (stringLiteralValue
              (DQ ++ "Database not found: "
                  ++ templateText (lookup_databaseName input) ++ DQ))
    as [error|]; [|discriminate Hdb].
  injection Hdb as Hdb.
  rewrite (literal_of_plain _ Ht), (literal_of_plain _ Hv).
  change (DQ ++ "Invalid lookup type: " ++ lookup_lookupType input ++ DQ)
    with (DQ ++ ("Invalid lookup type: " ++ lookup_lookupType input) ++ DQ).
  rewrite literal_of_plain by (rewrite plainText_app, Ht; reflexivity).
  unfold lookupRecordScript. rewrite Hdb.
  now rewrite lookupQueryOf_unknown.
Qed.

(** The theorem at work: there is no lookup by title. *)
Lemma lookupRecord_refuses_unknown_types_witness :
  lookupRecord MoreExamples.lookupVerdict MoreExamples.lookupByTitle
               Example.st0
  = Some (failure "Invalid lookup type: title", Example.st0).
Proof.
  apply (lookupRecord_refuses_unknown_types MoreExamples.lookupVerdict
           MoreExamples.lookupByTitle Example.st0 (Some Example.inbox));
    try reflexivity.
  cbn. intros [E|[E|[E|[E|[E|[E|[]]]]]]]; discriminate E.
Defined.

End RawFacts.

(** ** DevonThinkTool: what [execute] runs and what the lookups resolve *)

Module BaseFacts.
Import JS Sanitizer App Formatter Tools Base TextFacts DatabaseFacts.

Lemma trimStart_head (s : string) :
  match trimStart s with
  | EmptyString => True
  | String c _ => isWhiteSpace c = false
  end.
Proof.
  induction s as [|c s IH]; simpl; [exact I|].
  destruct (isWhiteSpace c) eqn:E; [exact IH|exact E].
Qed.

Lemma trimEnd_head (c : ascii) (s : string) :
  isWhiteSpace c = false -> exists kept, trimEnd (String c s) = String c kept.
Proof.
  intros H. simpl. destruct (trimEnd s) as [|d kept].
  - rewrite H. now exists EmptyString.
  - now exists (String d kept).
Qed.

(** Whether a text starts with a parenthesis once trimmed is decided by
    what is left of it when the white space at its start is dropped. *)
Lemma startsWith_trim (s : string) :
  isPrefix "(" (trim s) = isPrefix "(" (trimStart s).
Proof.
  unfold trim. pose proof (trimStart_head s) as H.
  destruct (trimStart s) as [|c rest]; [reflexivity|].
  destruct (trimEnd_head c rest H) as (kept & ->). reflexivity.
Qed.

Lemma wrappedScript_wraps (script : string) :
  isPrefix "(" (trimStart script) = false ->
  wrappedScript script = "(() => { " ++ script ++ " })();".
Proof. intros H. unfold wrappedScript. now rewrite startsWith_trim, H. Qed.

(** X16.  What [DevonThinkTool.execute] hands to [executeJxa].  The text
    always starts with a parenthesis where its white space ends, and
    wrapping is done once: a text that [execute] has wrapped is left as it
    is by a second pass.  Every text that [wrapInTryCatch] or
    [buildRecordLookup] gives is wrapped, whatever the code, the error
    handler and the identifiers are. *)
Theorem execute_wraps_once (script : string) :
  isPrefix "(" (trim (wrappedScript script)) = true
  /\ wrappedScript (wrappedScript script) = wrappedScript script
  /\ (forall (code : string) (errorHandler : option string),
         wrappedScript (wrapInTryCatch code errorHandler)
         = "(() => { " ++ wrapInTryCatch code errorHandler ++ " })();")
  /\ (forall (uuid : option string) (id : option Z)
             (path databaseName : option string),
         wrappedScript (buildRecordLookup uuid id path databaseName)
         = "(() => { " ++ buildRecordLookup uuid id path databaseName
                       ++ " })();").
Proof.
  assert (Hstart : isPrefix "(" (trim (wrappedScript script)) = true).
  { unfold wrappedScript.
    destruct (isPrefix "(" (trim script)) eqn:E; [exact E|].
    rewrite startsWith_trim. reflexivity. }
  split; [exact Hstart|]. split; [|split].
  - unfold wrappedScript at 1. now rewrite Hstart.
  - intros code errorHandler. apply wrappedScript_wraps. reflexivity.
  - intros uuid id path databaseName. apply wrappedScript_wraps.
    unfold buildRecordLookup.
    destruct uuid as [[|c s]|]; try reflexivity;
      (destruct id as [id|];
       [destruct databaseName as [[|d n]|]; reflexivity|]);
      (destruct path as [[|p q]|]; try reflexivity;
       destruct databaseName as [[|d n]|]; reflexivity).
Qed.

Lemma literals_skip (p t : string) :
  quoteFree p = true ->
  literalsFrom Outside (p ++ t) = literalsFrom Outside t.
Proof.
  induction p as [|c p IH]; intros H; [reflexivity|].
  simpl in H. apply andb_true_iff in H. destruct H as [Hc Hp].
  apply negb_true_iff in Hc. simpl. rewrite Hc. now apply IH.
Qed.

Lemma literals_open (t : string) :
  literalsFrom Outside (DQ ++ t) = literalsFrom (Inside EmptyString) t.
Proof. reflexivity. Qed.

Lemma literals_plain (p : string) :
  forall (value t : string),
    plainText p = true ->
    literalsFrom (Inside value) (p ++ t) = literalsFrom (Inside (value ++ p)) t.
Proof.
  induction p as [|c p IH]; intros value t H.
  - now rewrite append_empty_r.
  - simpl in H. apply andb_true_iff in H. destruct H as [Hc Hp].
    unfold plainChar in Hc. apply negb_true_iff in Hc.
    apply orb_false_elim in Hc. destruct Hc as [Hc Hcr].
    apply orb_false_elim in Hc. destruct Hc as [Hc Hlf].
    apply orb_false_elim in Hc. destruct Hc as [Hq Hb].
    simpl. rewrite Hq, Hb, Hlf, Hcr. simpl. rewrite (IH _ _ Hp).
    now rewrite append_assoc.
Qed.

(** A text written through [escapeStringForJXA] is read back as it was. *)
Lemma literals_escaped_text (s : string) :
  forall (value tail : string),
    literalsFrom (Inside value) (escapeStringForJXA s ++ tail)
    = literalsFrom (Inside (value ++ s)) tail.
Proof.
  induction s as [|c s IH]; intros value tail.
  - simpl. now rewrite append_empty_r.
  - assert (Hvalue : (value ++ String c EmptyString) ++ s = value ++ String c s)
      by (now rewrite append_assoc).
    simpl escapeStringForJXA. rewrite append_assoc. unfold escapeChar.
    destruct (Ascii.eqb_spec c backslash) as [->|Hb].
    { simpl. rewrite IH, Hvalue. reflexivity. }
    destruct (Ascii.eqb_spec c dquote) as [->|Hq].
    { simpl. rewrite IH, Hvalue. reflexivity. }
    destruct (Ascii.eqb_spec c LF) as [->|Hl].
    { simpl. rewrite IH, Hvalue. reflexivity. }
    destruct (Ascii.eqb_spec c CR) as [->|Hr].
    { simpl. rewrite IH, Hvalue. reflexivity. }
    simpl.
    destruct (Ascii.eqb_spec c dquote); [contradiction|].
    destruct (Ascii.eqb_spec c backslash); [contradiction|].
    destruct (Ascii.eqb_spec c LF); [contradiction|].
    destruct (Ascii.eqb_spec c CR); [contradiction|].
    simpl. rewrite IH, Hvalue. reflexivity.
Qed.

(** And the literal ends where its closing quote stands. *)
Lemma literals_escaped (s value t : string) :
  literalsFrom (Inside value) (escapeStringForJXA s ++ DQ ++ t)
  = option_map (cons (value ++ s)) (literalsFrom Outside t).
Proof. rewrite literals_escaped_text. reflexivity. Qed.

(** A literal that holds a fixed text and then an escaped one. *)
Lemma literals_message (prefix s t : string) :
  plainText prefix = true ->
  literalsFrom Outside (DQ ++ prefix ++ escapeStringForJXA s ++ DQ ++ t)
  = option_map (cons (prefix ++ s)) (literalsFrom Outside t).
Proof.
  intros H. rewrite literals_open, (literals_plain _ _ _ H), literals_escaped.
  reflexivity.
Qed.

Lemma literals_quoted (s t : string) :
  literalsFrom Outside (DQ ++ escapeStringForJXA s ++ DQ ++ t)
  = option_map (cons s) (literalsFrom Outside t).
Proof. now rewrite literals_open, literals_escaped. Qed.

Lemma literals_of_databaseLookup (c : ascii) (s t : string) :
  literalsFrom Outside (buildDatabaseLookup (Some (String c s)) ++ t)
  = option_map
      (fun rest => String c s :: ("Database not found: " ++ String c s) :: rest)
      (literalsFrom Outside t).
Proof.
  unfold buildDatabaseLookup.
  set (name := String c s). set (escaped := escapeStringForJXA name).
  rewrite !append_assoc.
  repeat (rewrite literals_skip by reflexivity). unfold escaped.
  rewrite literals_quoted.
  repeat (rewrite literals_skip by reflexivity).
  rewrite literals_message by reflexivity.
  repeat (rewrite literals_skip by reflexivity).
  destruct (literalsFrom Outside t); reflexivity.
Qed.

(** X17.  The string literals of the statements that [buildDatabaseLookup]
    and [buildRecordLookup] write, with [escapeStringForJXA] as modelled
    from the spec.  Whatever the texts of the caller hold, quotes and
    backslashes included, the statements always have the same literals, and
    each holds the text it was written for: the database name and the
    message [Database not found: <name>]; the UUID and the message
    [Record not found with UUID: <uuid>], and nothing of the ID, the path or
    the database name when a UUID is given; the path and the message
    [Record not found at path: <path>] after those of the database when
    only a path is given; and the one message [No record identifier
    provided] when nothing is given. *)
Theorem built_lookups_quote_the_callers_text :
  (forall (c : ascii) (s : string),
      stringLiterals (buildDatabaseLookup (Some (String c s)))
      = Some [String c s; "Database not found: " ++ String c s])
  /\ (forall (c : ascii) (s : string) (id : option Z)
             (path databaseName : option string),
         stringLiterals
           (buildRecordLookup (Some (String c s)) id path databaseName)
         = Some [String c s; "Record not found with UUID: " ++ String c s])
  /\ (forall (c : ascii) (s : string) (databaseName : option string),
         stringLiterals
           (buildRecordLookup None None (Some (String c s)) databaseName)
         = Some (List.app
                   match databaseName with
                   | Some (String d n) =>
                       [String d n; "Database not found: " ++ String d n]
                   | _ => []
                   end
                   [String c s; "Record not found at path: " ++ String c s]))
  /\ (forall databaseName : option string,
         stringLiterals (buildRecordLookup None None None databaseName)
         = Some ["No record identifier provided"]).
Proof.
  unfold stringLiterals. split; [|split; [|split]].
  - intros c s.
    pose proof (literals_of_databaseLookup c s EmptyString) as H.
    rewrite append_empty_r in H. exact H.
  - intros c s id path databaseName. unfold buildRecordLookup, join, newline.
    set (uuid := String c s). rewrite !append_assoc.
    repeat (rewrite literals_skip by reflexivity).
    rewrite literals_quoted.
    repeat (rewrite literals_skip by reflexivity).
    rewrite literals_message by reflexivity.
    reflexivity.
  - intros c s databaseName. unfold buildRecordLookup, join, newline.
    set (path := String c s).
    assert (Hrest : literalsFrom Outside
                      (String LF EmptyString
                       ++ ("const record = targetDatabase.getRecordAt(" ++ DQ
                           ++ escapeStringForJXA path ++ DQ ++ ");")
                       ++ String LF EmptyString
                       ++ "if (!record) throw new Error(" ++ DQ
                       ++ "Record not found at path: "
                       ++ escapeStringForJXA path ++ DQ ++ ");")
                    = Some [path; "Record not found at path: " ++ path]).
    { rewrite !append_assoc.
      repeat (rewrite literals_skip by reflexivity).
      rewrite literals_quoted.
      repeat (rewrite literals_skip by reflexivity).
      rewrite literals_message by reflexivity.
      reflexivity. }
    destruct databaseName as [[|d n]|]; cbn [truthy].
    + rewrite literals_skip by reflexivity. now rewrite Hrest.
    + rewrite literals_of_databaseLookup, Hrest. reflexivity.
    + rewrite literals_skip by reflexivity. now rewrite Hrest.
  - intros databaseName. reflexivity.
Qed.

End BaseFacts.

(** ** The tool table *)

Module DispatchFacts.
Import JS Sanitizer App Tools Server.

Lemma findTool_skips (before : list tool) (rest : list tool) (name : string) :
  ~ In name (map tool_name before) ->
  findTool (before ++ rest) name = findTool rest name.
Proof.
  unfold findTool. induction before as [|t before IH]; intros H;
    [reflexivity|].
  cbn [app find]. destruct (String.eqb_spec (tool_name t) name) as [E|_].
  - exfalso. apply H. left. exact E.
  - apply IH. intros Hin. apply H. right. exact Hin.
Qed.

(** X18.  The handler of a tool call runs the first entry of the table
    that bears the name asked for: the entries before it play no part, and
    an entry after it with the same name is never run, whatever it is. *)
Theorem callTool_runs_the_first_entry_of_that_name
  (before after : list tool) (t : tool) (args : json) (st : state) :
  ~ In (tool_name t) (map tool_name before) ->
  callTool (before ++ t :: after) (tool_name t) args st
  = callTool [t] (tool_name t) args st.
Proof.
  intros H. unfold callTool. rewrite (findTool_skips _ _ _ H).
  unfold findTool. cbn [find]. rewrite String.eqb_refl. reflexivity.
Qed.

(** The theorem at work: of two entries called [echo], the first one
    answers. *)
Lemma callTool_runs_the_first_entry_of_that_name_witness :
  callTool (Server.tools tabAndNewlines
              ++ MoreExamples.echo :: [MoreExamples.shadowed])
           "echo" (JObj []) Example.st0
  = Some (Content (JObj []), Example.st0).
Proof.
  apply (callTool_runs_the_first_entry_of_that_name
           (Server.tools tabAndNewlines) [MoreExamples.shadowed]
           MoreExamples.echo (JObj []) Example.st0).
  cbn. intros [E|[E|[E|[E|[]]]]]; discriminate E.
Defined.

End DispatchFacts.

(** ** get_record_by_identifier without an identifier it can use *)

Module IdentifierFacts.
Import JS Sanitizer App Helpers Tools TextFacts.

(** X19.  get_record_by_identifier takes a UUID that is not empty, or else
    an ID together with a database name; an ID of 0 counts as no ID, and an
    empty text as no text.  Called with neither, it answers one and the
    same failure whatever the application holds, and leaves the application
    as it was: no database and no record is looked up.  The failure is the
    refusal of the database name when that fails the safety check, and
    otherwise the error that the script catches on reading the properties
    of the record it never set. *)
Theorem getRecordByIdentifier_without_identifier
  (allowedControl : ascii -> bool) (input : GetRecordByIdentifierInput) :
  truthy (byid_uuid input) = false ->
  truthyNumber (byid_id input) && truthy (byid_databaseName input) = false ->
  exists error : string,
    forall st : state,
      run (getRecordByIdentifier allowedControl input) st
      = Some (failure error, st).
Proof.
  intros Hu Hid. unfold getRecordByIdentifier.
  replace (rejected allowedControl (byid_uuid input)) with false
    by (unfold rejected; now rewrite Hu).
  destruct (rejected allowedControl (byid_databaseName input)).
  - eexists. intros st. reflexivity.
  - eexists. intros st. cbn [run]. unfold getRecordByIdentifierSource.
    rewrite !eval_quotedOrNull. unfold getRecordByIdentifierScript.
    rewrite !truthy_seen, Hu, Hid. reflexivity.
Qed.

(** The theorem at work: the record with ID 0 of the database Inbox is
    asked for. *)
Lemma getRecordByIdentifier_without_identifier_witness :
  exists error : string,
    forall st : state,
      run (getRecordByIdentifier tabAndNewlines
             (mkGetRecordByIdentifierInput None (Some 0%Z) (Some "Inbox"))) st
      = Some (failure error, st).
Proof.
  exact (getRecordByIdentifier_without_identifier tabAndNewlines
           (mkGetRecordByIdentifierInput None (Some 0%Z) (Some "Inbox"))
           eq_refl eq_refl).
Defined.

End IdentifierFacts.

(** ** What search hands to its script *)

Module SearchDeliveryFacts.
Import JS Sanitizer App Helpers Tools TextFacts ValidationFacts DeliveryFacts.

Lemma eval_formatOptionalString (x : option string) :
  evalStringOrNull (formatOptionalString x) = Some x.
Proof.
  destruct x as [s|]; [|reflexivity].
  unfold formatOptionalString, formatValueForJXA. cbn [Formatter.formatValue].
  unfold evalStringOrNull.
  change (String.eqb (DQ ++ escapeStringForJXA s ++ DQ) "null") with false.
  now rewrite literal_of_escaped.
Qed.

(** X20.  search, for every way of escaping the query that gives a string
    literal.  When one of the four checks of the tool fails, the answer is
    the error of the first check that fails and the application is not
    touched.  When all pass, the answer is that of the script, which works
    with the value of that literal as its query, with the group UUID, the
    group path and the database name as the caller gave them (an empty text
    reaches it as [null]), and with the record type and the comparison as
    the caller gave them, which no check looks at.  ([escapeStringForJXA]
    and [formatValueForJXA] are modelled from the spec.) *)
Theorem search_refuses_or_runs_on_the_callers_text
  (allowedControl : ascii -> bool)
  (isGroup : record -> bool) (isVersion41OrLater : state -> bool)
  (escapeSearchQuery : string -> string)
  (input : SearchInput) (st : state) (query : string) :
  stringLiteralValue (DQ ++ escapeSearchQuery (search_query input) ++ DQ)
  = Some query ->
  run (search allowedControl isGroup isVersion41OrLater escapeSearchQuery input)
      st
  = match firstFailing allowedControl (searchChecks input) with
    | Some (message, _) => Some (failure message, st)
    | None =>
        Some (searchScript isGroup isVersion41OrLater query
                (seen (search_groupUuid input)) (search_groupId input)
                (seen (search_groupPath input))
                (seen (search_databaseName input))
                (match search_useCurrentGroup input with
                 | Some true => true
                 | _ => false
                 end)
                (search_recordType input) (search_comparison input)
                (search_excludeSubgroups input) (limitOf input) st)
    end.
Proof.
  intros Hq. unfold search, searchChecks.
  rewrite !(firstFailing_cons allowedControl). cbn [snd].
  rewrite <- !rejected_orElse.
  destruct (negb (isJXASafeString allowedControl (search_query input)));
    [reflexivity|].
  destruct (rejected allowedControl (search_groupUuid input)); [reflexivity|].
  destruct (rejected allowedControl (search_groupPath input)); [reflexivity|].
  destruct (rejected allowedControl (search_databaseName input));
    [reflexivity|].
  cbn [run firstFailing find]. unfold searchSource.
  now rewrite Hq, !eval_quotedOrNull, !eval_formatOptionalString.
Qed.

(** The theorem at work: the PDF documents tagged [work] of the Inbox. *)
Lemma search_refuses_or_runs_on_the_callers_text_witness :
  run (search tabAndNewlines Example.isGroup Example.isVersion41OrLater
              escapeStringForJXA MoreExamples.searchWork) Example.st0
  = Some (searchPayload [searchResult Example.report] 1, Example.st0).
Proof.
  exact (search_refuses_or_runs_on_the_callers_text
           tabAndNewlines Example.isGroup Example.isVersion41OrLater
           escapeStringForJXA MoreExamples.searchWork Example.st0
           "tag:work" eq_refl).
Defined.

End SearchDeliveryFacts.
